(** * SPDX SBOM parser: a shallow embedding of [sbom_parser_gui.py]

    The parsing core of the program (supplier clean-up, package-manager
    locator aggregation, the JSON / tag-value / XML extractors, the
    dispatcher on the file extension and the CSV writer) is translated
    function by function.  Python values that reach the core through
    [json.load] are dynamically typed, so they are embedded as an inductive
    type [value]; a Python exception is the [Raise] branch of [result]. *)

From Stdlib Require Import String Ascii List Bool Arith ZArith Lia.
From Stdlib Require Import Floats.SpecFloat DecimalString Permutation.
Import ListNotations.

Set Warnings "-register-all".
Local Open Scope string_scope.
Local Open Scope list_scope.

(** ** Python text

    A [str] is a [string]; each [ascii] stands for one code point, so the
    texts of this development are those whose code points are below 256.
    [isspace] is Python's on all of them.  The case tables are Python's on
    the ASCII range only: a character above 127 is left as it is by [upper]
    and [lower], where Python maps some of them (to characters outside this
    range for two of them). *)

Module PyStr.

Definition LF : ascii := "010"%char.
Definition CR : ascii := "013"%char.

(** [str.isspace] on one character: TAB, LF, VT, FF, CR, the four
    separators FS, GS, RS, US, the space, NEL (U+0085) and the no-break
    space (U+00A0). *)
Definition isspace (c : ascii) : bool :=
  let n := nat_of_ascii c in
  (((9 <=? n) && (n <=? 13)) || ((28 <=? n) && (n <=? 32))
   || (n =? 133) || (n =? 160))%nat.

(** [s.isascii()] *)
Fixpoint isascii (s : string) : bool :=
  match s with
  | EmptyString => true
  | String c r => (nat_of_ascii c <? 128)%nat && isascii r
  end.

Definition upper_char (c : ascii) : ascii :=
  let n := nat_of_ascii c in
  if ((97 <=? n) && (n <=? 122))%nat then ascii_of_nat (n - 32) else c.

Definition lower_char (c : ascii) : ascii :=
  let n := nat_of_ascii c in
  if ((65 <=? n) && (n <=? 90))%nat then ascii_of_nat (n + 32) else c.

Fixpoint map_chars (f : ascii -> ascii) (s : string) : string :=
  match s with
  | EmptyString => EmptyString
  | String c r => String (f c) (map_chars f r)
  end.

(** [s.upper()], [s.lower()] *)
Definition upper (s : string) : string := map_chars upper_char s.
Definition lower (s : string) : string := map_chars lower_char s.

(** [s.replace(a, b)] for one-character [a] and [b] *)
Definition replace_char (a b : ascii) (s : string) : string :=
  map_chars (fun c => if Ascii.eqb c a then b else c) s.

(** [s.startswith(p)] *)
Definition startswith (s p : string) : bool := String.prefix p s.

(** [s[n:]] *)
Fixpoint slice_from (n : nat) (s : string) : string :=
  match n, s with
  | O, _ => s
  | S _, EmptyString => EmptyString
  | S k, String _ r => slice_from k r
  end.

(** [s.lstrip()], [s.rstrip()], [s.strip()] *)
Fixpoint lstrip (s : string) : string :=
  match s with
  | EmptyString => EmptyString
  | String c r => if isspace c then lstrip r else s
  end.

Fixpoint rstrip (s : string) : string :=
  match s with
  | EmptyString => EmptyString
  | String c r =>
      match rstrip r with
      | EmptyString => if isspace c then EmptyString else String c EmptyString
      | r' => String c r'
      end
  end.

Definition strip (s : string) : string := rstrip (lstrip s).

(** [sep.join(parts)] *)
Fixpoint join (sep : string) (parts : list string) : string :=
  match parts with
  | [] => EmptyString
  | [p] => p
  | p :: rest => p ++ sep ++ join sep rest
  end.

(** [s.split(c, 1)]: the text before the first [c] and, when there is
    one, the text after it. *)
Fixpoint split_once (c : ascii) (s : string) : string * option string :=
  match s with
  | EmptyString => (EmptyString, None)
  | String a r =>
      if Ascii.eqb a c then (EmptyString, Some r)
      else let '(h, t) := split_once c r in (String a h, t)
  end.

(** [s.split()]: the maximal runs of non-whitespace characters.  [cur]
    holds the run being read, in reverse. *)
Fixpoint rev_string (acc s : string) : string :=
  match s with
  | EmptyString => acc
  | String c r => rev_string (String c acc) r
  end.

Fixpoint split_ws_aux (cur : string) (s : string) : list string :=
  match s with
  | EmptyString =>
      match cur with
      | EmptyString => []
      | _ => [rev_string EmptyString cur]
      end
  | String c r =>
      if isspace c then
        match cur with
        | EmptyString => split_ws_aux EmptyString r
        | _ => rev_string EmptyString cur :: split_ws_aux EmptyString r
        end
      else split_ws_aux (String c cur) r
  end.

Definition split_ws (s : string) : list string := split_ws_aux EmptyString s.

(** Iterating a [str] yields its characters as one-character strings. *)
Fixpoint chars (s : string) : list string :=
  match s with
  | EmptyString => []
  | String c r => String c EmptyString :: chars r
  end.

End PyStr.

(** ** Python values and exceptions *)

(** What [json.load] can return, which is also all the core ever builds:
    [None], booleans, integers, floats, strings, lists and dicts with
    string keys.  A dict is the list of its items in insertion order. *)
Inductive value : Type :=
| VNone
| VBool (b : bool)
| VInt (z : Z)
| VFloat (f : spec_float)
| VStr (s : string)
| VList (l : list value)
| VDict (d : list (string * value)).

Definition dict : Type := list (string * value).

Inductive exn : Type :=
| AttributeError (ty attr : string)  (* 'ty' object has no attribute 'attr' *)
| TypeError (msg : string)
| ValueError (msg : string)
| IndexError                         (* list index out of range *)
| CsvError (msg : string)            (* csv.Error *)
| JSONDecodeError                    (* raised by json.load *)
| ParseError                         (* raised by ET.parse *)
| OSError.                           (* raised by open *)

Inductive result (A : Type) : Type :=
| Ok (a : A)
| Raise (e : exn).
Arguments Ok {A} a.
Arguments Raise {A} e.

Definition bind {A B} (m : result A) (k : A -> result B) : result B :=
  match m with
  | Ok a => k a
  | Raise e => Raise e
  end.

Declare Scope py_scope.
Delimit Scope py_scope with py.
Notation "x <- m ;; k" := (bind m (fun x => k))
  (at level 61, m at next level, right associativity) : py_scope.
Local Open Scope py_scope.

(** A [for] loop whose body may raise: the items are visited in order and
    the first exception ends the loop. *)
Fixpoint for_each {A S} (body : S -> A -> result S) (items : list A) (st : S)
  : result S :=
  match items with
  | [] => Ok st
  | x :: rest => st' <- body st x ;; for_each body rest st'
  end.

Definition type_name (v : value) : string :=
  match v with
  | VNone => "NoneType"
  | VBool _ => "bool"
  | VInt _ => "int"
  | VFloat _ => "float"
  | VStr _ => "str"
  | VList _ => "list"
  | VDict _ => "dict"
  end.

(** Truth value of an object, as [not raw] and [if locators] test it. *)
Definition truthy (v : value) : bool :=
  match v with
  | VNone => false
  | VBool b => b
  | VInt z => negb (Z.eqb z 0)
  | VFloat (S754_zero _) => false
  | VFloat _ => true
  | VStr s => negb (String.eqb s "")
  | VList l => match l with [] => false | _ => true end
  | VDict d => match d with [] => false | _ => true end
  end.

(** [v == text] for a string literal [text]: only a [str] can be equal. *)
Definition eq_str (v : value) (text : string) : bool :=
  match v with
  | VStr s => String.eqb s text
  | _ => false
  end.

(** [d.get(key, default)] on a dict. *)
Fixpoint dict_get (d : dict) (key : string) (default : value) : value :=
  match d with
  | [] => default
  | (k, v) :: rest => if String.eqb k key then v else dict_get rest key default
  end.

(** [d[key] = v]: the item is replaced in place, or appended. *)
Fixpoint dict_set (d : dict) (key : string) (v : value) : dict :=
  match d with
  | [] => [(key, v)]
  | (k, w) :: rest =>
      if String.eqb k key then (k, v) :: rest else (k, w) :: dict_set rest key v
  end.

Definition keys (d : dict) : list string := map fst d.

(** [obj.get(key, default)] on any object: only a dict has the method. *)
Definition get (obj : value) (key : string) (default : value) : result value :=
  match obj with
  | VDict d => Ok (dict_get d key default)
  | _ => Raise (AttributeError (type_name obj) "get")
  end.

(** [iter(obj)]: the items a [for] loop visits. *)
Definition iter (obj : value) : result (list value) :=
  match obj with
  | VList l => Ok l
  | VDict d => Ok (map (fun k => VStr k) (keys d))
  | VStr s => Ok (map VStr (PyStr.chars s))
  | _ => Raise (TypeError ("'" ++ type_name obj ++ "' object is not iterable"))
  end.

Definition SENTINEL : string := "N/A".

(** ** PARSING LOGIC *)

(** The loop of [clean_supplier] over the prefix tuple, on a [str]. *)
Fixpoint clean_supplier_loop (prefixes : list string) (raw : string) : string :=
  match prefixes with
  | [] => PyStr.strip raw
  | prefix :: rest =>
      if PyStr.startswith raw prefix
      then PyStr.strip (PyStr.slice_from (String.length prefix) raw)
      else clean_supplier_loop rest raw
  end.

Definition supplier_prefixes : list string :=
  ["Organization:"; "Person:"; "Tool:"].

(** [clean_supplier(raw)].  The JSON extractor passes whatever the document
    holds under [supplier]; an object that is truthy, differs from ['N/A']
    and is no [str] has no [startswith]. *)
Definition clean_supplier (raw : value) : result value :=
  if negb (truthy raw) || eq_str raw "N/A" then Ok raw
  else match raw with
       | VStr s => Ok (VStr (clean_supplier_loop supplier_prefixes s))
       | _ => Raise (AttributeError (type_name raw) "startswith")
       end.

(** [sep.join(items)]: every item has to be a [str]. *)
Definition nat_str (n : nat) : string :=
  NilEmpty.string_of_uint (Nat.to_uint n).

Fixpoint str_items (i : nat) (items : list value) : result (list string) :=
  match items with
  | [] => Ok []
  | VStr s :: rest => r <- str_items (S i) rest ;; Ok (s :: r)
  | v :: _ =>
      Raise (TypeError ("sequence item " ++ nat_str i
                        ++ ": expected str instance, " ++ type_name v ++ " found"))
  end.

Definition str_join (sep : string) (items : list value) : result string :=
  parts <- str_items 0 items ;; Ok (PyStr.join sep parts).

(** [v.upper()]: a method of [str] only. *)
Definition str_upper (v : value) : result string :=
  match v with
  | VStr s => Ok (PyStr.upper s)
  | _ => Raise (AttributeError (type_name v) "upper")
  end.

(** One turn of the loop of [extract_package_manager_locator]. *)
Definition locator_step (locators : list value) (ref : value)
  : result (list value) :=
  c <- get ref "referenceCategory" (VStr "") ;;
  u <- str_upper c ;;
  let category := PyStr.replace_char "_" "-" u in
  if String.eqb category "PACKAGE-MANAGER" then
    locator <- get ref "referenceLocator" (VStr "N/A") ;;
    Ok (locators ++ [locator])
  else Ok locators.

Definition extract_package_manager_locator (external_refs : value)
  : result value :=
  refs <- iter external_refs ;;
  locators <- for_each locator_step refs [] ;;
  if truthy (VList locators)
  then s <- str_join "; " locators ;; Ok (VStr s)
  else Ok (VStr "N/A").

(** The body of the loop of [parse_spdx_json]: the dict display evaluates
    its values from top to bottom. *)
Definition json_component (package : value) : result dict :=
  spdx_id <- get package "SPDXID" (VStr "N/A") ;;
  name <- get package "name" (VStr "N/A") ;;
  version <- get package "versionInfo" (VStr "N/A") ;;
  supplier_raw <- get package "supplier" (VStr "N/A") ;;
  supplier <- clean_supplier supplier_raw ;;
  license <- get package "licenseDeclared" (VStr "N/A") ;;
  copyright <- get package "copyrightText" (VStr "N/A") ;;
  download <- get package "downloadLocation" (VStr "N/A") ;;
  homepage <- get package "homepage" (VStr "N/A") ;;
  description <- get package "description" (VStr "N/A") ;;
  refs <- get package "externalRefs" (VList []) ;;
  locator <- extract_package_manager_locator refs ;;
  Ok [ ("SPDX_ID", spdx_id);
       ("Name", name);
       ("Version", version);
       ("Supplier", supplier);
       ("License_Declared", license);
       ("Copyright_Text", copyright);
       ("Download_Location", download);
       ("Homepage", homepage);
       ("Description", description);
       ("Package_Manager_Locator", locator) ].

(** [parse_spdx_json] once [json.load] has returned [sbom_data]. *)
Definition parse_spdx_json_data (sbom_data : value) : result (list dict) :=
  packages <- get sbom_data "packages" (VList []) ;;
  items <- iter packages ;;
  for_each (fun components package =>
              c <- json_component package ;; Ok (components ++ [c]))
           items [].

(** *** Tag-value *)

(** [f.readlines()] on a file opened in text mode with the default
    [newline=None]: a line ends at LF, at CR LF or at a CR that no LF
    follows, and each of these endings is handed over as one LF. *)
Fixpoint readlines (text : string) : list string :=
  match text with
  | EmptyString => []
  | String c r =>
      if Ascii.eqb c PyStr.LF then String PyStr.LF EmptyString :: readlines r
      else if Ascii.eqb c PyStr.CR then
        match r with
        | String c' r' =>
            if Ascii.eqb c' PyStr.LF
            then String PyStr.LF EmptyString :: readlines r'
            else String PyStr.LF EmptyString :: readlines r
        | EmptyString => [String PyStr.LF EmptyString]
        end
      else match readlines r with
           | [] => [String c EmptyString]
           | l :: ls => String c l :: ls
           end
  end.

(** [line.split(':', 1)[1]] *)
Definition after_colon (line : string) : result string :=
  match snd (PyStr.split_once ":" line) with
  | Some t => Ok t
  | None => Raise IndexError
  end.

Record tv_state : Type := {
  components : list dict;
  current_package : option dict;
  current_ext_refs : list value
}.

Definition tv_init : tv_state :=
  {| components := []; current_package := None; current_ext_refs := [] |}.

Definition new_package (name : string) : dict :=
  [ ("SPDX_ID", VStr "N/A");
    ("Name", VStr name);
    ("Version", VStr "N/A");
    ("Supplier", VStr "N/A");
    ("License_Declared", VStr "N/A");
    ("Copyright_Text", VStr "N/A");
    ("Download_Location", VStr "N/A");
    ("Homepage", VStr "N/A");
    ("Description", VStr "N/A");
    ("Package_Manager_Locator", VStr "N/A") ].

Definition tag_map : list (string * string) :=
  [ ("SPDXID:", "SPDX_ID");
    ("PackageVersion:", "Version");
    ("PackageSupplier:", "Supplier");
    ("PackageLicenseDeclared:", "License_Declared");
    ("PackageCopyrightText:", "Copyright_Text");
    ("PackageDownloadLocation:", "Download_Location");
    ("PackageHomePage:", "Homepage");
    ("PackageDescription:", "Description") ].

(** The block under [if current_package is not None], written twice in
    [parse_spdx_tv]: in the loop and after it. *)
Definition close_package (st : tv_state) : result (list dict) :=
  match current_package st with
  | Some pkg =>
      locator <- extract_package_manager_locator
                   (VList (current_ext_refs st)) ;;
      Ok (components st ++ [dict_set pkg "Package_Manager_Locator" locator])
  | None => Ok (components st)
  end.

(** [for tag, key in tag_map.items(): ... break] *)
Fixpoint tag_loop (items : list (string * string)) (line : string) (pkg : dict)
  : result dict :=
  match items with
  | [] => Ok pkg
  | (tag, key) :: rest =>
      if PyStr.startswith line tag then
        v <- after_colon line ;;
        let value := VStr (PyStr.strip v) in
        value' <- (if String.eqb key "Supplier" then clean_supplier value
                   else Ok value) ;;
        Ok (dict_set pkg key value')
      else tag_loop rest line pkg
  end.

(** [if line.startswith('ExternalRef:'): ...] *)
Definition ext_ref_line (line : string) (refs : list value)
  : result (list value) :=
  if PyStr.startswith line "ExternalRef:" then
    v <- after_colon line ;;
    let parts := PyStr.split_ws (PyStr.strip v) in
    if (3 <=? List.length parts)%nat then
      Ok (refs ++ [VDict [ ("referenceCategory", VStr (nth 0 parts ""));
                           ("referenceType", VStr (nth 1 parts ""));
                           ("referenceLocator", VStr (nth 2 parts "")) ]])
    else Ok refs
  else Ok refs.

(** The body of the loop over the lines. *)
Definition tv_line (st : tv_state) (raw_line : string) : result tv_state :=
  let line := PyStr.strip raw_line in
  if String.eqb line "" || PyStr.startswith line "#" then Ok st
  else if PyStr.startswith line "PackageName:" then
    done <- close_package st ;;
    name <- after_colon line ;;
    Ok {| components := done;
          current_package := Some (new_package (PyStr.strip name));
          current_ext_refs := [] |}
  else
    match current_package st with
    | Some pkg =>
        pkg' <- tag_loop tag_map line pkg ;;
        refs' <- ext_ref_line line (current_ext_refs st) ;;
        Ok {| components := components st;
              current_package := Some pkg';
              current_ext_refs := refs' |}
    | None => Ok st
    end.

(** [parse_spdx_tv] once [readlines] has returned [lines]. *)
Definition parse_spdx_tv_lines (lines : list string) : result (list dict) :=
  st <- for_each tv_line lines tv_init ;;
  close_package st.

(** *** XML *)

(** An [xml.etree.ElementTree.Element]: tag, text (or [None]) and children. *)
Inductive element : Type :=
| Element (tag : string) (text : option string) (children : list element).

Definition el_tag (e : element) : string := let 'Element t _ _ := e in t.
Definition el_text (e : element) : option string :=
  let 'Element _ x _ := e in x.
Definition el_children (e : element) : list element :=
  let 'Element _ _ c := e in c.

(** Whether [el.find(name)] and [el.findall(name)] select a child tagged
    [tag], for the names the extractor builds: a prefix [{...}] holding no
    closing brace, or none, followed by a plain local name.  Such a name
    has no path syntax outside its braces, so it is compared with the tag
    as it stands, but for the two wildcard prefixes that ElementTree
    reads (Python 3.8 and later): [{*}local] selects [local] in any
    namespace or in none, and [{}local] selects [local] in no namespace. *)
Definition selects (name tag : string) : bool :=
  if PyStr.startswith name "{*}" then
    let suffix := PyStr.slice_from 2 name in
    String.eqb tag (PyStr.slice_from 3 name)
    || String.eqb
         (PyStr.slice_from (String.length tag - String.length suffix) tag)
         suffix
  else if PyStr.startswith name "{}" then
    String.eqb tag (PyStr.slice_from 2 name)
  else String.eqb tag name.

(** [el.find(name)], [el.findall(name)]: the first, or all, of the direct
    children that [name] selects. *)
Definition find (el : element) (name : string) : option element :=
  List.find (fun c => selects name (el_tag c)) (el_children el).

Definition findall (el : element) (name : string) : list element :=
  List.filter (fun c => selects name (el_tag c)) (el_children el).

(** [a or b] on lists *)
Definition or_list {A} (a b : list A) : list A :=
  match a with
  | [] => b
  | _ => a
  end.

(** [root.tag.split('}')[0] + '}' if root.tag.startswith('{') else ''] *)
Definition namespace (root : element) : string :=
  if PyStr.startswith (el_tag root) "{"
  then fst (PyStr.split_once "}" (el_tag root)) ++ "}"
  else "".

(** The local function [get_text] of [parse_spdx_xml]. *)
Definition get_text (ns : string) (package : element) (tag : string) : string :=
  match find package (ns ++ tag) with
  | Some el =>
      match el_text el with
      | Some t => if String.eqb t "" then "N/A" else PyStr.strip t
      | None => "N/A"
      end
  | None => "N/A"
  end.

(** [el.text.strip()]: [None] has no [strip]. *)
Definition text_strip (el : element) : result string :=
  match el_text el with
  | Some t => Ok (PyStr.strip t)
  | None => Raise (AttributeError "NoneType" "strip")
  end.

(** [x.text.strip() if x is not None else ''] *)
Definition child_text (child : option element) : result string :=
  match child with
  | Some el => text_strip el
  | None => Ok ""
  end.

Definition xml_ref (ns : string) (ext_refs : list value) (ref : element)
  : result (list value) :=
  let cat := find ref (ns ++ "referenceCategory") in
  let loc := find ref (ns ++ "referenceLocator") in
  c <- child_text cat ;;
  l <- child_text loc ;;
  Ok (ext_refs ++ [VDict [ ("referenceCategory", VStr c);
                           ("referenceLocator", VStr l) ]]).

Definition xml_component (ns : string) (package : element) : result dict :=
  ext_refs <- for_each (xml_ref ns)
                (or_list (findall package (ns ++ "externalRefs"))
                         (findall package (ns ++ "externalRef"))) [] ;;
  supplier <- clean_supplier (VStr (get_text ns package "supplier")) ;;
  locator <- extract_package_manager_locator (VList ext_refs) ;;
  Ok [ ("SPDX_ID", VStr (get_text ns package "SPDXID"));
       ("Name", VStr (get_text ns package "name"));
       ("Version", VStr (get_text ns package "versionInfo"));
       ("Supplier", supplier);
       ("License_Declared", VStr (get_text ns package "licenseDeclared"));
       ("Copyright_Text", VStr (get_text ns package "copyrightText"));
       ("Download_Location", VStr (get_text ns package "downloadLocation"));
       ("Homepage", VStr (get_text ns package "homepage"));
       ("Description", VStr (get_text ns package "description"));
       ("Package_Manager_Locator", locator) ].

(** [parse_spdx_xml] once [ET.parse] has returned the tree of [root]. *)
Definition parse_spdx_xml_root (root : element) : result (list dict) :=
  let ns := namespace root in
  for_each (fun components package =>
              c <- xml_component ns package ;; Ok (components ++ [c]))
           (or_list (findall root (ns ++ "packages"))
                    (findall root (ns ++ "package"))) [].

(** *** Files, and the dispatcher *)

(** What the program takes from its platform: the text of a file opened for
    reading as UTF-8 (or the exception [open] or the decoding raises),
    [json.loads] ([None] when it raises [JSONDecodeError]; a document too
    deeply nested for the decoder is left out), [ET.parse], the
    path separators of [os.path] (the slash, and the backslash too on
    Windows), and [str(obj)] for the objects that are neither [None] nor
    [str]. *)
Record world : Type := {
  read_text : string -> result string;
  json_loads : string -> option value;
  ET_parse : string -> result element;
  is_sep : ascii -> bool;
  py_str : value -> string
}.

Definition parse_spdx_json (W : world) (input_file : string)
  : result (list dict) :=
  text <- read_text W input_file ;;
  match json_loads W text with
  | Some sbom_data => parse_spdx_json_data sbom_data
  | None => Raise JSONDecodeError
  end.

Definition parse_spdx_tv (W : world) (input_file : string)
  : result (list dict) :=
  text <- read_text W input_file ;;
  parse_spdx_tv_lines (readlines text).

Definition parse_spdx_xml (W : world) (input_file : string)
  : result (list dict) :=
  root <- ET_parse W input_file ;;
  parse_spdx_xml_root root.

(** [p.rfind(...)]: the index of the last character that satisfies [f],
    or -1. *)
Fixpoint rfind_from (f : ascii -> bool) (s : string) (i last : Z) : Z :=
  match s with
  | EmptyString => last
  | String c r => rfind_from f r (i + 1) (if f c then i else last)
  end.

Definition rfind (f : ascii -> bool) (s : string) : Z := rfind_from f s 0 (-1).

(** The [while] loop of [genericpath._splitext] over
    [p[sepIndex+1 : dotIndex]]: it returns at the first character that is
    no dot. *)
Fixpoint splitext_scan (between : string) : bool :=
  match between with
  | EmptyString => false
  | String c r => if negb (Ascii.eqb c ".") then true else splitext_scan r
  end.

(** [os.path.splitext(p)] *)
Definition splitext (sep : ascii -> bool) (p : string) : string * string :=
  let sepIndex := rfind sep p in
  let dotIndex := rfind (Ascii.eqb ".") p in
  if (sepIndex <? dotIndex)%Z
     && splitext_scan (substring (Z.to_nat (sepIndex + 1))
                                 (Z.to_nat (dotIndex - (sepIndex + 1))) p)
  then (substring 0 (Z.to_nat dotIndex) p,
        PyStr.slice_from (Z.to_nat dotIndex) p)
  else (p, "").

Definition parse_sbom (W : world) (input_file : string) : result (list dict) :=
  let ext := PyStr.lower (snd (splitext (is_sep W) input_file)) in
  if String.eqb ext ".json" then parse_spdx_json W input_file
  else if existsb (String.eqb ext) [".spdx"; ".tv"]
       then parse_spdx_tv W input_file
  else if String.eqb ext ".xml" then parse_spdx_xml W input_file
  else Raise (ValueError ("Unsupported format: " ++ ext)).

(** *** CSV output *)

Definition FIELDNAMES : list string :=
  [ "SPDX_ID"; "Name"; "Version"; "Supplier";
    "License_Declared"; "Copyright_Text"; "Download_Location";
    "Homepage"; "Description"; "Package_Manager_Locator" ].

(** [csv.writer] in the default dialect: comma, double quote, doubled quotes
    inside a quoted field, minimal quoting, rows ended by CR LF. *)
Module Csv.

Definition DQUOTE : ascii := "034"%char.
Definition COMMA : ascii := ","%char.
Definition CRLF : string := String PyStr.CR (String PyStr.LF EmptyString).

Definition special (c : ascii) : bool :=
  Ascii.eqb c COMMA || Ascii.eqb c DQUOTE
  || Ascii.eqb c PyStr.CR || Ascii.eqb c PyStr.LF.

Fixpoint needs_quote (s : string) : bool :=
  match s with
  | EmptyString => false
  | String c r => special c || needs_quote r
  end.

Fixpoint double_quotes (s : string) : string :=
  match s with
  | EmptyString => EmptyString
  | String c r =>
      if Ascii.eqb c DQUOTE
      then String DQUOTE (String DQUOTE (double_quotes r))
      else String c (double_quotes r)
  end.

Definition quoted (s : string) : string :=
  String DQUOTE (double_quotes s ++ String DQUOTE EmptyString).

Definition field (s : string) : string :=
  if needs_quote s then quoted s else s.

(** [writer.writerow(fields)]: the text of one row.  A row made of one
    empty field is written as a pair of quotes. *)
Definition writerow (fields : list string) : string :=
  match fields with
  | [EmptyString] => quoted EmptyString
  | _ => PyStr.join (String COMMA EmptyString) (map field fields)
  end ++ CRLF.

End Csv.

(** The text [csv.writer] writes for one object of a row. *)
Definition field_text (W : world) (v : value) : string :=
  match v with
  | VNone => ""
  | VStr s => s
  | _ => py_str W v
  end.

(** [DictWriter._dict_to_list] with [extrasaction='raise'] and
    [restval=''].  The message of the [ValueError] goes on with the
    offending keys, in the order of a Python set; only its fixed part is
    kept here. *)
Definition dict_to_list (W : world) (rowdict : dict) : result (list string) :=
  if forallb (fun k => existsb (String.eqb k) FIELDNAMES) (keys rowdict)
  then Ok (map (fun key => field_text W (dict_get rowdict key (VStr "")))
               FIELDNAMES)
  else Raise (ValueError "dict contains fields not in fieldnames").

(** [save_to_csv]: the text written to the output file once it is open,
    the header row first.  When a row raises, the exception is the result.
    The file encodes what is written as UTF-8, which fails on a lone
    surrogate only: no text of this development holds one, so the
    encoding is left out. *)
Definition save_to_csv (W : world) (components : list dict) : result string :=
  for_each (fun written rowdict =>
              row <- dict_to_list W rowdict ;;
              Ok (written ++ Csv.writerow row)%string)
           components (Csv.writerow FIELDNAMES).

(** *** Reading the delimited file back *)

(** Modelled from the spec: the program writes the delimited file and never
    reads it, so the "re-reading" of the round-trip property is Python's own
    [csv.reader] in the same default dialect, fed the lines of a file opened
    with [newline='']: a state machine over the characters of each line,
    told of the end of every line. *)
Module CsvReader.

Inductive pstate : Type :=
| START_RECORD
| START_FIELD
| IN_FIELD
| IN_QUOTED_FIELD
| QUOTE_IN_QUOTED_FIELD
| EAT_CRNL.

Record reader : Type := {
  state : pstate;
  field : string;         (* the field being read *)
  fields : list string    (* the fields of the record being read *)
}.

Inductive event : Type :=
| Ch (c : ascii)
| EOL.

Definition reset : reader :=
  {| state := START_RECORD; field := ""; fields := [] |}.

Definition set_state (r : reader) (s : pstate) : reader :=
  {| state := s; field := field r; fields := fields r |}.

Definition add_char (r : reader) (c : ascii) : reader :=
  {| state := state r;
     field := (field r ++ String c EmptyString)%string;
     fields := fields r |}.

Definition save_field (r : reader) : reader :=
  {| state := state r; field := ""; fields := fields r ++ [field r] |}.

Definition is_newline (c : ascii) : bool :=
  Ascii.eqb c PyStr.LF || Ascii.eqb c PyStr.CR.

Definition start_field (r : reader) (e : event) : reader :=
  match e with
  | EOL => set_state (save_field r) START_RECORD
  | Ch c =>
      if is_newline c then set_state (save_field r) EAT_CRNL
      else if Ascii.eqb c Csv.DQUOTE then set_state r IN_QUOTED_FIELD
      else if Ascii.eqb c Csv.COMMA then save_field r
      else set_state (add_char r c) IN_FIELD
  end.

Definition process_char (r : reader) (e : event) : result reader :=
  match state r with
  | START_RECORD =>
      match e with
      | EOL => Ok r
      | Ch c =>
          if is_newline c then Ok (set_state r EAT_CRNL)
          else Ok (start_field (set_state r START_FIELD) e)
      end
  | START_FIELD => Ok (start_field r e)
  | IN_FIELD =>
      match e with
      | EOL => Ok (set_state (save_field r) START_RECORD)
      | Ch c =>
          if is_newline c then Ok (set_state (save_field r) EAT_CRNL)
          else if Ascii.eqb c Csv.COMMA
               then Ok (set_state (save_field r) START_FIELD)
               else Ok (add_char r c)
      end
  | IN_QUOTED_FIELD =>
      match e with
      | EOL => Ok r
      | Ch c =>
          if Ascii.eqb c Csv.DQUOTE then Ok (set_state r QUOTE_IN_QUOTED_FIELD)
          else Ok (add_char r c)
      end
  | QUOTE_IN_QUOTED_FIELD =>
      match e with
      | EOL => Ok (set_state (save_field r) START_RECORD)
      | Ch c =>
          if Ascii.eqb c Csv.DQUOTE
          then Ok (set_state (add_char r c) IN_QUOTED_FIELD)
          else if Ascii.eqb c Csv.COMMA
               then Ok (set_state (save_field r) START_FIELD)
               else if is_newline c
                    then Ok (set_state (save_field r) EAT_CRNL)
                    else Ok (set_state (add_char r c) IN_FIELD)
      end
  | EAT_CRNL =>
      match e with
      | EOL => Ok (set_state r START_RECORD)
      | Ch c =>
          if is_newline c then Ok r
          else Raise (CsvError "new-line character seen in unquoted field")
      end
  end.

(** The lines of a file opened with [newline='']: a line ends after LF,
    after CR LF, or after a CR that no LF follows, and keeps its ending. *)
Fixpoint file_lines (text : string) : list string :=
  match text with
  | EmptyString => []
  | String c r =>
      if Ascii.eqb c PyStr.LF then String c EmptyString :: file_lines r
      else if Ascii.eqb c PyStr.CR then
        match r with
        | String c' r' =>
            if Ascii.eqb c' PyStr.LF
            then String c (String c' EmptyString) :: file_lines r'
            else String c EmptyString :: file_lines r
        | EmptyString => [String c EmptyString]
        end
      else match file_lines r with
           | [] => [String c EmptyString]
           | l :: ls => String c l :: ls
           end
  end.

Fixpoint read_chars (r : reader) (line : string) : result reader :=
  match line with
  | EmptyString => Ok r
  | String c rest => r' <- process_char r (Ch c) ;; read_chars r' rest
  end.

(** At the end of the input a record cut short inside a field is yielded
    as it stands. *)
Definition end_of_input (r : reader) : list (list string) :=
  match state r with
  | IN_QUOTED_FIELD => [fields (save_field r)]
  | _ => if String.eqb (field r) "" then [] else [fields (save_field r)]
  end.

(** After the end of a line: the record is complete when the machine is
    back in [START_RECORD], and the next one starts afresh. *)
Definition end_of_line (r : reader)
           (next : reader -> result (list (list string)))
  : result (list (list string)) :=
  match state r with
  | START_RECORD => rows <- next reset ;; Ok (fields r :: rows)
  | _ => next r
  end.

(** All the rows the reader yields. *)
Fixpoint read_lines (r : reader) (lines : list string)
  : result (list (list string)) :=
  match lines with
  | [] => Ok (end_of_input r)
  | line :: rest =>
      r1 <- read_chars r line ;;
      r2 <- process_char r1 EOL ;;
      end_of_line r2 (fun r' => read_lines r' rest)
  end.

(** Modelled from the spec: "re-reading the delimited file", that is
    [list(csv.reader(open(path, newline='')))]; the program has no such
    call.  The limit [csv.field_size_limit] on the length of a field is
    left out. *)
Definition read (text : string) : result (list (list string)) :=
  read_lines reset (file_lines text).

End CsvReader.

(** The same reading over one stream of events, the characters of each
    line followed by its end: the form the round trip is proved on. *)
Module CsvStream.
Import CsvReader.

Fixpoint line_events (line : string) : list event :=
  match line with
  | EmptyString => [EOL]
  | String c r => Ch c :: line_events r
  end.

Definition events (text : string) : list event :=
  flat_map line_events (file_lines text).

Fixpoint run (r : reader) (evs : list event) : result (list (list string)) :=
  match evs with
  | [] => Ok (end_of_input r)
  | Ch c :: rest => r' <- process_char r (Ch c) ;; run r' rest
  | EOL :: rest =>
      r' <- process_char r EOL ;; end_of_line r' (fun r2 => run r2 rest)
  end.

Definition mk (s : pstate) (f : string) (fs : list string) : reader :=
  {| state := s; field := f; fields := fs |}.

(** The text [csv.writer] writes for a sequence of rows. *)
Fixpoint text_of_rows (rows : list (list string)) : string :=
  match rows with
  | [] => EmptyString
  | row :: rest => (Csv.writerow row ++ text_of_rows rest)%string
  end.

End CsvStream.

(** The row of a record: the texts of its fields in the canonical order. *)
Definition row_of (c : dict) : list string :=
  map (fun key => match dict_get c key VNone with
                  | VStr s => s
                  | _ => EmptyString
                  end) FIELDNAMES.

(** ** The specification's functions and data *)

(** Section 4.1 of the specification, in its words: unchanged when empty or
    the sentinel; else the remainder after the first matching prefix,
    trimmed; else the text trimmed. *)
Definition normalize_supplier (raw : string) : string :=
  if String.eqb raw "" || String.eqb raw SENTINEL then raw
  else if PyStr.startswith raw "Organization:"
       then PyStr.strip (PyStr.slice_from 13 raw)
  else if PyStr.startswith raw "Person:"
       then PyStr.strip (PyStr.slice_from 7 raw)
  else if PyStr.startswith raw "Tool:"
       then PyStr.strip (PyStr.slice_from 5 raw)
  else PyStr.strip raw.

(** The specification's [ExternalRef]: a category and a locator. *)
Record ExternalRef : Type := {
  category : string;
  locator : string
}.

(** Section 4.2 of the specification, in its words. *)
Definition normalize_category (c : string) : string :=
  PyStr.replace_char "_" "-" (PyStr.upper c).

Definition is_package_manager (r : ExternalRef) : bool :=
  String.eqb (normalize_category (category r)) "PACKAGE-MANAGER".

Definition aggregate_locators (refs : list ExternalRef) : string :=
  match filter is_package_manager refs with
  | [] => SENTINEL
  | kept => PyStr.join "; " (map locator kept)
  end.

(** How a Python dict carries an entry: [d] has the text [s] under [key]. *)
Definition has_text (d : dict) (key s : string) : Prop :=
  forall default, dict_get d key default = VStr s.

Definition represents (d : dict) (r : ExternalRef) : Prop :=
  has_text d "referenceCategory" (category r)
  /\ has_text d "referenceLocator" (locator r).

(** What the aggregator reads in a dict, defaults included. *)
Definition entry_of (d : dict) (c l : string) : Prop :=
  dict_get d "referenceCategory" (VStr "") = VStr c
  /\ dict_get d "referenceLocator" (VStr "N/A") = VStr l.

Definition read_entry (d : dict) : ExternalRef :=
  {| category := match dict_get d "referenceCategory" (VStr "") with
                 | VStr c => c
                 | _ => ""
                 end;
     locator := match dict_get d "referenceLocator" (VStr "N/A") with
                | VStr l => l
                | _ => ""
                end |}.

(** The entries of a dict are text where they are present. *)
Definition typed_ref (d : dict) : Prop :=
  exists c l, entry_of d c l.

(** The locators of the package-manager entries, in order. *)
Definition kept_locators (ds : list dict) : list string :=
  map locator (filter is_package_manager (map read_entry ds)).

(** A record with the ten fields, in order, all of them text. *)
Definition text_record (c : dict) : Prop :=
  keys c = FIELDNAMES
  /\ forall k, In k FIELDNAMES -> exists s, dict_get c k VNone = VStr s.

(** Where [parse_spdx_json] takes each field from. *)
Definition json_fields : list (string * string) :=
  [ ("SPDX_ID", "SPDXID");
    ("Name", "name");
    ("Version", "versionInfo");
    ("Supplier", "supplier");
    ("License_Declared", "licenseDeclared");
    ("Copyright_Text", "copyrightText");
    ("Download_Location", "downloadLocation");
    ("Homepage", "homepage");
    ("Description", "description");
    ("Package_Manager_Locator", "externalRefs") ].

(** No character of the text is whitespace. *)
Fixpoint no_space (s : string) : bool :=
  match s with
  | EmptyString => true
  | String c r => negb (PyStr.isspace c) && no_space r
  end.

(** ** Example inputs *)

Module Examples.

Definition q : string := String Csv.DQUOTE EmptyString.

(** [{"packages": [{"name": null}]}] and what [json.loads] makes of it *)
Definition null_name_text : string :=
  "{" ++ q ++ "packages" ++ q ++ ": [{" ++ q ++ "name" ++ q ++ ": null}]}".

Definition null_name : value :=
  VDict [("packages", VList [VDict [("name", VNone)]])].

(** [<doc><packages><name>left-pad</name>
      <externalRefs><referenceCategory/></externalRefs></packages></doc>] *)
Definition empty_category_ref : element :=
  Element "externalRefs" None [Element "referenceCategory" None []].

Definition empty_category : element :=
  Element "doc" None
    [Element "packages" None
       [Element "name" (Some "left-pad") []; empty_category_ref]].

Definition left_pad_refs : list dict :=
  [ [("referenceCategory", VStr "PACKAGE_MANAGER");
     ("referenceLocator", VStr "pkg:npm/left-pad@1.3.0")];
    [("referenceCategory", VStr "SECURITY");
     ("referenceLocator", VStr "x")] ].

Definition left_pad_entries : list ExternalRef :=
  [ {| category := "PACKAGE_MANAGER"; locator := "pkg:npm/left-pad@1.3.0" |};
    {| category := "SECURITY"; locator := "x" |} ].

Fixpoint lookup {A} (key : string) (table : list (string * A)) : option A :=
  match table with
  | [] => None
  | (k, v) :: rest => if String.eqb k key then Some v else lookup key rest
  end.

(** A POSIX machine with the text files [files]; [decoded] lists the
    texts that are JSON with what [json.loads] returns for them, [trees]
    the files that are XML with the root [ET.parse] returns for them.
    No example writes an object other than [None] and [str], so what
    [py_str] is does not matter here. *)
Definition machine (files : list (string * string))
                   (decoded : list (string * value))
                   (trees : list (string * element)) : world :=
  {| read_text := fun p => match lookup p files with
                           | Some text => Ok text
                           | None => Raise OSError
                           end;
     json_loads := fun text => lookup text decoded;
     ET_parse := fun p => match lookup p trees with
                          | Some root => Ok root
                          | None => Raise OSError
                          end;
     is_sep := Ascii.eqb "/";
     py_str := type_name |}.

(** [sbom.json] holds [text], which decodes to [v]. *)
Definition json_machine (text : string) (v : value) : world :=
  machine [("sbom.json", text)] [(text, v)] [].

(** [sbom.json] holds a text that is no JSON. *)
Definition broken_machine : world :=
  machine [("sbom.json", "SPDXVersion: SPDX-2.3")] [] [].

End Examples.

(** ** Notions the further properties are stated with *)

(** The scan takes a line for the start of a package. *)
Definition is_package_line (raw : string) : bool :=
  PyStr.startswith (PyStr.strip raw) "PackageName:".

(** An [ExternalRef:] line with fewer than three tokens. *)
Definition short_ext_ref (line : string) : bool :=
  match snd (PyStr.split_once ":" line) with
  | Some v => (List.length (PyStr.split_ws (PyStr.strip v)) <? 3)%nat
  | None => false
  end.

(** A line the scan has no use for: blank, a comment, or one that starts
    with none of the tags (or an [ExternalRef:] that is too short). *)
Definition inert (raw : string) : bool :=
  let line := PyStr.strip raw in
  String.eqb line ""
  || PyStr.startswith line "#"
  || (negb (PyStr.startswith line "PackageName:")
      && forallb (fun item => negb (PyStr.startswith line (fst item))) tag_map
      && (negb (PyStr.startswith line "ExternalRef:") || short_ext_ref line)).

(** Whether a package is open, as a number. *)
Definition open_count (st : tv_state) : nat :=
  match current_package st with
  | Some _ => 1
  | None => 0
  end.

(** Where [parse_spdx_xml] takes each scalar field from. *)
Definition xml_fields : list (string * string) :=
  [ ("SPDX_ID", "SPDXID");
    ("Name", "name");
    ("Version", "versionInfo");
    ("Supplier", "supplier");
    ("License_Declared", "licenseDeclared");
    ("Copyright_Text", "copyrightText");
    ("Download_Location", "downloadLocation");
    ("Homepage", "homepage");
    ("Description", "description") ].

(** The package elements [parse_spdx_xml] visits. *)
Definition xml_packages (root : element) : list element :=
  or_list (findall root (namespace root ++ "packages"))
          (findall root (namespace root ++ "package")).

(** The keys of a record are among the field names. *)
Definition within_fieldnames (c : dict) : bool :=
  forallb (fun k => existsb (String.eqb k) FIELDNAMES) (keys c).

(** The texts [csv.writer] is given for a record. *)
Definition csv_row (W : world) (c : dict) : list string :=
  map (fun key => field_text W (dict_get c key (VStr ""))) FIELDNAMES.

(** The texts written for a record are ASCII. *)
Definition ascii_row (W : world) (c : dict) : bool :=
  forallb PyStr.isascii (csv_row W c).

(** The dict an extractor builds for an entry. *)
Definition entry_dict (r : ExternalRef) : dict :=
  [ ("referenceCategory", VStr (category r));
    ("referenceLocator", VStr (locator r)) ].

(** The entry with its category respelled by [g]. *)
Definition respell (g : string -> string) (r : ExternalRef) : ExternalRef :=
  {| category := g (category r); locator := locator r |}.

(** No character of the text satisfies [f]. *)
Fixpoint none_of (f : ascii -> bool) (s : string) : bool :=
  match s with
  | EmptyString => true
  | String c r => negb (f c) && none_of f r
  end.

(** The lines of a package: those that follow its [PackageName:] line, up
    to the next such line. *)
Fixpoint package_body (lines : list string) : list string :=
  match lines with
  | [] => []
  | l :: rest => if is_package_line l then [] else l :: package_body rest
  end.

(** The lines of a document grouped by package: each [PackageName:] line
    with the lines of its package.  What stands before the first one
    belongs to no package. *)
Fixpoint tv_packages (lines : list string) : list (string * list string) :=
  match lines with
  | [] => []
  | l :: rest =>
      if is_package_line l then (l, package_body rest) :: tv_packages rest
      else tv_packages rest
  end.

(** ** The window: table, statistics and filter

    The callbacks of [SBOMParserApp] that compute over the records, taken
    as functions of the state they read ([self._components], the text and
    the column of the filter bar) to what they hand to the widgets.  The
    records are indexed here with [c[key]], which raises [KeyError]. *)
Module Gui.

Definition COLUMNS : list string :=
  [ "SPDX_ID"; "Name"; "Version"; "Supplier";
    "License_Declared"; "Copyright_Text";
    "Download_Location"; "Homepage";
    "Description"; "Package_Manager_Locator" ].

Definition FILTER_PLACEHOLDER : string := "Filter components…".

(** What a callback ends with: it returns, or [c[key]] raises [KeyError],
    or another exception is raised. *)
Inductive outcome (A : Type) : Type :=
| Done (a : A)
| KeyError (key : string)
| Failed (e : exn).
Arguments Done {A} a.
Arguments KeyError {A} key.
Arguments Failed {A} e.

Definition and_then {A B} (m : outcome A) (k : A -> outcome B) : outcome B :=
  match m with
  | Done a => k a
  | KeyError key => KeyError key
  | Failed e => Failed e
  end.

(** [c[key]] *)
Fixpoint item (c : dict) (key : string) : outcome value :=
  match c with
  | [] => KeyError key
  | (k, v) :: rest => if String.eqb k key then Done v else item rest key
  end.

(** [list(c.values())] *)
Definition dict_values (c : dict) : list value := map snd c.

(** *** [_populate_table] *)

Record row : Type := {
  iid : string;
  values : list value;
  tags : list string
}.

(** The rows inserted in the emptied table, numbered from [i], and the key
    of the [KeyError] that stopped the loop, if any: the rows inserted
    before it stay in the table. *)
Fixpoint populate_from (i : nat) (components : list dict)
  : list row * option string :=
  match components with
  | [] => ([], None)
  | comp :: rest =>
      let base_tag := if Nat.eqb (i mod 2) 0 then "even" else "odd" in
      match item comp "Package_Manager_Locator" with
      | Done loc =>
          let tags := if eq_str loc "N/A" then [base_tag; "no_purl"]
                      else [base_tag] in
          let '(rows, err) := populate_from (S i) rest in
          ({| iid := nat_str i; values := dict_values comp; tags := tags |}
             :: rows, err)
      | _ => ([], Some "Package_Manager_Locator")
      end
  end.

Definition populate_table (components : list dict) : list row * option string :=
  populate_from 0 components.

(** *** [_update_stats] *)

Record stats : Type := {
  total : Z;
  with_purl : Z;
  no_purl : Z;
  licenses : Z
}.

(** [sum(1 for c in components if c['Package_Manager_Locator'] != 'N/A')] *)
Fixpoint count_with_locator (components : list dict) : outcome Z :=
  match components with
  | [] => Done 0%Z
  | c :: rest =>
      and_then (item c "Package_Manager_Locator") (fun loc =>
      and_then (count_with_locator rest) (fun n =>
      Done ((if eq_str loc "N/A" then 0 else 1) + n)%Z))
  end.

(** [v in ('N/A', 'NOASSERTION', '')] *)
Definition no_license (v : value) : bool :=
  eq_str v "N/A" || eq_str v "NOASSERTION" || eq_str v "".

(** Lists and dicts cannot be put in a set. *)
Definition hashable (v : value) : bool :=
  match v with
  | VList _ | VDict _ => false
  | _ => true
  end.

(** Whether two hashable objects are one element of a set.  [num_eq] is
    Python's equality between numbers (booleans, integers, floats). *)
Definition same_key (num_eq : value -> value -> bool) (a b : value) : bool :=
  match a, b with
  | VNone, VNone => true
  | VStr x, VStr y => String.eqb x y
  | (VBool _ | VInt _ | VFloat _), (VBool _ | VInt _ | VFloat _) => num_eq a b
  | _, _ => false
  end.

Definition set_add (num_eq : value -> value -> bool)
           (s : list value) (v : value) : list value :=
  if existsb (same_key num_eq v) s then s else s ++ [v].

(** The set comprehension over [License_Declared]. *)
Fixpoint license_set (num_eq : value -> value -> bool)
         (components : list dict) (s : list value) : outcome (list value) :=
  match components with
  | [] => Done s
  | c :: rest =>
      and_then (item c "License_Declared") (fun v =>
      if no_license v then license_set num_eq rest s
      else and_then (item c "License_Declared") (fun v' =>
           if hashable v' then license_set num_eq rest (set_add num_eq s v')
           else Failed (TypeError ("unhashable type: '" ++ type_name v'
                                   ++ "'")%string)))
  end.

(** What the four cards are set to. *)
Definition update_stats (num_eq : value -> value -> bool)
           (components : list dict) : outcome stats :=
  let total := Z.of_nat (List.length components) in
  and_then (count_with_locator components) (fun with_p =>
  and_then (license_set num_eq components []) (fun s =>
  Done {| total := total;
          with_purl := with_p;
          no_purl := total - with_p;
          licenses := Z.of_nat (List.length s) |})).

(** *** [_apply_filter] *)

(** [str(v)] *)
Definition str_of (W : world) (v : value) : string :=
  match v with
  | VStr s => s
  | VNone => "None"
  | _ => py_str W v
  end.

(** [sub in text] *)
Fixpoint contains (text sub : string) : bool :=
  prefix sub text
  || match text with
     | EmptyString => false
     | String _ r => contains r sub
     end.

(** [col_keys.index(col)], for a [col] that is in [col_keys] *)
Fixpoint index (col : string) (col_keys : list string) : nat :=
  match col_keys with
  | [] => 0
  | k :: rest => if String.eqb k col then 0 else S (index col rest)
  end.

(** The test of one record in the loop of [_apply_filter]. *)
Definition filter_match (W : world) (query col : string) (comp : dict)
  : result bool :=
  let values := dict_values comp in
  if String.eqb col "All" then
    Ok (existsb (fun v => contains (PyStr.lower (str_of W v)) query) values)
  else
    let idx := if existsb (String.eqb col) COLUMNS then index col COLUMNS
               else 0 in
    match nth_error values idx with
    | Some v => Ok (contains (PyStr.lower (str_of W v)) query)
    | None => Raise IndexError
    end.

Definition filter_loop (W : world) (query col : string) (components : list dict)
  : result (list dict) :=
  for_each (fun filtered comp =>
              m <- filter_match W query col comp ;;
              Ok (if m then filtered ++ [comp] else filtered))
           components [].

(** [_apply_filter]: nothing ([None]) when the window is not built yet or
    no record is loaded; else the records handed to [_populate_table]
    and the status text set after it. *)
Definition apply_filter (W : world) (built : bool) (components : list dict)
           (text col : string) : result (option (list dict * string)) :=
  if negb built then Ok None
  else match components with
  | [] => Ok None
  | _ =>
      let raw := PyStr.strip text in
      let query := if String.eqb raw FILTER_PLACEHOLDER then ""
                   else PyStr.lower raw in
      if String.eqb query "" then
        Ok (Some (components,
                  ("Showing all " ++ nat_str (List.length components)
                   ++ " components.")%string))
      else
        filtered <- filter_loop W query col components ;;
        Ok (Some (filtered,
                  ("Filter: " ++ nat_str (List.length filtered) ++ " of "
                   ++ nat_str (List.length components) ++ " shown.")%string))
  end.

End Gui.

(** A row of the table carries the tag of the rows without locator. *)
Definition tagged_no_purl (r : Gui.row) : bool :=
  existsb (String.eqb "no_purl") (Gui.tags r).

(** A license text that counts: neither a placeholder nor empty. *)
Definition real_license (l : string) : bool :=
  negb (Gui.no_license (VStr l)).

(** The zebra tag of the row at position [i]. *)
Definition zebra_tag (i : nat) : string :=
  if Nat.eqb (i mod 2) 0 then "even" else "odd".

(** ** More example inputs *)

Module Samples.

Definition nl : string := String PyStr.LF EmptyString.

(** A tag-value document with two packages. *)
Definition tv_text : string :=
  "SPDXVersion: SPDX-2.3" ++ nl
  ++ "PackageName: left-pad" ++ nl
  ++ "PackageVersion: 1.3.0" ++ nl
  ++ "PackageLicenseDeclared: MIT" ++ nl
  ++ "ExternalRef: PACKAGE-MANAGER purl pkg:npm/left-pad@1.3.0" ++ nl
  ++ "PackageName: is-odd" ++ nl
  ++ "PackageLicenseDeclared: MIT" ++ nl.

Definition left_pad : dict :=
  [ ("SPDX_ID", VStr "N/A");
    ("Name", VStr "left-pad");
    ("Version", VStr "1.3.0");
    ("Supplier", VStr "N/A");
    ("License_Declared", VStr "MIT");
    ("Copyright_Text", VStr "N/A");
    ("Download_Location", VStr "N/A");
    ("Homepage", VStr "N/A");
    ("Description", VStr "N/A");
    ("Package_Manager_Locator", VStr "pkg:npm/left-pad@1.3.0") ].

Definition is_odd : dict :=
  [ ("SPDX_ID", VStr "N/A");
    ("Name", VStr "is-odd");
    ("Version", VStr "N/A");
    ("Supplier", VStr "N/A");
    ("License_Declared", VStr "MIT");
    ("Copyright_Text", VStr "N/A");
    ("Download_Location", VStr "N/A");
    ("Homepage", VStr "N/A");
    ("Description", VStr "N/A");
    ("Package_Manager_Locator", VStr "N/A") ].

Definition tv_records : list dict := [left_pad; is_odd].

(** A machine with that document in [sbom.spdx] and, in [sbom.xml], the
    tree of
    [<doc xmlns="urn:spdx"><packages><name> left-pad </name>
       <supplier>Organization: Acme</supplier></packages></doc>]. *)
Definition xml_package : element :=
  Element "{urn:spdx}packages" None
    [ Element "{urn:spdx}name" (Some " left-pad ") [];
      Element "{urn:spdx}supplier" (Some "Organization: Acme") [] ].

Definition xml_root : element :=
  Element "{urn:spdx}doc" None [xml_package].

Definition machine : world :=
  Examples.machine [("sbom.spdx", tv_text)] [] [("sbom.xml", xml_root)].

(** Python's equality on the numbers that occur in no example. *)
Definition num_eq (a b : value) : bool := false.

(** A record with a field that is no field name. *)
Definition with_extra_key : dict := [("Name", VStr "left-pad"); ("Purl", VNone)].

End Samples.

(** The records two of the examples yield. *)
Module Expected.

Definition left_pad_located : dict :=
  dict_set (new_package "left-pad") "Package_Manager_Locator"
           (VStr "pkg:npm/left-pad@1.3.0").

Definition with_supplier (v : value) : dict :=
  [ ("SPDX_ID", VStr "N/A");
    ("Name", VStr "N/A");
    ("Version", VStr "N/A");
    ("Supplier", v);
    ("License_Declared", VStr "N/A");
    ("Copyright_Text", VStr "N/A");
    ("Download_Location", VStr "N/A");
    ("Homepage", VStr "N/A");
    ("Description", VStr "N/A");
    ("Package_Manager_Locator", VStr "N/A") ].

End Expected.

(** ** Properties *)

(** *** The result monad and dicts *)

Lemma for_each_app {A S} (body : S -> A -> result S) (xs ys : list A) (st : S) :
  for_each body (xs ++ ys) st
  = bind (for_each body xs st) (for_each body ys).
Proof.
  revert st; induction xs as [|x xs IH]; intros st; simpl; [reflexivity|].
  destruct (body st x) as [st'|e]; simpl; [apply IH | reflexivity].
Qed.

Lemma dict_get_absent (d : dict) (key : string) (default : value) :
  ~ In key (keys d) -> dict_get d key default = default.
Proof.
  induction d as [|[k v] d IH]; simpl; intros H; [reflexivity|].
  destruct (String.eqb_spec k key) as [->|_]; [tauto|].
  apply IH; tauto.
Qed.

Lemma keys_dict_set (d : dict) (key : string) (v : value) :
  In key (keys d) -> keys (dict_set d key v) = keys d.
Proof.
  induction d as [|[k w] d IH]; simpl; intros H; [tauto|].
  destruct (String.eqb_spec k key) as [->|Hne]; simpl; [reflexivity|].
  f_equal; apply IH; destruct H; [contradiction | assumption].
Qed.

Lemma dict_get_set_same (d : dict) (key : string) (v default : value) :
  dict_get (dict_set d key v) key default = v.
Proof.
  induction d as [|[k w] d IH]; simpl.
  - now rewrite String.eqb_refl.
  - destruct (String.eqb_spec k key) as [->|Hne]; simpl.
    + now rewrite String.eqb_refl.
    + destruct (String.eqb_spec k key); [contradiction | apply IH].
Qed.

Lemma dict_get_set_other (d : dict) (key k : string) (v default : value) :
  k <> key -> dict_get (dict_set d key v) k default = dict_get d k default.
Proof.
  intros Hne; induction d as [|[k' w] d IH]; simpl.
  - destruct (String.eqb_spec key k); [congruence | reflexivity].
  - destruct (String.eqb_spec k' key) as [->|Hne']; simpl.
    + destruct (String.eqb_spec key k); [congruence | reflexivity].
    + destruct (String.eqb_spec k' k); [reflexivity | apply IH].
Qed.

(** *** Supplier clean-up *)

Lemma clean_supplier_text (raw : string) :
  clean_supplier (VStr raw) = Ok (VStr (normalize_supplier raw)).
Proof.
  unfold clean_supplier, normalize_supplier, SENTINEL; simpl.
  rewrite Bool.negb_involutive.
  destruct (String.eqb raw "" || String.eqb raw "N/A"); [reflexivity|].
  destruct (PyStr.startswith raw "Organization:"); [reflexivity|].
  destruct (PyStr.startswith raw "Person:"); [reflexivity|].
  destruct (PyStr.startswith raw "Tool:"); reflexivity.
Qed.

(** C2.  On every text the supplier clean-up returns a text, never raises,
    and the text is the one section 4.1 describes: the input itself when it
    is empty or the sentinel, else what follows the first of
    "Organization:", "Person:", "Tool:" that the input starts with,
    trimmed, else the input trimmed.  The three examples of the
    specification hold. *)
Theorem clean_supplier_spec :
  (forall raw : string,
     clean_supplier (VStr raw) = Ok (VStr (normalize_supplier raw)))
  /\ clean_supplier (VStr "") = Ok (VStr "")
  /\ clean_supplier (VStr "Organization: Acme Corp") = Ok (VStr "Acme Corp")
  /\ clean_supplier (VStr "Acme Corp") = Ok (VStr "Acme Corp")
  /\ clean_supplier (VStr "N/A") = Ok (VStr "N/A").
Proof.
  split; [exact clean_supplier_text|].
  repeat split; reflexivity.
Qed.

(** *** Package-manager locators *)

Lemma str_items_text (l : list string) (i : nat) :
  str_items i (map VStr l) = Ok l.
Proof.
  revert i; induction l as [|s l IH]; intros i; simpl; [reflexivity|].
  now rewrite IH.
Qed.

Lemma locator_step_typed (d : dict) (acc : list value) :
  typed_ref d ->
  locator_step acc (VDict d)
  = Ok (if is_package_manager (read_entry d)
        then acc ++ [VStr (locator (read_entry d))] else acc).
Proof.
  intros (c & l & Hc & Hl).
  unfold locator_step, is_package_manager, read_entry, normalize_category; simpl.
  rewrite Hc; simpl.
  destruct (String.eqb _ "PACKAGE-MANAGER"); [|reflexivity].
  now rewrite Hl.
Qed.

Lemma locator_step_no_category (d : dict) (acc : list value) :
  ~ In "referenceCategory" (keys d) -> locator_step acc (VDict d) = Ok acc.
Proof.
  intros H; unfold locator_step; simpl.
  now rewrite (dict_get_absent d _ _ H).
Qed.

Lemma collect_typed (ds : list dict) (acc : list value) :
  Forall typed_ref ds ->
  for_each locator_step (map VDict ds) acc
  = Ok (acc ++ map VStr (kept_locators ds)).
Proof.
  intros H; revert acc; induction H as [|d ds Hd _ IH]; intros acc; simpl.
  - now rewrite app_nil_r.
  - rewrite (locator_step_typed d acc Hd); simpl.
    rewrite IH; unfold kept_locators; simpl.
    destruct (is_package_manager (read_entry d)); simpl; [|reflexivity].
    now rewrite <- app_assoc.
Qed.

Lemma extract_typed (ds : list dict) :
  Forall typed_ref ds ->
  extract_package_manager_locator (VList (map VDict ds))
  = Ok (VStr (aggregate_locators (map read_entry ds))).
Proof.
  intros H; unfold extract_package_manager_locator; simpl.
  rewrite (collect_typed ds [] H); simpl.
  unfold aggregate_locators, kept_locators, str_join.
  destruct (filter is_package_manager (map read_entry ds)) as [|r rs];
    [reflexivity|].
  rewrite (str_items_text (map locator (r :: rs)) 0); reflexivity.
Qed.

Lemma represents_typed (d : dict) (r : ExternalRef) :
  represents d r -> typed_ref d /\ read_entry d = r.
Proof.
  intros [Hc Hl]; split.
  - exists (category r), (locator r); split; [apply Hc | apply Hl].
  - unfold read_entry; rewrite Hc, Hl; now destruct r.
Qed.

Lemma filter_middle {A} (f : A -> bool) (xs ys : list A) (x : A) :
  f x = true -> filter f (xs ++ x :: ys) = filter f xs ++ x :: filter f ys.
Proof.
  intros H; rewrite filter_app; simpl; now rewrite H.
Qed.

Lemma aggregate_kept (ds : list dict) :
  aggregate_locators (map read_entry ds)
  = match kept_locators ds with
    | [] => SENTINEL
    | l => PyStr.join "; " l
    end.
Proof.
  unfold aggregate_locators, kept_locators.
  now destruct (filter is_package_manager (map read_entry ds)).
Qed.

Lemma kept_locators_middle (before after : list dict) (r : dict) :
  is_package_manager (read_entry r) = true ->
  kept_locators (before ++ r :: after)
  = kept_locators before ++ locator (read_entry r) :: kept_locators after.
Proof.
  intros H; unfold kept_locators.
  rewrite map_app; cbn [map].
  now rewrite (filter_middle _ _ _ _ H), map_app.
Qed.

(** C3.  When the dicts handed to the aggregator carry the entries [refs]
    (a category and a locator each), the result is section 4.2's: the
    categories are put in upper case with underscores turned into hyphens,
    the entries whose category is then "PACKAGE-MANAGER" are kept, their
    locators are joined in input order with "; ", and the sentinel is
    returned when none is kept. *)
Theorem extract_package_manager_locator_spec :
  forall (ds : list dict) (refs : list ExternalRef),
    Forall2 represents ds refs ->
    extract_package_manager_locator (VList (map VDict ds))
    = Ok (VStr (aggregate_locators refs)).
Proof.
  intros ds refs H.
  assert (Ht : Forall typed_ref ds /\ map read_entry ds = refs).
  { induction H as [|d r ds rs Hd _ [IH1 IH2]]; [split; constructor|].
    destruct (represents_typed d r Hd) as [T E].
    split; [constructor; assumption | simpl; now rewrite E, IH2]. }
  destruct Ht as [T <-]; now apply extract_typed.
Qed.

(** C10.  Among entries that are text where present: an entry whose
    category normalizes to "PACKAGE-MANAGER" and that has no
    [referenceLocator] puts the literal "N/A" at its place among the joined
    locators; and an entry with no [referenceCategory], whatever else the
    sequence holds, changes nothing in the result. *)
Theorem missing_locator_and_category :
  (forall (r : dict) (before after : list dict) (c : string),
     Forall typed_ref before -> Forall typed_ref after ->
     dict_get r "referenceCategory" (VStr "") = VStr c ->
     normalize_category c = "PACKAGE-MANAGER" ->
     ~ In "referenceLocator" (keys r) ->
     extract_package_manager_locator (VList (map VDict (before ++ r :: after)))
     = Ok (VStr (PyStr.join "; "
                   (kept_locators before ++ "N/A" :: kept_locators after))))
  /\ (forall (r : dict) (before after : list value),
        ~ In "referenceCategory" (keys r) ->
        extract_package_manager_locator (VList (before ++ VDict r :: after))
        = extract_package_manager_locator (VList (before ++ after))).
Proof.
  split.
  - intros r before after c Hb Ha Hc Hn Hl.
    assert (Hr : typed_ref r).
    { exists c, "N/A"; split; [assumption | now apply dict_get_absent]. }
    assert (Hpm : is_package_manager (read_entry r) = true).
    { unfold is_package_manager, read_entry; simpl; rewrite Hc, Hn.
      reflexivity. }
    assert (Hloc : locator (read_entry r) = "N/A").
    { unfold read_entry; simpl. now rewrite (dict_get_absent r _ _ Hl). }
    rewrite extract_typed.
    + rewrite aggregate_kept, (kept_locators_middle _ _ _ Hpm), Hloc.
      destruct (kept_locators before); reflexivity.
    + apply Forall_app; split; [assumption | constructor; assumption].
  - intros r before after H.
    unfold extract_package_manager_locator; simpl.
    rewrite !for_each_app; simpl.
    destruct (for_each locator_step before []) as [acc|e]; simpl;
      [|reflexivity].
    now rewrite (locator_step_no_category r acc H).
Qed.

(** *** The dispatcher and the JSON extractor on malformed documents *)

(** C4.  The extractor is chosen by the extension of the path put in lower
    case: ".json" gives the JSON extractor, ".spdx" and ".tv" the tag-value
    extractor, ".xml" the XML extractor; any other extension raises
    [ValueError] with the message "Unsupported format: " followed by that
    extension, and no record is returned. *)
Theorem parse_sbom_dispatch :
  forall (W : world) (input_file : string),
    let ext := PyStr.lower (snd (splitext (is_sep W) input_file)) in
    (ext = ".json" -> parse_sbom W input_file = parse_spdx_json W input_file)
    /\ (ext = ".spdx" \/ ext = ".tv" ->
        parse_sbom W input_file = parse_spdx_tv W input_file)
    /\ (ext = ".xml" -> parse_sbom W input_file = parse_spdx_xml W input_file)
    /\ (ext <> ".json" -> ext <> ".spdx" -> ext <> ".tv" -> ext <> ".xml" ->
        parse_sbom W input_file
        = Raise (ValueError ("Unsupported format: " ++ ext))).
Proof.
  intros W input_file ext; unfold parse_sbom; fold ext.
  repeat split.
  - intros ->; reflexivity.
  - intros [-> | ->]; reflexivity.
  - intros ->; reflexivity.
  - intros H1 H2 H3 H4; simpl.
    apply String.eqb_neq in H1, H2, H3, H4.
    now rewrite H1, H2, H3, H4.
Qed.

(** C6.  When the text of the file is no JSON at all, [json.load] raises
    and so does the extractor; when it decodes to anything but an object,
    the first access to the document raises [AttributeError].  Either way
    the extractor fails and returns no record. *)
Theorem parse_spdx_json_malformed :
  forall (W : world) (input_file text : string),
    read_text W input_file = Ok text ->
    (json_loads W text = None ->
     parse_spdx_json W input_file = Raise JSONDecodeError)
    /\ (forall v : value,
          json_loads W text = Some v ->
          (forall d, v <> VDict d) ->
          parse_spdx_json W input_file
          = Raise (AttributeError (type_name v) "get")).
Proof.
  intros W input_file text Hread; unfold parse_spdx_json; rewrite Hread; simpl.
  split.
  - intros ->; reflexivity.
  - intros v -> Hv.
    destruct v; try reflexivity.
    now elim (Hv d).
Qed.

(** C9.  A document that decodes to an object without a ["packages"] field
    yields the empty sequence of records. *)
Theorem parse_spdx_json_no_packages :
  forall (W : world) (input_file text : string) (d : dict),
    read_text W input_file = Ok text ->
    json_loads W text = Some (VDict d) ->
    ~ In "packages" (keys d) ->
    parse_spdx_json W input_file = Ok [].
Proof.
  intros W input_file text d Hread Hload Hkeys.
  unfold parse_spdx_json, parse_spdx_json_data; rewrite Hread; simpl.
  rewrite Hload; simpl.
  now rewrite (dict_get_absent d _ _ Hkeys).
Qed.

(** *** Reference entries in XML *)

Lemma child_text_raise (child : option element) (el : element) :
  child = Some el -> el_text el = None ->
  child_text child = Raise (AttributeError "NoneType" "strip").
Proof.
  intros -> H; unfold child_text, text_strip; now rewrite H.
Qed.

Lemma child_text_result (child : option element) :
  (exists s, child_text child = Ok s)
  \/ child_text child = Raise (AttributeError "NoneType" "strip").
Proof.
  destruct child as [[tag [t|] ch]|]; simpl;
    [left; eexists; reflexivity | right; reflexivity
    | left; eexists; reflexivity].
Qed.

Lemma child_text_ok (child : option element) :
  (forall el, child = Some el -> el_text el <> None) ->
  exists s, child_text child = Ok s /\ (child = None -> s = "").
Proof.
  destruct child as [[tag [t|] ch]|]; simpl; intros H.
  - exists (PyStr.strip t); split; [reflexivity | discriminate].
  - now elim (H _ eq_refl).
  - now exists "".
Qed.

(** C8.  The document [Examples.empty_category] is well formed and has a
    reference entry whose [referenceCategory] element is empty: its
    extraction raises [AttributeError] on [None.strip].  In general the
    reading of a reference entry raises exactly when its category or its
    locator child is present without text; when neither is, the entry is
    read, and a child that is absent gives the empty string. *)
Theorem xml_reference_without_text :
  parse_spdx_xml_root Examples.empty_category
  = Raise (AttributeError "NoneType" "strip")
  /\ (forall (ns : string) (acc : list value) (ref el : element),
        find ref (ns ++ "referenceCategory") = Some el
        \/ find ref (ns ++ "referenceLocator") = Some el ->
        el_text el = None ->
        xml_ref ns acc ref = Raise (AttributeError "NoneType" "strip"))
  /\ (forall (ns : string) (acc : list value) (ref : element),
        (forall el, find ref (ns ++ "referenceCategory") = Some el
                    \/ find ref (ns ++ "referenceLocator") = Some el ->
                    el_text el <> None) ->
        exists c l,
          xml_ref ns acc ref
          = Ok (acc ++ [VDict [ ("referenceCategory", VStr c);
                                ("referenceLocator", VStr l) ]])
          /\ (find ref (ns ++ "referenceCategory") = None -> c = "")
          /\ (find ref (ns ++ "referenceLocator") = None -> l = "")).
Proof.
  split; [reflexivity|]; split.
  - intros ns acc ref el Hfind Htext; unfold xml_ref.
    destruct Hfind as [Hf | Hf].
    + now rewrite (child_text_raise _ _ Hf Htext).
    + destruct (child_text_result (find ref (ns ++ "referenceCategory")))
        as [[c ->] | ->]; simpl; [|reflexivity].
      now rewrite (child_text_raise _ _ Hf Htext).
  - intros ns acc ref Hno; unfold xml_ref.
    destruct (child_text_ok (find ref (ns ++ "referenceCategory")))
      as (c & -> & Hc); [intros el Hel; apply Hno; now left|].
    destruct (child_text_ok (find ref (ns ++ "referenceLocator")))
      as (l & -> & Hl); [intros el Hel; apply Hno; now right|].
    simpl; exists c, l; auto.
Qed.

(** *** Text *)

Lemma startswith_split (s p : string) :
  PyStr.startswith s p = true ->
  s = (p ++ PyStr.slice_from (String.length p) s)%string.
Proof.
  unfold PyStr.startswith; revert s; induction p as [|c p IH]; intros s H.
  - reflexivity.
  - destruct s as [|c' s]; simpl in H; [discriminate|].
    destruct (Ascii.ascii_dec c c') as [->|]; [|discriminate].
    simpl; f_equal; now apply IH.
Qed.

Lemma rstrip_cons (c : ascii) (s : string) :
  PyStr.isspace c = false ->
  PyStr.rstrip (String c s) = String c (PyStr.rstrip s).
Proof.
  intros H; simpl; rewrite H; now destruct (PyStr.rstrip s).
Qed.

(** A tag holds a colon: the text after the first colon of a line that
    starts with the tag is there to take. *)
Lemma after_colon_tagged (tag line : string) :
  PyStr.startswith line tag = true ->
  snd (PyStr.split_once ":" tag) <> None ->
  exists v, after_colon line = Ok v.
Proof.
  unfold PyStr.startswith, after_colon; revert line.
  induction tag as [|c tag IH]; intros line H Hc; [now elim Hc|].
  destruct line as [|c' line]; simpl in H; [discriminate|].
  destruct (Ascii.ascii_dec c c') as [->|]; [|discriminate].
  simpl in *; destruct (Ascii.eqb c' ":"); simpl; [eauto|].
  destruct (PyStr.split_once ":" tag) as [h t] eqn:E; simpl in Hc.
  specialize (IH line H Hc).
  destruct (PyStr.split_once ":" line) as [h' t']; exact IH.
Qed.

Lemma rstrip_app (p t : string) :
  no_space p = true ->
  PyStr.rstrip (p ++ t) = (p ++ PyStr.rstrip t)%string.
Proof.
  induction p as [|c p IH]; intros H; [reflexivity|].
  simpl in H; apply Bool.andb_true_iff in H; destruct H as [Hc Hp].
  apply Bool.negb_true_iff in Hc.
  change (String c p ++ t)%string with (String c (p ++ t)).
  rewrite (rstrip_cons _ _ Hc), (IH Hp); reflexivity.
Qed.

Lemma lstrip_cons (c : ascii) (s : string) :
  PyStr.isspace c = false -> PyStr.lstrip (String c s) = String c s.
Proof.
  intros H; simpl; now rewrite H.
Qed.

Lemma package_name_line (l : string) :
  PyStr.startswith l "PackageName:" = true ->
  PyStr.strip l
  = ("PackageName:" ++ PyStr.rstrip (PyStr.slice_from 12 l))%string.
Proof.
  intros H; rewrite (startswith_split _ _ H) at 1.
  unfold PyStr.strip.
  change (String.length "PackageName:") with 12.
  change ("PackageName:" ++ PyStr.slice_from 12 l)%string
    with (String "P" ("ackageName:" ++ PyStr.slice_from 12 l)).
  rewrite lstrip_cons by reflexivity.
  change (String "P" ("ackageName:" ++ PyStr.slice_from 12 l))
    with ("PackageName:" ++ PyStr.slice_from 12 l)%string.
  now rewrite rstrip_app.
Qed.

(** *** The tag-value scan *)

(** The accumulator of references only holds what [ext_ref_line] puts in
    it: dicts whose category and locator are text. *)
Definition typed_refs (refs : list value) : Prop :=
  exists ds, refs = map VDict ds /\ Forall typed_ref ds.

Definition tv_wf (st : tv_state) : Prop :=
  typed_refs (current_ext_refs st)
  /\ Forall text_record (components st)
  /\ forall pkg, current_package st = Some pkg -> text_record pkg.

Definition shift (done : list dict) (st : tv_state) : tv_state :=
  {| components := done ++ components st;
     current_package := current_package st;
     current_ext_refs := current_ext_refs st |}.

Definition map_result {A B} (f : A -> B) (m : result A) : result B :=
  x <- m ;; Ok (f x).

Lemma text_record_set (c : dict) (k s : string) :
  text_record c -> In k FIELDNAMES -> text_record (dict_set c k (VStr s)).
Proof.
  intros [Hk Hv] Hin; split.
  - rewrite keys_dict_set; [assumption | now rewrite Hk].
  - intros k' Hin'.
    destruct (String.string_dec k' k) as [->|Hne].
    + exists s; apply dict_get_set_same.
    + rewrite dict_get_set_other by assumption; now apply Hv.
Qed.

Lemma text_record_new (name : string) : text_record (new_package name).
Proof.
  split; [reflexivity|].
  intros k Hin; simpl in Hin.
  repeat (destruct Hin as [<-|Hin]; [eexists; reflexivity|]).
  contradiction.
Qed.

Lemma extract_typed_refs (refs : list value) :
  typed_refs refs ->
  exists s, extract_package_manager_locator (VList refs) = Ok (VStr s).
Proof.
  intros (ds & -> & H); rewrite (extract_typed ds H); eauto.
Qed.

Lemma close_package_ok (st : tv_state) :
  tv_wf st ->
  exists done, close_package st = Ok done /\ Forall text_record done.
Proof.
  intros (Hr & Hc & Hp); unfold close_package.
  destruct (current_package st) as [pkg|]; [|eauto].
  destruct (extract_typed_refs _ Hr) as [s ->]; simpl.
  eexists; split; [reflexivity|].
  apply Forall_app; split; [assumption|].
  constructor; [|constructor].
  apply text_record_set; [now apply Hp | simpl; tauto].
Qed.

Lemma tag_loop_ok (items : list (string * string)) (line : string) (pkg : dict) :
  Forall (fun item => snd (PyStr.split_once ":" (fst item)) <> None
                      /\ In (snd item) FIELDNAMES) items ->
  text_record pkg ->
  exists pkg', tag_loop items line pkg = Ok pkg' /\ text_record pkg'.
Proof.
  intros H Hpkg; induction H as [|[tag key] items [Hc Hk] _ IH]; simpl;
    [eauto|].
  destruct (PyStr.startswith line tag) eqn:E; [|exact IH].
  destruct (after_colon_tagged tag line E Hc) as [v ->]; simpl.
  destruct (String.eqb key "Supplier").
  - rewrite clean_supplier_text; simpl.
    eexists; split; [reflexivity | now apply text_record_set].
  - simpl; eexists; split; [reflexivity | now apply text_record_set].
Qed.

Lemma tag_map_ok :
  Forall (fun item => snd (PyStr.split_once ":" (fst item)) <> None
                      /\ In (snd item) FIELDNAMES) tag_map.
Proof.
  unfold tag_map.
  repeat (apply Forall_cons; [split; [simpl; discriminate | simpl; tauto]|]).
  apply Forall_nil.
Qed.

Lemma ext_ref_line_ok (line : string) (refs : list value) :
  typed_refs refs ->
  exists refs', ext_ref_line line refs = Ok refs' /\ typed_refs refs'.
Proof.
  intros Hr; unfold ext_ref_line.
  destruct (PyStr.startswith line "ExternalRef:") eqn:E; [|eauto].
  destruct (after_colon_tagged _ line E) as [v ->]; [discriminate|].
  cbn [bind].
  destruct (3 <=? List.length (PyStr.split_ws (PyStr.strip v)))%nat; [|eauto].
  eexists; split; [reflexivity|].
  destruct Hr as (ds & -> & Hds).
  eexists (ds ++ [_]); split; [now rewrite map_app|].
  apply Forall_app; split; [assumption|].
  constructor; [|constructor].
  eexists _, _; split; reflexivity.
Qed.

Lemma tv_line_ok (st : tv_state) (l : string) :
  tv_wf st -> exists st', tv_line st l = Ok st' /\ tv_wf st'.
Proof.
  intros Hwf; unfold tv_line.
  destruct (_ || _); [eauto|].
  destruct (PyStr.startswith (PyStr.strip l) "PackageName:") eqn:E.
  - destruct (close_package_ok st Hwf) as (done & -> & Hdone); simpl.
    destruct (after_colon_tagged _ _ E) as [v ->]; [discriminate|]; simpl.
    eexists; split; [reflexivity|].
    split; [|split]; simpl.
    + exists []; split; [reflexivity | constructor].
    + assumption.
    + intros pkg [= <-]; apply text_record_new.
  - destruct Hwf as (Hr & Hc & Hp).
    destruct (current_package st) as [pkg|] eqn:Epkg;
      [|exists st; split; [reflexivity|]; split; [assumption|];
        split; [assumption|]; now rewrite Epkg].
    destruct (tag_loop_ok tag_map (PyStr.strip l) pkg tag_map_ok (Hp _ eq_refl))
      as (pkg' & -> & Hpkg'); simpl.
    destruct (ext_ref_line_ok (PyStr.strip l) _ Hr) as (refs' & -> & Hr'); simpl.
    eexists; split; [reflexivity|].
    split; [|split]; simpl; try assumption.
    now intros ? [= <-].
Qed.

Lemma tv_init_wf : tv_wf tv_init.
Proof.
  split; [|split]; simpl.
  - exists []; split; [reflexivity | constructor].
  - constructor.
  - discriminate.
Qed.

Lemma tv_lines_ok (lines : list string) (st : tv_state) :
  tv_wf st -> exists st', for_each tv_line lines st = Ok st' /\ tv_wf st'.
Proof.
  revert st; induction lines as [|l lines IH]; intros st Hwf; simpl; [eauto|].
  destruct (tv_line_ok st l Hwf) as (st1 & -> & Hwf1); simpl.
  now apply IH.
Qed.

(** The tag-value extractor never raises, and its records are text. *)
Lemma parse_spdx_tv_lines_ok (lines : list string) :
  exists done, parse_spdx_tv_lines lines = Ok done /\ Forall text_record done.
Proof.
  unfold parse_spdx_tv_lines.
  destruct (tv_lines_ok lines tv_init tv_init_wf) as (st & -> & Hwf); simpl.
  now apply close_package_ok.
Qed.

Lemma close_package_shift (done : list dict) (st : tv_state) :
  close_package (shift done st) = map_result (app done) (close_package st).
Proof.
  unfold close_package, map_result; simpl.
  destruct (current_package st); [|reflexivity].
  destruct (extract_package_manager_locator _); simpl; [|reflexivity].
  now rewrite app_assoc.
Qed.

Lemma tv_line_shift (done : list dict) (st : tv_state) (l : string) :
  tv_line (shift done st) l = map_result (shift done) (tv_line st l).
Proof.
  unfold tv_line.
  destruct (_ || _); [reflexivity|].
  destruct (PyStr.startswith (PyStr.strip l) "PackageName:").
  - rewrite close_package_shift; unfold map_result.
    destruct (close_package st); simpl; [|reflexivity].
    destruct (after_colon (PyStr.strip l)); reflexivity.
  - cbn [shift current_package current_ext_refs components].
    destruct (current_package st) as [pkg|]; [|reflexivity].
    destruct (tag_loop tag_map (PyStr.strip l) pkg); [|reflexivity].
    cbn [bind].
    destruct (ext_ref_line (PyStr.strip l) (current_ext_refs st)); reflexivity.
Qed.

Lemma for_each_shift (done : list dict) (lines : list string) (st : tv_state) :
  for_each tv_line lines (shift done st)
  = map_result (shift done) (for_each tv_line lines st).
Proof.
  revert st; induction lines as [|l lines IH]; intros st; [reflexivity|].
  cbn [for_each]; rewrite tv_line_shift; unfold map_result at 1.
  destruct (tv_line st l) as [st1|e]; [|reflexivity].
  cbn [bind]; apply IH.
Qed.

(** The state a [PackageName:] line leaves when nothing came before it. *)
Definition opened (l : string) : tv_state :=
  {| components := [];
     current_package :=
       Some (new_package (PyStr.strip (PyStr.slice_from 12 (PyStr.strip l))));
     current_ext_refs := [] |}.

(** A line that starts with the tag is taken for the start of a package:
    trimming it leaves the tag in front. *)
Lemma package_line_raw (l : string) :
  PyStr.startswith l "PackageName:" = true -> is_package_line l = true.
Proof.
  intros H; unfold is_package_line; rewrite (package_name_line l H).
  generalize (PyStr.rstrip (PyStr.slice_from 12 l)); intros x.
  destruct x; reflexivity.
Qed.

Lemma tv_line_package (l : string) (st : tv_state) :
  is_package_line l = true ->
  tv_line st l
  = (done <- close_package st ;;
     Ok {| components := done;
           current_package :=
             Some (new_package
                     (PyStr.strip (PyStr.slice_from 12 (PyStr.strip l))));
           current_ext_refs := [] |}).
Proof.
  unfold is_package_line, tv_line; intros H.
  pose proof (startswith_split _ _ H) as E.
  change (String.length "PackageName:") with 12 in E.
  revert E; generalize (PyStr.slice_from 12 (PyStr.strip l)).
  generalize (PyStr.strip l); intros line x ->.
  destruct x; reflexivity.
Qed.

Lemma tv_line_opened (l : string) (done : list dict) (st : tv_state) :
  is_package_line l = true ->
  close_package st = Ok done ->
  tv_line st l = Ok (shift done (opened l)).
Proof.
  intros H Hc; rewrite (tv_line_package l st H), Hc.
  unfold shift, opened; simpl; now rewrite app_nil_r.
Qed.

Lemma tv_segments (l : string) (before after : list string) :
  is_package_line l = true ->
  exists first rest,
    parse_spdx_tv_lines before = Ok first
    /\ parse_spdx_tv_lines (l :: after) = Ok rest
    /\ parse_spdx_tv_lines (before ++ l :: after) = Ok (first ++ rest).
Proof.
  intros H.
  destruct (tv_lines_ok before tv_init tv_init_wf) as (st & Hst & Hwf).
  destruct (close_package_ok st Hwf) as (first & Hfirst & _).
  destruct (parse_spdx_tv_lines_ok (l :: after)) as (rest & Hrest & _).
  exists first, rest; split; [|split; [assumption|]].
  - unfold parse_spdx_tv_lines; now rewrite Hst.
  - revert Hrest; unfold parse_spdx_tv_lines.
    rewrite for_each_app, Hst; cbn [bind for_each].
    rewrite (tv_line_opened l first st H Hfirst).
    rewrite (tv_line_opened l [] tv_init H eq_refl).
    cbn [bind]; rewrite !for_each_shift; unfold map_result.
    destruct (for_each tv_line after (opened l)) as [st'|e];
      [|discriminate].
    cbn [bind]; rewrite !close_package_shift; unfold map_result.
    destruct (close_package st') as [tail|e]; [|discriminate].
    cbn [bind]; now intros [= <-].
Qed.

(** Closing a package whose accumulated references are typed. *)
Lemma close_package_typed (st : tv_state) (pkg : dict) (ds : list dict) :
  current_package st = Some pkg ->
  current_ext_refs st = map VDict ds ->
  Forall typed_ref ds ->
  close_package st
  = Ok (components st
        ++ [dict_set pkg "Package_Manager_Locator"
              (VStr (aggregate_locators (map read_entry ds)))]).
Proof.
  intros Hp Hr Hds; unfold close_package.
  now rewrite Hp, Hr, (extract_typed ds Hds).
Qed.

(** C5.  For a line [l] that, trimmed, begins with "PackageName:", [name]
    being the trimmed text after the tag:
    - with a package open, the step of the scan puts the aggregate of the
      accumulated references in the locator field of the open record and
      appends the record to the output, then opens the record written
      out below, whose ten fields are all "N/A" but [Name], which is
      [name], and empties the accumulator of references;
    - with no package open, the step opens that same record, leaves the
      output as it is and empties the accumulator;
    - the scan of any lines succeeds and accumulates only references
      whose category and locator are text; at the end of the input the
      package left open, if any, is closed the same way: its locator
      field is set to the aggregate of the accumulated references, that
      is section 4.2's [aggregate_locators] of them, and it is appended
      to the output;
    - the records of a text are those of what comes before [l], closed as
      at the end of input, followed by those of the text from [l] on read
      on its own: nothing before [l] reaches a record opened at [l];
    - followed at once by a second such line, [l] yields the record that
      holds [name] and "N/A" everywhere else, after the records of what
      comes before [l] and before the records of the second line. *)
Theorem package_name_starts_new_package :
  forall l : string,
    PyStr.startswith (PyStr.strip l) "PackageName:" = true ->
    let name := PyStr.strip (PyStr.slice_from 12 (PyStr.strip l)) in
    let fresh : dict :=
      [ ("SPDX_ID", VStr "N/A");
        ("Name", VStr name);
        ("Version", VStr "N/A");
        ("Supplier", VStr "N/A");
        ("License_Declared", VStr "N/A");
        ("Copyright_Text", VStr "N/A");
        ("Download_Location", VStr "N/A");
        ("Homepage", VStr "N/A");
        ("Description", VStr "N/A");
        ("Package_Manager_Locator", VStr "N/A") ] in
    (forall (done : list dict) (pkg : dict) (refs : list value)
            (aggregate : value),
       extract_package_manager_locator (VList refs) = Ok aggregate ->
       tv_line {| components := done;
                  current_package := Some pkg;
                  current_ext_refs := refs |} l
       = Ok {| components :=
                 done ++ [dict_set pkg "Package_Manager_Locator" aggregate];
               current_package := Some fresh;
               current_ext_refs := [] |})
    /\ (forall (done : list dict) (refs : list value),
          tv_line {| components := done;
                     current_package := None;
                     current_ext_refs := refs |} l
          = Ok {| components := done;
                  current_package := Some fresh;
                  current_ext_refs := [] |})
    /\ (forall lines : list string,
          exists (st : tv_state) (ds : list dict),
            for_each tv_line lines tv_init = Ok st
            /\ current_ext_refs st = map VDict ds
            /\ Forall typed_ref ds
            /\ extract_package_manager_locator (VList (current_ext_refs st))
               = Ok (VStr (aggregate_locators (map read_entry ds)))
            /\ parse_spdx_tv_lines lines
               = Ok (match current_package st with
                     | Some pkg =>
                         components st
                         ++ [dict_set pkg "Package_Manager_Locator"
                               (VStr (aggregate_locators
                                        (map read_entry ds)))]
                     | None => components st
                     end))
    /\ (forall before after : list string,
          exists first rest,
            parse_spdx_tv_lines before = Ok first
            /\ parse_spdx_tv_lines (l :: after) = Ok rest
            /\ parse_spdx_tv_lines (before ++ l :: after) = Ok (first ++ rest))
    /\ (forall (before : list string) (l2 : string) (after : list string),
          PyStr.startswith (PyStr.strip l2) "PackageName:" = true ->
          exists first rest,
            parse_spdx_tv_lines before = Ok first
            /\ parse_spdx_tv_lines (l2 :: after) = Ok rest
            /\ parse_spdx_tv_lines (before ++ l :: l2 :: after)
               = Ok (first ++ fresh :: rest)).
Proof.
  intros l H name fresh.
  split.
  { intros done pkg refs aggregate Ha.
    rewrite (tv_line_package l _ H); unfold close_package.
    cbn [current_package current_ext_refs components].
    rewrite Ha; reflexivity. }
  split.
  { intros done refs; rewrite (tv_line_package l _ H); reflexivity. }
  split.
  { intros lines.
    destruct (tv_lines_ok lines tv_init tv_init_wf)
      as (st & Hst & (ds & Hrefs & Hds) & _ & _).
    exists st, ds; split; [assumption|]; split; [assumption|].
    split; [assumption|]; split;
      [rewrite Hrefs; now apply extract_typed|].
    unfold parse_spdx_tv_lines; rewrite Hst; cbn [bind].
    destruct (current_package st) as [pkg|] eqn:Hp.
    - now apply close_package_typed.
    - unfold close_package; now rewrite Hp. }
  split; [intros before after; now apply tv_segments|].
  intros before l2 after H2.
  destruct (tv_segments l before (l2 :: after) H)
    as (first & tail & Hf & Ht & Hall).
  destruct (tv_segments l2 [l] after H2) as (one & rest & Ho & Hr & Hpair).
  exists first, rest; split; [assumption|]; split; [assumption|].
  assert (E : parse_spdx_tv_lines [l] = Ok [fresh]).
  { unfold parse_spdx_tv_lines; cbn [for_each].
    rewrite (tv_line_opened l [] tv_init H eq_refl); reflexivity. }
  rewrite E in Ho; injection Ho as <-.
  cbn [app] in Hpair; rewrite Hpair in Ht; injection Ht as <-.
  exact Hall.
Qed.

(** *** The fields of a record *)

Lemma collect_components {A} (f : A -> result dict) (items : list A)
      (acc done : list dict) :
  for_each (fun components x => c <- f x ;; Ok (components ++ [c])) items acc
  = Ok done ->
  exists cs, done = acc ++ cs /\ Forall2 (fun x c => f x = Ok c) items cs.
Proof.
  revert acc; induction items as [|x items IH]; intros acc; simpl.
  - intros [= <-]; exists []; split; [now rewrite app_nil_r | constructor].
  - destruct (f x) as [c|e] eqn:E; simpl; [|discriminate].
    intros H; destruct (IH _ H) as (cs & -> & Hcs).
    exists (c :: cs); split; [now rewrite <- app_assoc | now constructor].
Qed.

Lemma extract_is_text (refs r : value) :
  extract_package_manager_locator refs = Ok r -> exists s, r = VStr s.
Proof.
  unfold extract_package_manager_locator.
  destruct (iter refs) as [items|]; simpl; [|discriminate].
  destruct (for_each locator_step items []) as [locators|]; simpl;
    [|discriminate].
  destruct locators as [|x xs]; [intros H; injection H as <-; eauto|].
  destruct (str_join "; " (x :: xs)); simpl; [|discriminate].
  intros H; injection H as <-; eauto.
Qed.

Lemma clean_supplier_none (raw : value) :
  clean_supplier raw = Ok VNone -> raw = VNone.
Proof.
  unfold clean_supplier.
  destruct (negb (truthy raw) || eq_str raw "N/A"); [now intros [= ->]|].
  destruct raw; discriminate.
Qed.

Lemma json_component_fields (package : value) (c : dict) :
  json_component package = Ok c ->
  exists d,
    package = VDict d
    /\ keys c = FIELDNAMES
    /\ (exists s, dict_get c "Package_Manager_Locator" VNone = VStr s)
    /\ forall field src,
         In (field, src) json_fields ->
         (~ In src (keys d) -> dict_get c field VNone = VStr SENTINEL)
         /\ (dict_get c field VNone = VNone ->
             dict_get d src (VStr SENTINEL) = VNone).
Proof.
  destruct package as [| | | | | |d]; try discriminate.
  unfold json_component; cbn [get bind].
  destruct (clean_supplier (dict_get d "supplier" (VStr "N/A")))
    as [supplier|] eqn:Es; [|discriminate].
  cbn [bind].
  destruct (extract_package_manager_locator (dict_get d "externalRefs" (VList [])))
    as [loc|] eqn:El; [|discriminate].
  cbn [bind]; intros [= <-].
  destruct (extract_is_text _ _ El) as [s ->].
  exists d; split; [reflexivity|]; split; [reflexivity|].
  split; [exists s; reflexivity|].
  intros field src Hin; unfold SENTINEL.
  simpl in Hin.
  repeat (destruct Hin as [[= <- <-]|Hin];
          [split; [intros Hk; try rewrite (dict_get_absent d _ _ Hk) in *
                  | intros Hnull]|]);
    try contradiction; try exact Hnull; try reflexivity;
    cbn [dict_get String.eqb Ascii.eqb Bool.eqb] in *.
  - revert Es; unfold clean_supplier; simpl; now intros [= <-].
  - subst supplier; now apply clean_supplier_none.
  - revert El; unfold extract_package_manager_locator; simpl.
    now intros [= <-].
  - discriminate.
Qed.

Lemma xml_refs_typed (ns : string) (refs : list element) (acc done : list value) :
  typed_refs acc -> for_each (xml_ref ns) refs acc = Ok done -> typed_refs done.
Proof.
  revert acc; induction refs as [|ref refs IH]; intros acc Hacc; simpl.
  - now intros [= <-].
  - unfold xml_ref at 1.
    destruct (child_text (find ref (ns ++ "referenceCategory"))) as [c|];
      simpl; [|discriminate].
    destruct (child_text (find ref (ns ++ "referenceLocator"))) as [l|];
      simpl; [|discriminate].
    apply IH.
    destruct Hacc as (ds & -> & Hds).
    eexists (ds ++ [_]); split; [now rewrite map_app|].
    apply Forall_app; split; [assumption|].
    constructor; [|constructor].
    exists c, l; split; reflexivity.
Qed.

Lemma xml_component_text (ns : string) (package : element) (c : dict) :
  xml_component ns package = Ok c -> text_record c.
Proof.
  unfold xml_component.
  destruct (for_each (xml_ref ns) _ []) as [ext_refs|] eqn:E; [|discriminate].
  cbn [bind]; rewrite clean_supplier_text; cbn [bind].
  assert (Ht : typed_refs ext_refs).
  { apply (xml_refs_typed _ _ _ _ (ex_intro _ [] (conj eq_refl (Forall_nil _))) E). }
  destruct (extract_typed_refs _ Ht) as [s ->]; cbn [bind].
  intros [= <-]; split; [reflexivity|].
  intros k Hin; simpl in Hin.
  repeat (destruct Hin as [<-|Hin]; [eexists; reflexivity|]).
  contradiction.
Qed.

Lemma Forall2_right {A B} (R : A -> B -> Prop) (P : B -> Prop) xs ys :
  (forall x y, R x y -> P y) -> Forall2 R xs ys -> Forall P ys.
Proof.
  intros H F; induction F; constructor; eauto.
Qed.

Lemma tv_line_closed (st : tv_state) (raw : string) :
  current_package st = None -> is_package_line raw = false ->
  tv_line st raw = Ok st.
Proof.
  unfold is_package_line, tv_line; intros Hp Hl; rewrite Hl, Hp.
  now destruct (_ || _).
Qed.

Lemma xml_component_scalars (ns : string) (package : element) (c : dict) :
  xml_component ns package = Ok c ->
  forall field tag,
    In (field, tag) xml_fields ->
    dict_get c field VNone
    = VStr (if String.eqb field "Supplier"
            then normalize_supplier (get_text ns package tag)
            else get_text ns package tag).
Proof.
  unfold xml_component.
  destruct (for_each (xml_ref ns) _ []) as [ext_refs|]; [|discriminate].
  cbn [bind]; rewrite clean_supplier_text; cbn [bind].
  destruct (extract_package_manager_locator (VList ext_refs)); [|discriminate].
  cbn [bind]; intros [= <-] field tag Hin.
  unfold xml_fields in Hin; cbn [In] in Hin.
  repeat (destruct Hin as [Hin|Hin]; [injection Hin as <- <-; reflexivity|]).
  contradiction.
Qed.

Lemma json_component_values (d c : dict) :
  json_component (VDict d) = Ok c ->
  (forall field src,
     In (field, src) json_fields ->
     field <> "Supplier" -> field <> "Package_Manager_Locator" ->
     dict_get c field VNone = dict_get d src (VStr SENTINEL))
  /\ clean_supplier (dict_get d "supplier" (VStr SENTINEL))
     = Ok (dict_get c "Supplier" VNone)
  /\ extract_package_manager_locator (dict_get d "externalRefs" (VList []))
     = Ok (dict_get c "Package_Manager_Locator" VNone).
Proof.
  unfold json_component, SENTINEL; cbn [get bind].
  destruct (clean_supplier (dict_get d "supplier" (VStr "N/A")))
    as [supplier|] eqn:Es; [|discriminate].
  cbn [bind].
  destruct (extract_package_manager_locator (dict_get d "externalRefs" (VList [])))
    as [loc|] eqn:El; [|discriminate].
  cbn [bind]; intros [= <-].
  split; [|split; reflexivity].
  intros field src Hin Hs Hl; simpl in Hin.
  repeat (destruct Hin as [[= <- <-]|Hin]; [try reflexivity|]);
    contradiction.
Qed.

(** *** The fields of a tag-value record *)

(** A line changes no field other than the one of the tag it starts
    with. *)
Lemma tag_loop_keeps (items : list (string * string)) (line : string)
      (pkg pkg' : dict) (k : string) :
  tag_loop items line pkg = Ok pkg' ->
  (forall tag, In (tag, k) items -> PyStr.startswith line tag = false) ->
  dict_get pkg' k VNone = dict_get pkg k VNone.
Proof.
  induction items as [|[tag key] items IH]; cbn [tag_loop].
  - now intros [= <-].
  - intros H Hk; destruct (PyStr.startswith line tag) eqn:E.
    + destruct (after_colon line) as [v|]; [|discriminate].
      cbn [bind] in H.
      destruct (String.eqb_spec key k) as [->|Hne].
      * rewrite (Hk tag (or_introl eq_refl)) in E; discriminate.
      * destruct (if String.eqb key "Supplier"
                  then clean_supplier (VStr (PyStr.strip v))
                  else Ok (VStr (PyStr.strip v))) as [v'|]; [|discriminate].
        cbn [bind] in H; injection H as <-.
        apply dict_get_set_other; congruence.
    + apply IH; [assumption | intros tag' Hin; apply Hk; now right].
Qed.

Lemma tv_line_body (st : tv_state) (pkg : dict) (r : string) :
  current_package st = Some pkg -> is_package_line r = false -> tv_wf st ->
  exists st' pkg',
    tv_line st r = Ok st' /\ tv_wf st'
    /\ components st' = components st
    /\ current_package st' = Some pkg'
    /\ (forall k,
          (forall tag, In (tag, k) tag_map ->
                       PyStr.startswith (PyStr.strip r) tag = false) ->
          dict_get pkg' k VNone = dict_get pkg k VNone)
    /\ (PyStr.startswith (PyStr.strip r) "ExternalRef:" = false ->
        current_ext_refs st' = current_ext_refs st).
Proof.
  intros Hp Hl Hwf.
  destruct (tv_line_ok st r Hwf) as (st' & E & Hwf').
  pose proof E as E'; unfold tv_line in E'; unfold is_package_line in Hl.
  rewrite Hl, Hp in E'.
  destruct (String.eqb (PyStr.strip r) ""
            || PyStr.startswith (PyStr.strip r) "#").
  - injection E' as <-.
    exists st, pkg; split; [exact E|]; split; [exact Hwf|].
    split; [reflexivity|]; split; [exact Hp|].
    split; intros; reflexivity.
  - destruct (tag_loop tag_map (PyStr.strip r) pkg) as [pkg'|] eqn:Et;
      [|discriminate].
    cbn [bind] in E'.
    destruct (ext_ref_line (PyStr.strip r) (current_ext_refs st))
      as [refs'|] eqn:Er; [|discriminate].
    cbn [bind] in E'; injection E' as <-.
    eexists; exists pkg'; split; [exact E|]; split; [exact Hwf'|].
    split; [reflexivity|]; split; [reflexivity|]; split.
    + intros k Hk; exact (tag_loop_keeps _ _ _ _ _ Et Hk).
    + intros Hno; cbn [current_ext_refs].
      revert Er; unfold ext_ref_line; rewrite Hno; now intros [= <-].
Qed.

Lemma tv_lines_body (body : list string) (st : tv_state) (pkg : dict) :
  Forall (fun r => is_package_line r = false) body ->
  current_package st = Some pkg -> tv_wf st ->
  exists st' pkg',
    for_each tv_line body st = Ok st' /\ tv_wf st'
    /\ components st' = components st
    /\ current_package st' = Some pkg'
    /\ (forall k,
          (forall tag, In (tag, k) tag_map ->
                       Forall (fun r => PyStr.startswith (PyStr.strip r) tag
                                        = false) body) ->
          dict_get pkg' k VNone = dict_get pkg k VNone)
    /\ (Forall (fun r => PyStr.startswith (PyStr.strip r) "ExternalRef:"
                         = false) body ->
        current_ext_refs st' = current_ext_refs st).
Proof.
  intros H; revert st pkg; induction H as [|r body Hr _ IH];
    intros st pkg Hp Hwf.
  - exists st, pkg; split; [reflexivity|]; split; [exact Hwf|].
    split; [reflexivity|]; split; [exact Hp|].
    split; intros; reflexivity.
  - destruct (tv_line_body st pkg r Hp Hr Hwf)
      as (st1 & pkg1 & E1 & Hwf1 & Hc1 & Hp1 & Hk1 & Hr1).
    destruct (IH st1 pkg1 Hp1 Hwf1)
      as (st2 & pkg2 & E2 & Hwf2 & Hc2 & Hp2 & Hk2 & Hr2).
    exists st2, pkg2; cbn [for_each]; rewrite E1; cbn [bind].
    split; [exact E2|]; split; [exact Hwf2|].
    split; [now rewrite Hc2|]; split; [exact Hp2|]; split.
    + intros k Hk; rewrite Hk2, Hk1; [reflexivity| |].
      * intros tag Hin; exact (Forall_inv (Hk tag Hin)).
      * intros tag Hin; exact (Forall_inv_tail (Hk tag Hin)).
    + intros Hno; rewrite Hr2, Hr1;
        [reflexivity | exact (Forall_inv Hno) | exact (Forall_inv_tail Hno)].
Qed.

(** No two tags of the scan set the same field. *)
Lemma tag_map_tags (tag tag' key : string) :
  In (tag, key) tag_map -> In (tag', key) tag_map -> tag' = tag.
Proof.
  unfold tag_map; cbn [In]; intros H H'.
  repeat (destruct H as [H|H]; [injection H as <- <-|]); try contradiction;
    repeat (destruct H' as [H'|H'];
            [first [discriminate H' | now injection H' as <-]|]);
    contradiction.
Qed.

Lemma tag_map_fields (tag key name : string) :
  In (tag, key) tag_map ->
  key <> "Package_Manager_Locator"
  /\ dict_get (new_package name) key VNone = VStr SENTINEL.
Proof.
  unfold tag_map; cbn [In]; intros H.
  repeat (destruct H as [H|H];
          [injection H as <- <-; split; [discriminate | reflexivity]|]).
  contradiction.
Qed.

Lemma opened_wf (l : string) : tv_wf (opened l).
Proof.
  split; [|split]; cbn [opened current_ext_refs components current_package].
  - exists []; split; [reflexivity | constructor].
  - constructor.
  - intros pkg [= <-]; apply text_record_new.
Qed.

(** The record of a package read on its own. *)
Lemma tv_package_record (l : string) (body : list string) :
  is_package_line l = true ->
  Forall (fun r => is_package_line r = false) body ->
  exists c,
    parse_spdx_tv_lines (l :: body) = Ok [c]
    /\ dict_get c "Name" VNone
       = VStr (PyStr.strip (PyStr.slice_from 12 (PyStr.strip l)))
    /\ (forall tag key,
          In (tag, key) tag_map ->
          Forall (fun r => PyStr.startswith (PyStr.strip r) tag = false)
                 body ->
          dict_get c key VNone = VStr SENTINEL)
    /\ (Forall (fun r => PyStr.startswith (PyStr.strip r) "ExternalRef:"
                         = false) body ->
        dict_get c "Package_Manager_Locator" VNone = VStr SENTINEL).
Proof.
  intros Hl Hb.
  unfold parse_spdx_tv_lines; cbn [for_each].
  rewrite (tv_line_opened l [] tv_init Hl eq_refl); cbn [bind].
  change (shift [] (opened l)) with (opened l).
  destruct (tv_lines_body body (opened l) _ Hb eq_refl (opened_wf l))
    as (st' & pkg' & -> & Hwf' & Hc & Hp & Hkeys & Hrefs).
  cbn [bind].
  destruct Hwf' as ((ds & Hds & Htyped) & _ & Hpkg).
  rewrite (close_package_typed st' pkg' ds Hp Hds Htyped), Hc.
  cbn [components opened app].
  eexists; split; [reflexivity|]; split; [|split].
  - rewrite dict_get_set_other by discriminate.
    rewrite Hkeys; [reflexivity|].
    intros tag Hin; exfalso; unfold tag_map in Hin; cbn [In] in Hin.
    repeat (destruct Hin as [Hin|Hin]; [discriminate|]).
    contradiction.
  - intros tag key Hin Hno.
    destruct (tag_map_fields tag key
                (PyStr.strip (PyStr.slice_from 12 (PyStr.strip l))) Hin)
      as [Hne Hnew].
    rewrite dict_get_set_other by assumption.
    rewrite Hkeys; [exact Hnew|].
    intros tag' Hin'; now rewrite (tag_map_tags tag tag' key Hin Hin').
  - intros Hno; rewrite dict_get_set_same.
    specialize (Hrefs Hno); rewrite Hds in Hrefs.
    destruct ds; [reflexivity | discriminate].
Qed.

Lemma package_body_split (rest : list string) :
  Forall (fun r => is_package_line r = false) (package_body rest)
  /\ exists tail,
       rest = package_body rest ++ tail
       /\ (tail = []
           \/ exists l' after,
                tail = l' :: after /\ is_package_line l' = true).
Proof.
  induction rest as [|r rest [IH1 (tail & IH2 & IH3)]]; cbn [package_body].
  - split; [constructor|]; exists []; split; [reflexivity | now left].
  - destruct (is_package_line r) eqn:E.
    + split; [constructor|]; exists (r :: rest); split; [reflexivity|].
      right; eauto.
    + split; [now constructor|]; exists tail; split; [|assumption].
      cbn [app]; now f_equal.
Qed.

Lemma tv_prefix_ignored (pre rest : list string) :
  Forall (fun l => is_package_line l = false) pre ->
  parse_spdx_tv_lines (pre ++ rest) = parse_spdx_tv_lines rest.
Proof.
  intros H; unfold parse_spdx_tv_lines; rewrite for_each_app.
  assert (E : for_each tv_line pre tv_init = Ok tv_init).
  { induction H as [|l pre Hl _ IH]; [reflexivity|].
    cbn [for_each]; now rewrite (tv_line_closed tv_init l eq_refl Hl). }
  now rewrite E.
Qed.

(** The records of a document are those of its packages, each read on its
    own, in order. *)
Lemma tv_records_by_package (lines : list string) :
  exists done,
    parse_spdx_tv_lines lines = Ok done
    /\ Forall2
         (fun (p : string * list string) (c : dict) =>
            parse_spdx_tv_lines (fst p :: snd p) = Ok [c]
            /\ dict_get c "Name" VNone
               = VStr (PyStr.strip (PyStr.slice_from 12 (PyStr.strip (fst p))))
            /\ (forall tag key,
                  In (tag, key) tag_map ->
                  Forall (fun r => PyStr.startswith (PyStr.strip r) tag
                                   = false) (snd p) ->
                  dict_get c key VNone = VStr SENTINEL)
            /\ (Forall (fun r => PyStr.startswith (PyStr.strip r)
                                   "ExternalRef:" = false) (snd p) ->
                dict_get c "Package_Manager_Locator" VNone = VStr SENTINEL))
         (tv_packages lines) done.
Proof.
  induction lines as [|l rest (done & Hd & IH)]; cbn [tv_packages].
  - exists []; split; [reflexivity | constructor].
  - destruct (is_package_line l) eqn:E.
    + destruct (package_body_split rest) as (Hb & tail & Hsplit & Htail).
      destruct (tv_package_record l (package_body rest) E Hb) as (c & Hc).
      exists (c :: done); split; [|constructor; [exact Hc | exact IH]].
      destruct Hc as (Hc & _); clear IH.
      revert Hb Hsplit Hc; generalize (package_body rest); intros body Hb -> Hc.
      rewrite (tv_prefix_ignored body tail Hb) in Hd.
      destruct Htail as [-> | (l' & after & -> & El')].
      * injection Hd as <-; now rewrite app_nil_r.
      * destruct (tv_segments l' (l :: body) after El')
          as (first & rest' & Hf & Hr & Hall).
        rewrite Hc in Hf; injection Hf as <-.
        rewrite Hd in Hr; injection Hr as <-.
        exact Hall.
    + exists done; split; [|exact IH].
      unfold parse_spdx_tv_lines; cbn [for_each].
      rewrite (tv_line_closed tv_init l eq_refl E); exact Hd.
Qed.

(** *** The fields of an XML record *)

Lemma get_text_absent (ns : string) (package : element) (tag : string) :
  (find package (ns ++ tag) = None -> get_text ns package tag = SENTINEL)
  /\ (forall el,
        find package (ns ++ tag) = Some el ->
        el_text el = None \/ el_text el = Some "" ->
        get_text ns package tag = SENTINEL).
Proof.
  unfold get_text; split; [now intros ->|].
  intros el -> [-> | ->]; reflexivity.
Qed.

Lemma xml_component_fields (ns : string) (package : element) (c : dict) :
  xml_component ns package = Ok c ->
  text_record c
  /\ (forall field tag,
        In (field, tag) xml_fields ->
        (find package (ns ++ tag) = None ->
         dict_get c field VNone = VStr SENTINEL)
        /\ (forall el,
              find package (ns ++ tag) = Some el ->
              el_text el = None \/ el_text el = Some "" ->
              dict_get c field VNone = VStr SENTINEL))
  /\ (findall package (ns ++ "externalRefs") = [] ->
      findall package (ns ++ "externalRef") = [] ->
      dict_get c "Package_Manager_Locator" VNone = VStr SENTINEL).
Proof.
  intros H; split; [exact (xml_component_text _ _ _ H)|]; split.
  - intros field tag Hin.
    assert (E : get_text ns package tag = SENTINEL ->
                dict_get c field VNone = VStr SENTINEL).
    { intros Ht; rewrite (xml_component_scalars _ _ _ H field tag Hin), Ht.
      now destruct (String.eqb field "Supplier"). }
    destruct (get_text_absent ns package tag) as [Hnone Hsome].
    split; [intros Hf; exact (E (Hnone Hf))|].
    intros el Hf Ht; exact (E (Hsome el Hf Ht)).
  - intros H1 H2; revert H; unfold xml_component; rewrite H1, H2.
    cbn [or_list for_each bind]; rewrite clean_supplier_text; cbn [bind].
    change (extract_package_manager_locator (VList []))
      with (@Ok value (VStr "N/A")).
    cbn [bind]; now intros [= <-].
Qed.

(** C1, as the code has it.  Every record of the three extractors has the
    ten fields, in the canonical order.
    - JSON: there is one record per item of the package array.  In it each
      of the eight plain fields is what the package object holds under
      its key, the sentinel when the key is absent; the supplier is
      [clean_supplier] of what the object holds under [supplier] (the
      sentinel when absent); the locator is the aggregate of what it
      holds under [externalRefs] (the empty list when absent) and is
      always text.  So a field whose key is absent is the sentinel, and a
      field is null only where the document gives null under its key.
    - Tag-value: the extractor never fails and all fields of its records
      are text.  There is one record per [PackageName:] line, in order,
      and it is the record of the lines of that package read on their
      own: its name is the trimmed text after the tag, each of the eight
      tagged fields is the sentinel when no line of the package starts
      with its tag, and the locator is the sentinel when no line of the
      package starts with [ExternalRef:].
    - XML: there is one record per package element, in order, and all its
      fields are text: a scalar field is the sentinel when the child
      element of its name is absent, has no text or has the empty text,
      and the locator is the sentinel when the package element has no
      reference element. *)
Theorem records_have_all_fields :
  (forall (sbom_data : value) (done : list dict),
     parse_spdx_json_data sbom_data = Ok done ->
     exists packages,
       (p <- get sbom_data "packages" (VList []) ;; iter p) = Ok packages
       /\ Forall2 (fun package c => json_component package = Ok c)
                  packages done)
  /\ (forall (package : value) (c : dict),
        json_component package = Ok c ->
        exists d,
          package = VDict d
          /\ keys c = FIELDNAMES
          /\ (forall field src,
                In (field, src) json_fields ->
                field <> "Supplier" -> field <> "Package_Manager_Locator" ->
                dict_get c field VNone = dict_get d src (VStr SENTINEL))
          /\ clean_supplier (dict_get d "supplier" (VStr SENTINEL))
             = Ok (dict_get c "Supplier" VNone)
          /\ extract_package_manager_locator
               (dict_get d "externalRefs" (VList []))
             = Ok (dict_get c "Package_Manager_Locator" VNone)
          /\ (exists s, dict_get c "Package_Manager_Locator" VNone = VStr s)
          /\ forall field src,
               In (field, src) json_fields ->
               (~ In src (keys d) -> dict_get c field VNone = VStr SENTINEL)
               /\ (dict_get c field VNone = VNone ->
                   dict_get d src (VStr SENTINEL) = VNone))
  /\ (forall lines : list string,
        exists done,
          parse_spdx_tv_lines lines = Ok done
          /\ Forall text_record done
          /\ Forall2
               (fun (p : string * list string) (c : dict) =>
                  parse_spdx_tv_lines (fst p :: snd p) = Ok [c]
                  /\ dict_get c "Name" VNone
                     = VStr (PyStr.strip
                               (PyStr.slice_from 12 (PyStr.strip (fst p))))
                  /\ (forall tag key,
                        In (tag, key) tag_map ->
                        Forall (fun r => PyStr.startswith (PyStr.strip r) tag
                                         = false) (snd p) ->
                        dict_get c key VNone = VStr SENTINEL)
                  /\ (Forall (fun r => PyStr.startswith (PyStr.strip r)
                                         "ExternalRef:" = false) (snd p) ->
                      dict_get c "Package_Manager_Locator" VNone
                      = VStr SENTINEL))
               (tv_packages lines) done)
  /\ (forall (root : element) (done : list dict),
        parse_spdx_xml_root root = Ok done ->
        Forall2
          (fun (package : element) (c : dict) =>
             text_record c
             /\ (forall field tag,
                   In (field, tag) xml_fields ->
                   (find package (namespace root ++ tag) = None ->
                    dict_get c field VNone = VStr SENTINEL)
                   /\ (forall el,
                         find package (namespace root ++ tag) = Some el ->
                         el_text el = None \/ el_text el = Some "" ->
                         dict_get c field VNone = VStr SENTINEL))
             /\ (findall package (namespace root ++ "externalRefs") = [] ->
                 findall package (namespace root ++ "externalRef") = [] ->
                 dict_get c "Package_Manager_Locator" VNone = VStr SENTINEL))
          (xml_packages root) done).
Proof.
  split; [|split; [|split]].
  - intros sbom_data done; unfold parse_spdx_json_data.
    destruct (get sbom_data "packages" (VList [])) as [p|]; simpl;
      [|discriminate].
    destruct (iter p) as [items|]; simpl; [|discriminate].
    intros H; destruct (collect_components _ _ _ _ H) as (cs & -> & Hcs).
    exists items; split; [reflexivity | exact Hcs].
  - intros package c H.
    destruct (json_component_fields package c H)
      as (d & -> & Hk & Hloc & Hfields).
    destruct (json_component_values d c H) as (Hplain & Hsup & Hext).
    exists d; repeat (split; [assumption || reflexivity|]); assumption.
  - intros lines.
    destruct (tv_records_by_package lines) as (done & Hd & F).
    destruct (parse_spdx_tv_lines_ok lines) as (done' & Hd' & Ht).
    rewrite Hd in Hd'; injection Hd' as <-.
    exists done; split; [assumption|]; split; assumption.
  - intros root done; unfold parse_spdx_xml_root; intros H.
    destruct (collect_components _ _ _ _ H) as (cs & -> & Hcs).
    cbn [app]; unfold xml_packages; clear H.
    induction Hcs as [|p c ps cs Hp _ IH]; [constructor|].
    constructor; [exact (xml_component_fields _ _ _ Hp) | exact IH].
Qed.

(** *** Writing rows and reading them back *)

Section CsvRoundTrip.
Import CsvReader CsvStream.

Lemma append_nil_r (s : string) : (s ++ "")%string = s.
Proof. induction s; simpl; congruence. Qed.

Lemma append_assoc (a b c : string) :
  ((a ++ b) ++ c)%string = (a ++ (b ++ c))%string.
Proof. induction a; simpl; congruence. Qed.

Lemma append_snoc (a : string) (c : ascii) (b : string) :
  ((a ++ String c "") ++ b)%string = (a ++ String c b)%string.
Proof. now rewrite append_assoc. Qed.

(** The stream of a text, by its first characters. *)

Lemma file_lines_nonempty (c : ascii) (X : string) :
  file_lines (String c X) <> [].
Proof.
  simpl; destruct (Ascii.eqb c PyStr.LF); [discriminate|].
  destruct (Ascii.eqb c PyStr.CR).
  - destruct X as [|c' X]; [discriminate|].
    destruct (Ascii.eqb c' PyStr.LF); discriminate.
  - destruct (file_lines X); discriminate.
Qed.

Lemma events_plain (c : ascii) (X : string) :
  is_newline c = false -> X <> "" ->
  events (String c X) = Ch c :: events X.
Proof.
  unfold is_newline, events; intros Hc HX.
  apply Bool.orb_false_iff in Hc; destruct Hc as [Hlf Hcr].
  simpl; rewrite Hlf, Hcr.
  destruct X as [|c' X]; [now elim HX|].
  pose proof (file_lines_nonempty c' X) as Hne.
  destruct (file_lines (String c' X)) as [|l ls]; [now elim Hne|].
  reflexivity.
Qed.

Lemma events_lf (X : string) :
  events (String PyStr.LF X) = Ch PyStr.LF :: EOL :: events X.
Proof. reflexivity. Qed.

Lemma events_crlf (X : string) :
  events (String PyStr.CR (String PyStr.LF X))
  = Ch PyStr.CR :: Ch PyStr.LF :: EOL :: events X.
Proof. reflexivity. Qed.

Lemma events_cr (c : ascii) (X : string) :
  Ascii.eqb c PyStr.LF = false ->
  events (String PyStr.CR (String c X))
  = Ch PyStr.CR :: EOL :: events (String c X).
Proof.
  intros H; unfold events.
  change (file_lines (String PyStr.CR (String c X)))
    with (if Ascii.eqb c PyStr.LF
          then String PyStr.CR (String c "") :: file_lines X
          else String PyStr.CR "" :: file_lines (String c X)).
  now rewrite H.
Qed.

(** Reading by lines is running the stream. *)

Lemma run_line (line : string) (r : reader) (evs : list event) :
  run r (line_events line ++ evs)
  = (r1 <- read_chars r line ;;
     r2 <- process_char r1 EOL ;;
     end_of_line r2 (fun r' => run r' evs)).
Proof.
  revert r; induction line as [|c line IH]; intros r; [reflexivity|].
  cbn [line_events app run read_chars].
  destruct (process_char r (Ch c)) as [r1|e]; [|reflexivity].
  cbn [bind]; apply IH.
Qed.

Lemma end_of_line_ext (r : reader) f g :
  (forall r', f r' = g r') -> end_of_line r f = end_of_line r g.
Proof.
  intros H; unfold end_of_line; destruct (state r); rewrite ?H; reflexivity.
Qed.

Lemma read_lines_run (lines : list string) (r : reader) :
  read_lines r lines = run r (flat_map line_events lines).
Proof.
  revert r; induction lines as [|line lines IH]; intros r; [reflexivity|].
  cbn [flat_map read_lines]; rewrite run_line.
  destruct (read_chars r line) as [r1|e]; [|reflexivity].
  cbn [bind].
  destruct (process_char r1 EOL) as [r2|e]; [|reflexivity].
  cbn [bind]; apply end_of_line_ext; intros r'; apply IH.
Qed.

Lemma read_run (text : string) : read text = run reset (events text).
Proof. apply read_lines_run. Qed.

(** Inside quotes *)

Lemma in_quoted_char (c : ascii) (X f : string) (fs : list string) :
  Ascii.eqb c Csv.DQUOTE = false -> X <> "" ->
  run (mk IN_QUOTED_FIELD f fs) (events (String c X))
  = run (mk IN_QUOTED_FIELD (f ++ String c "") fs) (events X).
Proof.
  intros Hq HX.
  destruct (Ascii.eqb c PyStr.LF) eqn:Hlf.
  { apply Ascii.eqb_eq in Hlf; subst c; now rewrite events_lf. }
  destruct (Ascii.eqb c PyStr.CR) eqn:Hcr.
  - apply Ascii.eqb_eq in Hcr; subst c.
    destruct X as [|c' X]; [now elim HX|].
    destruct (Ascii.eqb c' PyStr.LF) eqn:Hlf'.
    + apply Ascii.eqb_eq in Hlf'; subst c'.
      now rewrite events_crlf, events_lf.
    + now rewrite (events_cr _ _ Hlf').
  - rewrite events_plain; [|unfold is_newline; now rewrite Hlf, Hcr|assumption].
    cbn [run]; unfold process_char; cbn [mk state]; now rewrite Hq.
Qed.

Lemma in_quoted_content (s f rest : string) (fs : list string) :
  rest <> "" ->
  run (mk IN_QUOTED_FIELD f fs)
      (events (Csv.double_quotes s ++ String Csv.DQUOTE rest))
  = run (mk QUOTE_IN_QUOTED_FIELD (f ++ s) fs) (events rest).
Proof.
  intros Hrest; revert f; induction s as [|c s IH]; intros f.
  - rewrite append_nil_r; cbn [Csv.double_quotes append].
    rewrite events_plain by (reflexivity || assumption); reflexivity.
  - cbn [Csv.double_quotes].
    destruct (Ascii.eqb c Csv.DQUOTE) eqn:Hq.
    + apply Ascii.eqb_eq in Hq; subst c; cbn [append].
      rewrite !events_plain
        by (reflexivity || discriminate
            || (destruct (Csv.double_quotes s); discriminate)).
      cbn [run].
      change (process_char (mk IN_QUOTED_FIELD f fs) (Ch Csv.DQUOTE))
        with (Ok (mk QUOTE_IN_QUOTED_FIELD f fs)).
      cbn [bind].
      change (process_char (mk QUOTE_IN_QUOTED_FIELD f fs) (Ch Csv.DQUOTE))
        with (Ok (mk IN_QUOTED_FIELD (f ++ String Csv.DQUOTE "") fs)).
      cbn [bind]; now rewrite IH, append_snoc.
    + cbn [append]; rewrite in_quoted_char;
        [|assumption | destruct (Csv.double_quotes s); discriminate].
      now rewrite IH, append_snoc.
Qed.

(** Outside quotes *)

Lemma special_plain (c : ascii) :
  Csv.special c = false ->
  is_newline c = false /\ Ascii.eqb c Csv.DQUOTE = false
  /\ Ascii.eqb c Csv.COMMA = false.
Proof.
  unfold Csv.special, is_newline; intros H.
  repeat (apply Bool.orb_false_iff in H; destruct H as [H ?]).
  repeat split; try assumption.
  apply Bool.orb_false_iff; now split.
Qed.

Lemma in_field_content (s f rest : string) (fs : list string) :
  Csv.needs_quote s = false -> rest <> "" ->
  run (mk IN_FIELD f fs) (events (s ++ rest))
  = run (mk IN_FIELD (f ++ s) fs) (events rest).
Proof.
  intros Hs Hrest; revert f Hs; induction s as [|c s IH]; intros f Hs.
  - now rewrite append_nil_r.
  - cbn [Csv.needs_quote] in Hs; apply Bool.orb_false_iff in Hs.
    destruct Hs as [Hc Hs]; destruct (special_plain c Hc) as (Hn & Hq & Hm).
    cbn [append]; rewrite events_plain;
      [|assumption | destruct s; [destruct rest; [now elim Hrest|]|];
                     discriminate].
    cbn [run]; unfold process_char; cbn [mk state]; rewrite Hn, Hm.
    cbn [bind].
    change (add_char (mk IN_FIELD f fs) c)
      with (mk IN_FIELD (f ++ String c "") fs).
    now rewrite (IH _ Hs), append_snoc.
Qed.

(** One field, up to what follows it *)

Lemma field_read (s rest : string) (fs : list string) :
  rest <> "" ->
  exists st,
    run (mk START_FIELD "" fs) (events (Csv.field s ++ rest))
    = run (mk st s fs) (events rest)
    /\ (st = IN_FIELD \/ st = QUOTE_IN_QUOTED_FIELD
        \/ (st = START_FIELD /\ s = "")).
Proof.
  intros Hrest; unfold Csv.field.
  destruct (Csv.needs_quote s) eqn:E.
  - exists QUOTE_IN_QUOTED_FIELD; split; [|tauto].
    unfold Csv.quoted; cbn [append]; rewrite append_snoc.
    rewrite events_plain
      by (reflexivity || (destruct (Csv.double_quotes s); discriminate)).
    cbn [run].
    change (process_char (mk START_FIELD "" fs) (Ch Csv.DQUOTE))
      with (Ok (mk IN_QUOTED_FIELD "" fs)).
    cbn [bind]; now rewrite in_quoted_content.
  - destruct s as [|c s].
    + exists START_FIELD; split; [reflexivity | tauto].
    + exists IN_FIELD; split; [|tauto].
      cbn [Csv.needs_quote] in E; apply Bool.orb_false_iff in E.
      destruct E as [Hc Hs]; destruct (special_plain c Hc) as (Hn & Hq & Hm).
      cbn [append]; rewrite events_plain;
        [|assumption | destruct s; [destruct rest; [now elim Hrest|]|];
                       discriminate].
      cbn [run]; unfold process_char; cbn [mk state start_field].
      rewrite Hn, Hq, Hm; cbn [bind].
      change (set_state (add_char (mk START_FIELD "" fs) c) IN_FIELD)
        with (mk IN_FIELD (String c "") fs).
      now rewrite (in_field_content s _ rest fs Hs Hrest).
Qed.

Lemma field_comma (s X : string) (fs : list string) :
  X <> "" ->
  run (mk START_FIELD "" fs) (events (Csv.field s ++ String Csv.COMMA X))
  = run (mk START_FIELD "" (fs ++ [s])) (events X).
Proof.
  intros HX.
  destruct (field_read s (String Csv.COMMA X) fs) as (st & -> & Hst);
    [discriminate|].
  rewrite events_plain by (reflexivity || assumption).
  destruct Hst as [-> | [-> | [-> ->]]]; reflexivity.
Qed.

Lemma field_crlf (s X : string) (fs : list string) :
  run (mk START_FIELD "" fs) (events (Csv.field s ++ Csv.CRLF ++ X))
  = (rows <- run reset (events X) ;; Ok ((fs ++ [s]) :: rows)).
Proof.
  unfold Csv.CRLF; cbn [append].
  destruct (field_read s (String PyStr.CR (String PyStr.LF X)) fs)
    as (st & -> & Hst); [discriminate|].
  rewrite events_crlf.
  destruct Hst as [-> | [-> | [-> ->]]]; reflexivity.
Qed.

(** One row *)

Lemma row_fields (row : list string) (fs : list string) (X : string) :
  row <> [] ->
  run (mk START_FIELD "" fs)
      (events (PyStr.join (String Csv.COMMA "") (map Csv.field row)
               ++ Csv.CRLF ++ X))
  = (rows <- run reset (events X) ;; Ok ((fs ++ row) :: rows)).
Proof.
  revert fs; induction row as [|s row IH]; intros fs Hne; [now elim Hne|].
  destruct row as [|s' row].
  - cbn [map PyStr.join]; apply field_crlf.
  - change (PyStr.join (String Csv.COMMA "") (map Csv.field (s :: s' :: row)))
      with (Csv.field s ++ String Csv.COMMA ""
            ++ PyStr.join (String Csv.COMMA "")
                          (map Csv.field (s' :: row)))%string.
    rewrite !append_assoc; cbn [append].
    rewrite field_comma.
    + rewrite IH by discriminate.
      now rewrite <- app_assoc.
    + unfold Csv.CRLF.
      destruct (PyStr.join _ _); discriminate.
Qed.

Lemma start_record (c : ascii) (evs : list event) :
  is_newline c = false ->
  run reset (Ch c :: evs) = run (mk START_FIELD "" []) (Ch c :: evs).
Proof.
  intros H; cbn [run]; unfold process_char; cbn [reset mk state].
  now rewrite H.
Qed.

(** A row that is neither empty nor a single empty field starts with a
    character that ends no line. *)
Lemma row_head (row : list string) (X : string) :
  row <> [] -> row <> [""] ->
  exists c T,
    (PyStr.join (String Csv.COMMA "") (map Csv.field row) ++ X)%string
    = String c T
    /\ is_newline c = false.
Proof.
  destruct row as [|s row]; [now intros H; elim H|]; intros _ Hne.
  assert (Hf : (exists c T, Csv.field s = String c T /\ is_newline c = false)
               \/ s = "").
  { unfold Csv.field; destruct (Csv.needs_quote s) eqn:E.
    - left; eexists _, _; split; [reflexivity | reflexivity].
    - destruct s as [|c s]; [now right|left].
      cbn [Csv.needs_quote] in E; apply Bool.orb_false_iff in E.
      destruct (special_plain c (proj1 E)) as (Hn & _).
      eexists _, _; split; [reflexivity | assumption]. }
  destruct Hf as [(c & T & Hf & Hc) | ->].
  - destruct row as [|s' row]; cbn [map PyStr.join]; rewrite Hf;
      eexists _, _; (split; [reflexivity | assumption]).
  - destruct row as [|s' row]; [now elim Hne|].
    cbn [map PyStr.join]; eexists _, _; split; reflexivity.
Qed.

Lemma row_read (row : list string) (X : string) :
  run reset (events (Csv.writerow row ++ X))
  = (rows <- run reset (events X) ;; Ok (row :: rows)).
Proof.
  destruct (list_eq_dec String.string_dec row []) as [->|Hne].
  { cbn [Csv.writerow PyStr.join map append Csv.CRLF].
    now rewrite events_crlf. }
  destruct (list_eq_dec String.string_dec row [""]) as [->|Hne1].
  { cbn [Csv.writerow Csv.quoted Csv.double_quotes append Csv.CRLF].
    rewrite !events_plain by (reflexivity || discriminate).
    now rewrite events_crlf. }
  assert (E : Csv.writerow row
              = (PyStr.join (String Csv.COMMA "") (map Csv.field row)
                 ++ Csv.CRLF)%string).
  { destruct row as [|s [|s' row]];
      [now elim Hne | destruct s; [now elim Hne1 | reflexivity]
      | destruct s; reflexivity]. }
  rewrite E, append_assoc.
  destruct (row_head row (Csv.CRLF ++ X) Hne Hne1) as (c & T & HT & Hc).
  generalize (row_fields row [] X Hne); rewrite HT.
  destruct T as [|c' T].
  { exfalso; revert HT; unfold Csv.CRLF.
    destruct (PyStr.join _ _) as [|a [|b j]]; cbn [append]; discriminate. }
  rewrite events_plain by (assumption || discriminate).
  now rewrite start_record.
Qed.

(** All the rows *)

Lemma rows_read (rows : list (list string)) :
  read (text_of_rows rows) = Ok rows.
Proof.
  rewrite read_run; induction rows as [|row rows IH]; [reflexivity|].
  cbn [text_of_rows]; now rewrite row_read, IH.
Qed.

End CsvRoundTrip.

Lemma dict_get_default (d : dict) (k : string) (a b : value) :
  In k (keys d) -> dict_get d k a = dict_get d k b.
Proof.
  induction d as [|[k' v] d IH]; simpl; [tauto|].
  destruct (String.eqb_spec k' k) as [->|Hne]; [reflexivity|].
  intros [H|H]; [contradiction | now apply IH].
Qed.

Lemma dict_to_list_text (W : world) (c : dict) :
  text_record c -> dict_to_list W c = Ok (row_of c).
Proof.
  intros [Hk Hv]; unfold dict_to_list, row_of; rewrite Hk.
  change (forallb (fun k => existsb (String.eqb k) FIELDNAMES) FIELDNAMES)
    with true.
  cbv iota; f_equal; apply map_ext_in; intros k Hin.
  destruct (Hv k Hin) as [s Hs].
  rewrite (dict_get_default c k (VStr "") VNone) by (now rewrite Hk).
  now rewrite Hs.
Qed.

Lemma save_to_csv_rows (W : world) (components : list dict) (written : string) :
  Forall text_record components ->
  for_each (fun written rowdict =>
              row <- dict_to_list W rowdict ;;
              Ok (written ++ Csv.writerow row)%string)
           components written
  = Ok (written ++ CsvStream.text_of_rows (map row_of components))%string.
Proof.
  intros H; revert written; induction H as [|c cs Hc _ IH]; intros written.
  - simpl; now rewrite append_nil_r.
  - cbn [for_each map CsvStream.text_of_rows].
    rewrite (dict_to_list_text W c Hc); cbn [bind].
    now rewrite IH, append_assoc.
Qed.

Lemma row_of_text (c : dict) :
  text_record c ->
  map VStr (row_of c) = map (fun k => dict_get c k VNone) FIELDNAMES.
Proof.
  intros [_ Hv]; unfold row_of; rewrite map_map.
  apply map_ext_in; intros k Hin.
  destruct (Hv k Hin) as [s ->]; reflexivity.
Qed.

(** C7.  For records of ten text fields, [save_to_csv] succeeds; reading
    the text it wrote gives the header row, the ten field names in the
    canonical order, and then one row per record, in the order of the
    records, whose ten values are the record's ten field values in the
    canonical order. *)
Theorem csv_round_trip :
  forall (W : world) (components : list dict),
    Forall text_record components ->
    exists (text : string) (rows : list (list string)),
      save_to_csv W components = Ok text
      /\ CsvReader.read text = Ok (FIELDNAMES :: rows)
      /\ map (map VStr) rows
         = map (fun c => map (fun k => dict_get c k VNone) FIELDNAMES)
               components.
Proof.
  intros W components H.
  exists (CsvStream.text_of_rows (FIELDNAMES :: map row_of components)),
         (map row_of components).
  split; [|split].
  - unfold save_to_csv; now rewrite save_to_csv_rows.
  - apply rows_read.
  - rewrite map_map; apply map_ext_in; intros c Hin.
    apply row_of_text.
    rewrite Forall_forall in H; now apply H.
Qed.

(** ** The properties at work on the examples *)

(** The example of section 8: the underscore variant is kept, the
    ["SECURITY"] entry is not. *)
Lemma extract_package_manager_locator_spec_witness :
  Forall2 represents Examples.left_pad_refs Examples.left_pad_entries
  /\ extract_package_manager_locator (VList (map VDict Examples.left_pad_refs))
     = Ok (VStr "pkg:npm/left-pad@1.3.0").
Proof.
  assert (H : Forall2 represents Examples.left_pad_refs
                      Examples.left_pad_entries).
  { apply Forall2_cons; [split; intros default; reflexivity|].
    apply Forall2_cons; [split; intros default; reflexivity|].
    apply Forall2_nil. }
  split; [exact H|].
  exact (extract_package_manager_locator_spec _ _ H).
Defined.

(** A package-manager entry without locator after the left-pad entries,
    and an entry without category before them. *)
Lemma missing_locator_and_category_witness :
  extract_package_manager_locator
    (VList (map VDict (Examples.left_pad_refs
                       ++ [[("referenceCategory", VStr "package-manager")]])))
  = Ok (VStr "pkg:npm/left-pad@1.3.0; N/A")
  /\ extract_package_manager_locator
       (VList (VDict [("referenceLocator", VStr "pkg:npm/is-odd@3.0.1")]
               :: map VDict Examples.left_pad_refs))
     = Ok (VStr "pkg:npm/left-pad@1.3.0").
Proof.
  assert (T : Forall typed_ref Examples.left_pad_refs).
  { apply Forall_cons; [eexists _, _; split; reflexivity|].
    apply Forall_cons; [eexists _, _; split; reflexivity|].
    apply Forall_nil. }
  split.
  - refine (proj1 missing_locator_and_category
              [("referenceCategory", VStr "package-manager")]
              Examples.left_pad_refs [] "package-manager"
              T (Forall_nil _) eq_refl eq_refl _).
    simpl; intros [H|[]]; discriminate.
  - refine (eq_trans
              (proj2 missing_locator_and_category
                 [("referenceLocator", VStr "pkg:npm/is-odd@3.0.1")]
                 [] (map VDict Examples.left_pad_refs) _) eq_refl).
    simpl; intros [H|[]]; discriminate.
Defined.

Lemma parse_sbom_dispatch_witness :
  parse_sbom Examples.broken_machine "sbom.JSON" = parse_spdx_json Examples.broken_machine "sbom.JSON"
  /\ parse_sbom Examples.broken_machine "/srv/in.d/sbom.Spdx" = parse_spdx_tv Examples.broken_machine "/srv/in.d/sbom.Spdx"
  /\ parse_sbom Examples.broken_machine "sbom.XML" = parse_spdx_xml Examples.broken_machine "sbom.XML"
  /\ parse_sbom Examples.broken_machine "sbom.YAML" = Raise (ValueError "Unsupported format: .yaml")
  /\ parse_sbom Examples.broken_machine "/srv/in.d/sbom" = Raise (ValueError "Unsupported format: ").
Proof.
  split; [|split; [|split; [|split]]].
  - exact (proj1 (parse_sbom_dispatch Examples.broken_machine "sbom.JSON") eq_refl).
  - exact (proj1 (proj2 (parse_sbom_dispatch Examples.broken_machine "/srv/in.d/sbom.Spdx"))
                 (or_introl eq_refl)).
  - exact (proj1 (proj2 (proj2 (parse_sbom_dispatch Examples.broken_machine "sbom.XML"))) eq_refl).
  - apply (proj2 (proj2 (proj2 (parse_sbom_dispatch Examples.broken_machine "sbom.YAML"))));
      simpl; discriminate.
  - apply (proj2 (proj2 (proj2 (parse_sbom_dispatch Examples.broken_machine "/srv/in.d/sbom"))));
      simpl; discriminate.
Defined.

Lemma package_name_starts_new_package_witness :
  PyStr.startswith (PyStr.strip "  PackageName: left-pad ") "PackageName:"
  = true
  /\ tv_line {| components := [];
                current_package := Some [("Name", VStr "is-odd")];
                current_ext_refs :=
                  [VDict [("referenceCategory", VStr "PACKAGE-MANAGER");
                          ("referenceLocator", VStr "pkg:npm/is-odd@3.0.1")]]
             |} "  PackageName: left-pad "
     = Ok {| components :=
               [[("Name", VStr "is-odd");
                 ("Package_Manager_Locator", VStr "pkg:npm/is-odd@3.0.1")]];
             current_package :=
               Some [ ("SPDX_ID", VStr "N/A");
                      ("Name", VStr "left-pad");
                      ("Version", VStr "N/A");
                      ("Supplier", VStr "N/A");
                      ("License_Declared", VStr "N/A");
                      ("Copyright_Text", VStr "N/A");
                      ("Download_Location", VStr "N/A");
                      ("Homepage", VStr "N/A");
                      ("Description", VStr "N/A");
                      ("Package_Manager_Locator", VStr "N/A") ];
             current_ext_refs := [] |}
  /\ exists rest,
       parse_spdx_tv_lines ["PackageName: is-odd"; "PackageVersion: 3.0.1"]
       = Ok rest
       /\ parse_spdx_tv_lines
            ["PackageVersion: 1.3.0"; "  PackageName: left-pad ";
             "PackageName: is-odd"; "PackageVersion: 3.0.1"]
          = Ok ([ ("SPDX_ID", VStr "N/A");
                  ("Name", VStr "left-pad");
                  ("Version", VStr "N/A");
                  ("Supplier", VStr "N/A");
                  ("License_Declared", VStr "N/A");
                  ("Copyright_Text", VStr "N/A");
                  ("Download_Location", VStr "N/A");
                  ("Homepage", VStr "N/A");
                  ("Description", VStr "N/A");
                  ("Package_Manager_Locator", VStr "N/A") ] :: rest).
Proof.
  split; [reflexivity|]; split.
  - exact (proj1 (package_name_starts_new_package
                    "  PackageName: left-pad " eq_refl)
             [] [("Name", VStr "is-odd")]
             [VDict [("referenceCategory", VStr "PACKAGE-MANAGER");
                     ("referenceLocator", VStr "pkg:npm/is-odd@3.0.1")]]
             (VStr "pkg:npm/is-odd@3.0.1") eq_refl).
  - destruct (proj2 (proj2 (proj2 (proj2
                (package_name_starts_new_package
                   "  PackageName: left-pad " eq_refl))))
                ["PackageVersion: 1.3.0"] "PackageName: is-odd"
                ["PackageVersion: 3.0.1"] eq_refl)
      as (first & rest & Hf & Hr & Hall).
    exists rest; split; [exact Hr|].
    injection Hf as <-; exact Hall.
Defined.

Lemma parse_spdx_json_malformed_witness :
  parse_spdx_json Examples.broken_machine "sbom.json" = Raise JSONDecodeError
  /\ parse_spdx_json (Examples.json_machine "[]" (VList [])) "sbom.json"
     = Raise (AttributeError "list" "get").
Proof.
  split.
  - exact (proj1 (parse_spdx_json_malformed Examples.broken_machine
                    "sbom.json" "SPDXVersion: SPDX-2.3" eq_refl) eq_refl).
  - refine (proj2 (parse_spdx_json_malformed
                     (Examples.json_machine "[]" (VList []))
                     "sbom.json" "[]" eq_refl) (VList []) eq_refl _).
    intros d; discriminate.
Defined.

Lemma parse_spdx_json_no_packages_witness :
  parse_spdx_json (Examples.json_machine "{}" (VDict [])) "sbom.json" = Ok [].
Proof.
  refine (parse_spdx_json_no_packages
            (Examples.json_machine "{}" (VDict [])) "sbom.json" "{}" []
            eq_refl eq_refl _).
  simpl; tauto.
Defined.

Lemma xml_reference_without_text_witness :
  xml_ref "" [] Examples.empty_category_ref
  = Raise (AttributeError "NoneType" "strip")
  /\ exists c l,
       xml_ref "" [] (Element "externalRefs" None [])
       = Ok [VDict [("referenceCategory", VStr c); ("referenceLocator", VStr l)]]
       /\ c = "" /\ l = "".
Proof.
  split.
  - exact (proj1 (proj2 xml_reference_without_text) "" []
             Examples.empty_category_ref (Element "referenceCategory" None [])
             (or_introl eq_refl) eq_refl).
  - destruct (proj2 (proj2 xml_reference_without_text) "" []
                (Element "externalRefs" None []))
      as (c & l & H & Hc & Hl).
    + intros el [H|H]; discriminate.
    + exists c, l; split; [exact H|]; split; [now apply Hc | now apply Hl].
Defined.

Lemma csv_round_trip_witness :
  Forall text_record [new_package "left,pad"]
  /\ exists text rows,
       save_to_csv Examples.broken_machine [new_package "left,pad"] = Ok text
       /\ CsvReader.read text = Ok (FIELDNAMES :: rows)
       /\ map (map VStr) rows
          = map (fun c => map (fun k => dict_get c k VNone) FIELDNAMES)
                [new_package "left,pad"].
Proof.
  assert (H : Forall text_record [new_package "left,pad"]).
  { apply Forall_cons; [apply text_record_new | apply Forall_nil]. }
  split; [exact H|].
  exact (csv_round_trip Examples.broken_machine _ H).
Defined.

Lemma records_have_all_fields_witness :
  (exists c,
     json_component (VDict [("name", VStr "left-pad"); ("versionInfo", VNone)])
     = Ok c
     /\ dict_get c "Name" VNone = VStr "left-pad"
     /\ dict_get c "Version" VNone = VNone
     /\ dict_get c "SPDX_ID" VNone = VStr "N/A"
     /\ dict_get c "Supplier" VNone = VStr "N/A")
  /\ (exists c1 c2,
        parse_spdx_tv_lines
          ["SPDXVersion: SPDX-2.3"; "PackageName: left-pad";
           "PackageVersion: 1.3.0"; "PackageName: is-odd"]
        = Ok [c1; c2]
        /\ dict_get c1 "Name" VNone = VStr "left-pad"
        /\ dict_get c1 "Supplier" VNone = VStr "N/A"
        /\ dict_get c2 "Version" VNone = VStr "N/A"
        /\ dict_get c2 "Package_Manager_Locator" VNone = VStr "N/A")
  /\ (exists c,
        parse_spdx_xml_root
          (Element "doc" None
             [Element "package" None
                [Element "name" (Some "left-pad") [];
                 Element "homepage" None []]])
        = Ok [c]
        /\ text_record c
        /\ dict_get c "Version" VNone = VStr "N/A"
        /\ dict_get c "Homepage" VNone = VStr "N/A"
        /\ dict_get c "Package_Manager_Locator" VNone = VStr "N/A").
Proof.
  split; [|split].
  - eexists; split; [reflexivity|].
    destruct (proj1 (proj2 records_have_all_fields)
                (VDict [("name", VStr "left-pad"); ("versionInfo", VNone)])
                _ eq_refl)
      as (d & Hd & _ & Hplain & _ & _ & _ & Habsent).
    injection Hd as <-.
    split; [|split; [|split]].
    + exact (Hplain "Name" "name" (or_intror (or_introl eq_refl))
               ltac:(discriminate) ltac:(discriminate)).
    + exact (Hplain "Version" "versionInfo"
               (or_intror (or_intror (or_introl eq_refl)))
               ltac:(discriminate) ltac:(discriminate)).
    + apply (proj1 (Habsent "SPDX_ID" "SPDXID" (or_introl eq_refl))).
      cbn; intros [H|[H|[]]]; discriminate.
    + apply (proj1 (Habsent "Supplier" "supplier"
                      (or_intror (or_intror (or_intror (or_introl eq_refl)))))).
      cbn; intros [H|[H|[]]]; discriminate.
  - destruct (proj1 (proj2 (proj2 records_have_all_fields))
                ["SPDXVersion: SPDX-2.3"; "PackageName: left-pad";
                 "PackageVersion: 1.3.0"; "PackageName: is-odd"])
      as (done & Hd & _ & F).
    injection Hd as <-.
    change (tv_packages ["SPDXVersion: SPDX-2.3"; "PackageName: left-pad";
                         "PackageVersion: 1.3.0"; "PackageName: is-odd"])
      with [("PackageName: left-pad", ["PackageVersion: 1.3.0"]);
            ("PackageName: is-odd", @nil string)] in F.
    inversion F as [|p1 c1 ps1 cs1 (_ & N1 & K1 & _) F1]; subst.
    inversion F1 as [|p2 c2 ps2 cs2 (_ & _ & K2 & L2) _]; subst.
    eexists _, _; split; [reflexivity|].
    split; [exact N1|]; split; [|split].
    + apply (K1 "PackageSupplier:" "Supplier");
        [right; right; left; reflexivity|].
      apply Forall_cons; [reflexivity | apply Forall_nil].
    + apply (K2 "PackageVersion:" "Version");
        [right; left; reflexivity | apply Forall_nil].
    + apply L2; apply Forall_nil.
  - eexists; split; [reflexivity|].
    pose proof (proj2 (proj2 (proj2 records_have_all_fields))
                  (Element "doc" None
                     [Element "package" None
                        [Element "name" (Some "left-pad") [];
                         Element "homepage" None []]])
                  _ eq_refl) as F.
    inversion F as [|p c ps cs (T & K & L) _]; subst.
    split; [exact T|]; split; [|split].
    + exact (proj1 (K "Version" "versionInfo"
                      (or_intror (or_intror (or_introl eq_refl)))) eq_refl).
    + apply (proj2 (K "Homepage" "homepage"
                      (or_intror (or_intror (or_intror (or_intror (or_intror
                         (or_intror (or_intror (or_introl eq_refl)))))))))
              (Element "homepage" None [])); [reflexivity | now left].
    + exact (L eq_refl eq_refl).
Defined.

(** C1 as the specification states it fails on the document
    [{"packages": [{"name": null}]}]: the JSON extractor returns one
    record, and its name is [None]. *)
Lemma null_field_counterexample :
  ~ (forall (W : world) (input_file : string) (done : list dict),
       parse_sbom W input_file = Ok done ->
       Forall (fun c => forall k, In k FIELDNAMES ->
                                  dict_get c k VNone <> VNone) done).
Proof.
  intros H.
  specialize (H (Examples.json_machine Examples.null_name_text
                                       Examples.null_name)
                "sbom.json" _ eq_refl).
  apply Forall_inv in H.
  apply (H "Name"); [simpl; tauto | reflexivity].
Qed.

(** ** Further properties of the tag-value scan *)

Lemma tag_loop_miss (items : list (string * string)) (line : string) (pkg : dict) :
  forallb (fun item => negb (PyStr.startswith line (fst item))) items = true ->
  tag_loop items line pkg = Ok pkg.
Proof.
  induction items as [|[tag key] items IH]; simpl; [reflexivity|].
  intros H; apply Bool.andb_true_iff in H; destruct H as [H1 H2].
  apply Bool.negb_true_iff in H1; rewrite H1; now apply IH.
Qed.

Lemma ext_ref_line_short (line : string) (refs : list value) :
  negb (PyStr.startswith line "ExternalRef:") || short_ext_ref line = true ->
  ext_ref_line line refs = Ok refs.
Proof.
  unfold ext_ref_line, short_ext_ref, after_colon.
  destruct (PyStr.startswith line "ExternalRef:") eqn:E; [|reflexivity].
  cbn [negb orb].
  destruct (snd (PyStr.split_once ":" line)) as [v|]; [|discriminate].
  cbn [bind]; intros H.
  apply Nat.ltb_lt in H.
  destruct (Nat.leb_spec 3 (List.length (PyStr.split_ws (PyStr.strip v))));
    [lia | reflexivity].
Qed.

Lemma tv_line_inert (st : tv_state) (raw : string) :
  inert raw = true -> tv_line st raw = Ok st.
Proof.
  unfold inert, tv_line.
  destruct (String.eqb (PyStr.strip raw) "" || PyStr.startswith (PyStr.strip raw) "#");
    [reflexivity|].
  cbn [orb]; intros H.
  apply Bool.andb_true_iff in H; destruct H as [H H3].
  apply Bool.andb_true_iff in H; destruct H as [H1 H2].
  apply Bool.negb_true_iff in H1; rewrite H1.
  destruct st as [done [pkg|] refs]; [|reflexivity].
  cbn [current_package current_ext_refs components].
  rewrite (tag_loop_miss _ _ _ H2); cbn [bind].
  now rewrite (ext_ref_line_short _ _ H3).
Qed.

(** X1.  Blank lines, comment lines, lines that start with none of the
    tags of the scan, and [ExternalRef:] lines with fewer than three
    tokens change nothing: the records are those of the text without the
    line. *)
Theorem inert_line_skipped :
  forall (l : string) (before after : list string),
    inert l = true ->
    parse_spdx_tv_lines (before ++ l :: after)
    = parse_spdx_tv_lines (before ++ after).
Proof.
  intros l before after H; unfold parse_spdx_tv_lines.
  rewrite !for_each_app.
  destruct (for_each tv_line before tv_init) as [st|e]; [|reflexivity].
  cbn [bind for_each]; now rewrite (tv_line_inert st l H).
Qed.

(** X2.  Whatever stands before the first [PackageName:] line is ignored:
    the records are those of the text from that line on. *)
Theorem lines_before_first_package_ignored :
  forall pre rest : list string,
    Forall (fun l => is_package_line l = false) pre ->
    parse_spdx_tv_lines (pre ++ rest) = parse_spdx_tv_lines rest.
Proof.
  intros pre rest H; now apply tv_prefix_ignored.
Qed.

Lemma close_package_length (st : tv_state) (done : list dict) :
  close_package st = Ok done ->
  List.length done = List.length (components st) + open_count st.
Proof.
  unfold close_package, open_count.
  destruct (current_package st); [|intros [= <-]; lia].
  destruct (extract_package_manager_locator _); [|discriminate].
  cbn [bind]; intros [= <-]; rewrite length_app; reflexivity.
Qed.

Lemma tv_line_count (st st' : tv_state) (raw : string) :
  tv_line st raw = Ok st' ->
  List.length (components st') + open_count st'
  = List.length (components st) + open_count st
    + (if is_package_line raw then 1 else 0).
Proof.
  unfold tv_line, is_package_line.
  destruct (String.eqb (PyStr.strip raw) "" || PyStr.startswith (PyStr.strip raw) "#")
    eqn:E.
  - intros [= <-].
    destruct (PyStr.startswith (PyStr.strip raw) "PackageName:") eqn:E';
      [|lia].
    exfalso; apply Bool.orb_true_iff in E; destruct E as [E|E].
    + apply String.eqb_eq in E; rewrite E in E'; discriminate.
    + destruct (PyStr.strip raw) as [|c s]; [discriminate|].
      unfold PyStr.startswith in E, E'; cbn [prefix] in E, E'.
      destruct (Ascii.ascii_dec "#" c) as [<-|]; [|discriminate].
      destruct (Ascii.ascii_dec "P" "#"); discriminate.
  - destruct (PyStr.startswith (PyStr.strip raw) "PackageName:").
    + destruct (close_package st) as [done|] eqn:Ec; [|discriminate].
      cbn [bind].
      destruct (after_colon (PyStr.strip raw)); [|discriminate].
      cbn [bind]; intros [= <-]; unfold open_count at 1; simpl.
      rewrite (close_package_length _ _ Ec); lia.
    + unfold open_count.
      destruct (current_package st) as [pkg|] eqn:Ep;
        [|intros [= <-]; rewrite Ep; lia].
      destruct (tag_loop tag_map (PyStr.strip raw) pkg); [|discriminate].
      cbn [bind].
      destruct (ext_ref_line (PyStr.strip raw) (current_ext_refs st));
        [|discriminate].
      cbn [bind]; intros [= <-]; simpl; lia.
Qed.

Lemma tv_lines_count (lines : list string) (st st' : tv_state) :
  for_each tv_line lines st = Ok st' ->
  List.length (components st') + open_count st'
  = List.length (components st) + open_count st
    + List.length (filter is_package_line lines).
Proof.
  revert st; induction lines as [|l lines IH]; intros st.
  - intros [= <-]; simpl; lia.
  - cbn [for_each filter].
    destruct (tv_line st l) as [st1|] eqn:E; [|discriminate].
    cbn [bind]; intros H.
    rewrite (IH _ H), (tv_line_count _ _ _ E).
    destruct (is_package_line l); simpl; lia.
Qed.

(** X3.  The extractor yields one record per [PackageName:] line, no more
    and no fewer. *)
Theorem one_record_per_package_line :
  forall (lines : list string) (done : list dict),
    parse_spdx_tv_lines lines = Ok done ->
    List.length done = List.length (filter is_package_line lines).
Proof.
  intros lines done; unfold parse_spdx_tv_lines.
  destruct (for_each tv_line lines tv_init) as [st|] eqn:E; [|discriminate].
  cbn [bind]; intros H.
  rewrite (close_package_length _ _ H).
  now rewrite (tv_lines_count _ _ _ E).
Qed.

Lemma tag_loop_hit (tag key : string) :
  In (tag, key) tag_map ->
  forall (v : string) (pkg : dict),
    tag_loop tag_map (tag ++ v) pkg
    = (value' <- (if String.eqb key "Supplier"
                  then clean_supplier (VStr (PyStr.strip v))
                  else Ok (VStr (PyStr.strip v))) ;;
       Ok (dict_set pkg key value')).
Proof.
  intros Hin v pkg; unfold tag_map in Hin; cbn [In] in Hin.
  repeat (destruct Hin as [Hin|Hin];
          [injection Hin as <- <-; destruct v; reflexivity|]).
  contradiction.
Qed.

Lemma tag_line_shape (tag key : string) :
  In (tag, key) tag_map ->
  forall v : string,
    (String.eqb (tag ++ v) "" || PyStr.startswith (tag ++ v) "#" = false)
    /\ PyStr.startswith (tag ++ v) "PackageName:" = false
    /\ PyStr.startswith (tag ++ v) "ExternalRef:" = false.
Proof.
  intros Hin v; unfold tag_map in Hin; cbn [In] in Hin.
  repeat (destruct Hin as [Hin|Hin];
          [injection Hin as <- <-; repeat split; reflexivity|]).
  contradiction.
Qed.

(** X4.  While a package is open, a line that starts with one of the eight
    tags of [tag_map] sets the field of that tag, and only that field, to
    the text after the tag, trimmed (and cleaned, for the supplier); the
    records already closed and the references accumulated are untouched. *)
Theorem tag_line_sets_its_field :
  forall (tag key : string) (st : tv_state) (pkg : dict) (raw v : string),
    In (tag, key) tag_map ->
    current_package st = Some pkg ->
    PyStr.strip raw = (tag ++ v)%string ->
    tv_line st raw
    = Ok {| components := components st;
            current_package :=
              Some (dict_set pkg key
                      (VStr (if String.eqb key "Supplier"
                             then normalize_supplier (PyStr.strip v)
                             else PyStr.strip v)));
            current_ext_refs := current_ext_refs st |}.
Proof.
  intros tag key st pkg raw v Hin Hp Hs.
  destruct (tag_line_shape tag key Hin v) as (E1 & E2 & E3).
  unfold tv_line; rewrite Hs, E1, E2, Hp, (tag_loop_hit tag key Hin).
  unfold ext_ref_line; rewrite E3.
  destruct (String.eqb key "Supplier");
    [rewrite clean_supplier_text|]; reflexivity.
Qed.

Lemma ext_ref_step (st : tv_state) (pkg : dict) (raw v cat ty loc : string)
      (more : list string) :
  current_package st = Some pkg ->
  PyStr.strip raw = ("ExternalRef:" ++ v)%string ->
  PyStr.split_ws (PyStr.strip v) = cat :: ty :: loc :: more ->
  tv_line st raw
  = Ok {| components := components st;
          current_package := Some pkg;
          current_ext_refs :=
            current_ext_refs st
            ++ [VDict [ ("referenceCategory", VStr cat);
                        ("referenceType", VStr ty);
                        ("referenceLocator", VStr loc) ]] |}.
Proof.
  intros Hp Hs Hparts; unfold tv_line; rewrite Hs.
  change (String.eqb ("ExternalRef:" ++ v) ""
          || PyStr.startswith ("ExternalRef:" ++ v) "#") with false.
  change (PyStr.startswith ("ExternalRef:" ++ v) "PackageName:") with false.
  cbv iota; rewrite Hp.
  change (tag_loop tag_map ("ExternalRef:" ++ v) pkg) with (Ok pkg).
  cbn [bind]; unfold ext_ref_line.
  assert (E : PyStr.startswith ("ExternalRef:" ++ v) "ExternalRef:" = true)
    by (destruct v; reflexivity).
  rewrite E.
  change (after_colon ("ExternalRef:" ++ v)) with (Ok v).
  cbn [bind]; now rewrite Hparts.
Qed.

Lemma aggregate_single (r : ExternalRef) :
  aggregate_locators [r]
  = if is_package_manager r then locator r else SENTINEL.
Proof.
  unfold aggregate_locators; cbn [filter].
  now destruct (is_package_manager r).
Qed.

(** X5.  An [ExternalRef:] line in an open package is read as tokens
    separated by whitespace: the first is the category, the third the
    locator, and what follows the third is dropped.  So a package with
    one such line gets the third token as its locator when the category
    is a spelling of PACKAGE-MANAGER, and the sentinel otherwise. *)
Theorem ext_ref_line_tokens :
  forall (pl rl v cat ty loc : string) (more : list string),
    PyStr.startswith pl "PackageName:" = true ->
    PyStr.strip rl = ("ExternalRef:" ++ v)%string ->
    PyStr.split_ws (PyStr.strip v) = cat :: ty :: loc :: more ->
    parse_spdx_tv_lines [pl; rl]
    = Ok [dict_set
            (new_package (PyStr.strip (PyStr.slice_from 12 (PyStr.strip pl))))
            "Package_Manager_Locator"
            (VStr (if String.eqb (normalize_category cat) "PACKAGE-MANAGER"
                   then loc else "N/A"))].
Proof.
  intros pl rl v cat ty loc more Hpl Hs Hparts.
  unfold parse_spdx_tv_lines; cbn [for_each].
  rewrite (tv_line_opened pl [] tv_init (package_line_raw pl Hpl) eq_refl);
    cbn [bind].
  rewrite (ext_ref_step (shift [] (opened pl)) _ rl v cat ty loc more
             eq_refl Hs Hparts).
  unfold opened, shift.
  generalize (PyStr.strip (PyStr.slice_from 12 (PyStr.strip pl))); intros name.
  cbn [bind]; unfold close_package.
  cbn [current_package current_ext_refs components app].
  assert (E := extract_typed
                 [[ ("referenceCategory", VStr cat);
                    ("referenceType", VStr ty);
                    ("referenceLocator", VStr loc) ]]).
  cbn [map] in E; rewrite E.
  - cbn [bind]; rewrite aggregate_single.
    change (read_entry _) with {| category := cat; locator := loc |}.
    unfold is_package_manager; cbn [category locator]; reflexivity.
  - constructor; [|constructor]. exists cat, loc; split; reflexivity.
Qed.

(** ** Further properties of the JSON extractor *)

Lemma collect_ok {A} (f : A -> result dict) (items : list A)
      (cs acc : list dict) :
  Forall2 (fun x c => f x = Ok c) items cs ->
  for_each (fun components x => c <- f x ;; Ok (components ++ [c])) items acc
  = Ok (acc ++ cs).
Proof.
  intros H; revert acc; induction H as [|x c items cs Hx _ IH]; intros acc.
  - simpl; now rewrite app_nil_r.
  - cbn [for_each]; rewrite Hx; cbn [bind].
    now rewrite IH, <- app_assoc.
Qed.

Lemma collect_fail {A} (f : A -> result dict) (before after : list A) (bad : A)
      (cs acc : list dict) (e : exn) :
  Forall2 (fun x c => f x = Ok c) before cs ->
  f bad = Raise e ->
  for_each (fun components x => c <- f x ;; Ok (components ++ [c]))
           (before ++ bad :: after) acc
  = Raise e.
Proof.
  intros Hb Hbad; rewrite for_each_app, (collect_ok f before cs acc Hb).
  cbn [bind for_each]; now rewrite Hbad.
Qed.

Lemma json_component_anonymous (d : dict) :
  (forall src, In src (map snd json_fields) -> ~ In src (keys d)) ->
  json_component (VDict d) = Ok (new_package "N/A").
Proof.
  intros H; unfold json_component; cbn [get bind].
  rewrite !dict_get_absent by (apply H; simpl; tauto).
  reflexivity.
Qed.

(** X6.  Package objects that have none of the ten keys the extractor
    looks up give records filled with the sentinel, the name included,
    one per object, and no failure. *)
Theorem packages_without_fields :
  forall (top : dict) (ds : list dict),
    dict_get top "packages" (VList []) = VList (map VDict ds) ->
    Forall (fun d => forall src, In src (map snd json_fields) ->
                                 ~ In src (keys d)) ds ->
    parse_spdx_json_data (VDict top)
    = Ok (map (fun _ => new_package "N/A") ds).
Proof.
  intros top ds Hp Hds; unfold parse_spdx_json_data; cbn [get bind].
  rewrite Hp; cbn [iter bind].
  apply (collect_ok json_component _ _ []).
  clear Hp; induction Hds as [|d ds Hd _ IH]; simpl; [constructor|].
  constructor; [now apply json_component_anonymous | exact IH].
Qed.

(** X7.  There is no partial result: when the extraction of one package
    raises, the packages before it having been read, the whole parse
    raises that exception and their records are lost.  An item of the
    package array that is no object is such a package. *)
Theorem failing_package_fails_the_parse :
  (forall (top : dict) (before after : list value) (bad : value)
          (cs : list dict) (e : exn),
     dict_get top "packages" (VList []) = VList (before ++ bad :: after) ->
     Forall2 (fun p c => json_component p = Ok c) before cs ->
     json_component bad = Raise e ->
     parse_spdx_json_data (VDict top) = Raise e)
  /\ (forall bad : value,
        (forall d, bad <> VDict d) ->
        json_component bad = Raise (AttributeError (type_name bad) "get")).
Proof.
  split.
  - intros top before after bad cs e Hp Hb Hbad.
    unfold parse_spdx_json_data; cbn [get bind]; rewrite Hp; cbn [iter bind].
    now apply (collect_fail json_component before after bad cs []).
  - intros bad H; destruct bad; try reflexivity.
    now elim (H d).
Qed.

(** X8.  A ["packages"] field that is present but holds [null], a boolean
    or a number makes the parse raise [TypeError]: only an absent field
    stands for no package. *)
Theorem packages_not_iterable :
  forall (top : dict) (v : value),
    dict_get top "packages" (VList []) = v ->
    match v with
    | VNone | VBool _ | VInt _ | VFloat _ => True
    | _ => False
    end ->
    parse_spdx_json_data (VDict top)
    = Raise (TypeError ("'" ++ type_name v ++ "' object is not iterable")).
Proof.
  intros top v Hv Hkind; unfold parse_spdx_json_data; cbn [get bind].
  rewrite Hv; destruct v; try contradiction; reflexivity.
Qed.

(** X9.  The supplier of a package object need not be text.  A value that
    counts as false ([null], [false], [0], the empty string, list or
    object) is kept as it is in the record; a value that counts as true
    and is no text makes the extraction of the package raise
    [AttributeError]. *)
Theorem supplier_that_is_no_text :
  forall (d : dict) (v : value),
    dict_get d "supplier" (VStr "N/A") = v ->
    (truthy v = false ->
     forall c, json_component (VDict d) = Ok c ->
               dict_get c "Supplier" (VStr "N/A") = v)
    /\ (truthy v = true -> (forall s, v <> VStr s) ->
        json_component (VDict d)
        = Raise (AttributeError (type_name v) "startswith")).
Proof.
  intros d v Hv; unfold json_component; cbn [get bind]; rewrite Hv.
  split.
  - intros Hf c; unfold clean_supplier; rewrite Hf; cbn [negb orb bind].
    destruct (extract_package_manager_locator _); [|discriminate].
    cbn [bind]; now intros [= <-].
  - intros Ht Hs; unfold clean_supplier; rewrite Ht; cbn [negb orb].
    destruct v; try discriminate; try reflexivity.
    now elim (Hs s).
Qed.

(** ** Further properties of the XML extractor *)

Lemma collect_raise {A} (f : A -> result dict) (items : list A)
      (acc : list dict) (e : exn) :
  for_each (fun components x => c <- f x ;; Ok (components ++ [c])) items acc
  = Raise e ->
  exists x, In x items /\ f x = Raise e.
Proof.
  revert acc; induction items as [|x items IH]; intros acc; [discriminate|].
  cbn [for_each].
  destruct (f x) as [c|e'] eqn:E; cbn [bind].
  - intros H; destruct (IH _ H) as (y & Hy & Hf).
    exists y; split; [now right | assumption].
  - intros [= <-]; exists x; split; [now left | assumption].
Qed.

Lemma xml_refs_raise (ns : string) (refs : list element) (acc : list value)
      (e : exn) :
  for_each (xml_ref ns) refs acc = Raise e ->
  e = AttributeError "NoneType" "strip".
Proof.
  revert acc; induction refs as [|ref refs IH]; intros acc; [discriminate|].
  cbn [for_each]; unfold xml_ref at 1.
  destruct (child_text_result (find ref (ns ++ "referenceCategory")))
    as [[c ->] | ->]; cbn [bind]; [|now intros [= <-]].
  destruct (child_text_result (find ref (ns ++ "referenceLocator")))
    as [[l ->] | ->]; cbn [bind]; [|now intros [= <-]].
  apply IH.
Qed.

Lemma xml_component_raise (ns : string) (package : element) (e : exn) :
  xml_component ns package = Raise e ->
  e = AttributeError "NoneType" "strip".
Proof.
  unfold xml_component.
  destruct (for_each (xml_ref ns) _ []) as [ext_refs|e'] eqn:E; cbn [bind].
  - rewrite clean_supplier_text; cbn [bind].
    assert (Ht : typed_refs ext_refs).
    { apply (xml_refs_typed _ _ _ _
               (ex_intro _ [] (conj eq_refl (Forall_nil _))) E). }
    destruct (extract_typed_refs _ Ht) as [s ->]; discriminate.
  - intros [= <-]; exact (xml_refs_raise _ _ _ _ E).
Qed.

(** X10.  Once the document is parsed into a tree, the only exception the
    XML extractor can raise is the [AttributeError] of [None.strip], the
    one of a reference entry with a textless child: scalar fields,
    supplier and locators never make it fail. *)
Theorem xml_extractor_only_error :
  forall (root : element) (e : exn),
    parse_spdx_xml_root root = Raise e ->
    e = AttributeError "NoneType" "strip".
Proof.
  intros root e H; unfold parse_spdx_xml_root in H.
  destruct (collect_raise _ _ _ _ H) as (p & _ & Hp).
  exact (xml_component_raise _ _ _ Hp).
Qed.

Lemma split_once_app (c : ascii) (u rest : string) :
  snd (PyStr.split_once c u) = None ->
  PyStr.split_once c (u ++ String c rest) = (u, Some rest).
Proof.
  induction u as [|a u IH]; cbn [PyStr.split_once append].
  - now rewrite Ascii.eqb_refl.
  - destruct (Ascii.eqb a c); [discriminate|].
    destruct (PyStr.split_once c u) as [h t]; cbn [snd]; intros ->.
    now rewrite IH.
Qed.

(** X11.  The namespace prefix is read off the tag of the root: for a
    root tagged [{uri}local], with no closing brace inside [uri], it is
    [{uri}], so that children are looked up under [{uri}packages],
    [{uri}name] and so on; for a tag that starts with no brace it is
    empty. *)
Theorem namespace_of_root :
  (forall (uri local : string) (text : option string)
          (children : list element),
     snd (PyStr.split_once "}" uri) = None ->
     namespace (Element ("{" ++ uri ++ "}" ++ local) text children)
     = ("{" ++ uri ++ "}")%string)
  /\ (forall (tag : string) (text : option string) (children : list element),
        PyStr.startswith tag "{" = false ->
        namespace (Element tag text children) = "").
Proof.
  split.
  - intros uri local text children H; unfold namespace; cbn [el_tag].
    change (PyStr.startswith ("{" ++ uri ++ "}" ++ local) "{")
      with (prefix "" (uri ++ "}" ++ local)).
    replace (prefix "" (uri ++ "}" ++ local)) with true
      by (now destruct (uri ++ "}" ++ local)%string).
    change ("{" ++ uri ++ "}" ++ local)%string
      with (String "{" (uri ++ String "}" local)).
    cbn [PyStr.split_once Ascii.eqb Bool.eqb].
    now rewrite (split_once_app "}" uri local H).
  - intros tag text children H; unfold namespace; cbn [el_tag].
    now rewrite H.
Qed.

Lemma split_once_fst (c : ascii) (s : string) :
  snd (PyStr.split_once c (fst (PyStr.split_once c s))) = None.
Proof.
  induction s as [|a s IH]; cbn [PyStr.split_once]; [reflexivity|].
  destruct (Ascii.eqb a c) eqn:E; [reflexivity|].
  destruct (PyStr.split_once c s) as [h t]; cbn [fst] in *.
  cbn [PyStr.split_once]; rewrite E.
  destruct (PyStr.split_once c h) as [h' t']; cbn [snd] in *; exact IH.
Qed.

Lemma namespace_brace (tag : string) (text : option string)
      (children : list element) :
  PyStr.startswith tag "{" = true ->
  exists u,
    namespace (Element tag text children) = String "{" (u ++ "}")
    /\ snd (PyStr.split_once "}" u) = None.
Proof.
  intros H; unfold namespace; cbn [el_tag]; rewrite H.
  destruct tag as [|c tag]; [discriminate|].
  unfold PyStr.startswith in H; cbn [prefix] in H.
  destruct (Ascii.ascii_dec "{" c) as [<-|]; [|discriminate].
  cbn [PyStr.split_once Ascii.eqb Bool.eqb].
  exists (fst (PyStr.split_once "}" tag)); split; [|apply split_once_fst].
  destruct (PyStr.split_once "}" tag) as [h t]; reflexivity.
Qed.

(** A name under a namespace prefix that is no wildcard selects no tag
    without a namespace. *)
Lemma selects_unqualified (u name tag : string) :
  snd (PyStr.split_once "}" u) = None ->
  u <> "" -> u <> "*" ->
  PyStr.startswith tag "{" = false ->
  selects (String "{" (u ++ "}") ++ name) tag = false.
Proof.
  intros Hu H0 H1 Ht.
  assert (E : String.eqb tag (String "{" (u ++ "}") ++ name) = false).
  { apply String.eqb_neq; intros ->.
    cbn in Ht; destruct ((u ++ "}") ++ name)%string; discriminate. }
  unfold selects, PyStr.startswith.
  destruct u as [|a u]; [now elim H0|].
  cbn [append prefix].
  destruct (Ascii.ascii_dec "{" "{") as [_|n]; [|now elim n].
  cbn [PyStr.split_once] in Hu.
  destruct (Ascii.eqb_spec a "}") as [->|Ha]; [discriminate|].
  destruct (Ascii.ascii_dec "*" a) as [<-|_].
  - destruct u as [|b u]; [now elim H1|].
    cbn [append prefix].
    destruct (PyStr.split_once "}" (String b u)) as [h t] eqn:Eb.
    cbn [PyStr.split_once] in Eb.
    destruct (Ascii.eqb_spec b "}") as [->|Hb];
      [injection Eb as <- <-; discriminate|].
    destruct (Ascii.ascii_dec "}" b) as [<-|_]; [now elim Hb|].
    destruct (Ascii.ascii_dec "}" "*"); [discriminate | exact E].
  - destruct (Ascii.ascii_dec "}" a) as [<-|_]; [now elim Ha | exact E].
Qed.

Lemma findall_unqualified (root : element) (u name : string) :
  snd (PyStr.split_once "}" u) = None ->
  u <> "" -> u <> "*" ->
  Forall (fun c => PyStr.startswith (el_tag c) "{" = false)
         (el_children root) ->
  findall root (String "{" (u ++ "}") ++ name) = [].
Proof.
  unfold findall; intros Hu H0 H1 H.
  induction H as [|c cs Hc _ IH]; [reflexivity|].
  cbn [filter]; rewrite IH.
  now rewrite (selects_unqualified u name (el_tag c) Hu H0 H1 Hc).
Qed.

(** X12.  The prefix of the root is used for every lookup.  Under a root
    whose tag starts with a brace and whose prefix is neither of the
    wildcards [{}] and [{*}] of ElementTree, children whose tags carry no
    namespace are not found, and the extractor returns no record for
    them.  Under a root in the namespace [*] the prefix is the wildcard
    [{*}], and a [packages] child without namespace is found. *)
Theorem unqualified_children_not_found :
  (forall (tag : string) (text : option string) (children : list element),
     PyStr.startswith tag "{" = true ->
     namespace (Element tag text children) <> "{}" ->
     namespace (Element tag text children) <> "{*}" ->
     Forall (fun c => PyStr.startswith (el_tag c) "{" = false) children ->
     parse_spdx_xml_root (Element tag text children) = Ok [])
  /\ parse_spdx_xml_root
       (Element "{*}doc" None
          [Element "packages" None [Element "name" (Some "left-pad") []]])
     = Ok [[ ("SPDX_ID", VStr "N/A");
             ("Name", VStr "left-pad");
             ("Version", VStr "N/A");
             ("Supplier", VStr "N/A");
             ("License_Declared", VStr "N/A");
             ("Copyright_Text", VStr "N/A");
             ("Download_Location", VStr "N/A");
             ("Homepage", VStr "N/A");
             ("Description", VStr "N/A");
             ("Package_Manager_Locator", VStr "N/A") ]].
Proof.
  split; [|reflexivity].
  intros tag text children Ht H0 H1 Hc.
  destruct (namespace_brace tag text children Ht) as (u & Hr & Hu).
  rewrite Hr in H0, H1.
  unfold parse_spdx_xml_root; rewrite Hr.
  assert (U0 : u <> "") by (intros ->; now apply H0).
  assert (U1 : u <> "*") by (intros ->; now apply H1).
  now rewrite !(findall_unqualified (Element tag text children) u _
                   Hu U0 U1 Hc).
Qed.

(** X13.  The XML extractor yields one record per package element it
    visits, in the order of the document; each of the nine scalar fields
    of a record is the trimmed text of the like-named child of its
    element (the sentinel when the child is absent or empty), the
    supplier being cleaned. *)
Theorem xml_records_follow_document :
  forall (root : element) (done : list dict),
    parse_spdx_xml_root root = Ok done ->
    Forall2 (fun package c =>
               forall field tag,
                 In (field, tag) xml_fields ->
                 dict_get c field VNone
                 = VStr (if String.eqb field "Supplier"
                         then normalize_supplier
                                (get_text (namespace root) package tag)
                         else get_text (namespace root) package tag))
            (xml_packages root) done.
Proof.
  intros root done H; unfold parse_spdx_xml_root in H.
  destruct (collect_components _ _ _ _ H) as (cs & -> & Hcs).
  cbn [app]; unfold xml_packages; clear H.
  induction Hcs as [|p c ps cs Hp _ IH]; [constructor|].
  constructor; [exact (xml_component_scalars _ _ _ Hp) | exact IH].
Qed.

(** ** Further properties of the CSV output *)

Lemma save_rows_within (W : world) (components : list dict) (written : string) :
  Forall (fun c => within_fieldnames c = true) components ->
  for_each (fun written rowdict =>
              row <- dict_to_list W rowdict ;;
              Ok (written ++ Csv.writerow row)%string)
           components written
  = Ok (written ++ CsvStream.text_of_rows (map (csv_row W) components))%string.
Proof.
  intros H; revert written; induction H as [|c cs Hc _ IH]; intros written.
  - simpl; now rewrite append_nil_r.
  - cbn [for_each map CsvStream.text_of_rows].
    unfold dict_to_list at 1; unfold within_fieldnames in Hc; rewrite Hc.
    cbn [bind]; fold (csv_row W c).
    now rewrite IH, append_assoc.
Qed.

(** X14.  Whenever the keys of the records are among the ten field names
    and the texts to write are ASCII, [save_to_csv] succeeds, and reading
    the file back gives the header and one row of ten texts per record,
    in order: the text of a field that is text, the empty text for a
    field that is [None] or that the record lacks, and [str] of the value
    otherwise. *)
Theorem save_reads_back :
  forall (W : world) (components : list dict),
    Forall (fun c => within_fieldnames c = true) components ->
    Forall (fun c => ascii_row W c = true) components ->
    exists text,
      save_to_csv W components = Ok text
      /\ CsvReader.read text
         = Ok (FIELDNAMES
               :: map (fun c =>
                         map (fun key =>
                                field_text W (dict_get c key (VStr "")))
                             FIELDNAMES) components).
Proof.
  intros W components H _.
  exists (CsvStream.text_of_rows (FIELDNAMES :: map (csv_row W) components)).
  split.
  - unfold save_to_csv; now rewrite save_rows_within.
  - rewrite rows_read; reflexivity.
Qed.

Lemma keys_within (c : dict) :
  keys c = FIELDNAMES -> within_fieldnames c = true.
Proof.
  unfold within_fieldnames; intros ->; reflexivity.
Qed.

Lemma json_data_keys (sbom_data : value) (done : list dict) :
  parse_spdx_json_data sbom_data = Ok done ->
  Forall (fun c => keys c = FIELDNAMES) done.
Proof.
  unfold parse_spdx_json_data.
  destruct (get sbom_data "packages" (VList [])) as [p|]; [|discriminate].
  cbn [bind]; destruct (iter p) as [items|]; [|discriminate].
  cbn [bind]; intros H.
  destruct (collect_components _ _ _ _ H) as (cs & -> & Hcs).
  cbn [app]; clear H.
  induction Hcs as [|x c xs cs Hx _ IH]; constructor; [|exact IH].
  destruct (json_component_fields _ _ Hx) as (d & _ & Hk & _); exact Hk.
Qed.

Lemma text_records_keys (done : list dict) :
  Forall text_record done -> Forall (fun c => keys c = FIELDNAMES) done.
Proof.
  intros H; induction H as [|c cs [Hk _] _ IH]; constructor; assumption.
Qed.

Lemma parse_sbom_keys (W : world) (input_file : string) (done : list dict) :
  parse_sbom W input_file = Ok done ->
  Forall (fun c => keys c = FIELDNAMES) done.
Proof.
  unfold parse_sbom.
  destruct (String.eqb _ ".json").
  { unfold parse_spdx_json.
    destruct (read_text W input_file) as [text|]; [|discriminate].
    cbn [bind]; destruct (json_loads W text); [|discriminate].
    apply json_data_keys. }
  destruct (existsb _ _).
  { unfold parse_spdx_tv.
    destruct (read_text W input_file) as [text|]; [|discriminate].
    cbn [bind]; intros H.
    destruct (parse_spdx_tv_lines_ok (readlines text)) as (done' & E & Ht).
    rewrite E in H; injection H as <-; now apply text_records_keys. }
  destruct (String.eqb _ ".xml"); [|discriminate].
  unfold parse_spdx_xml.
  destruct (ET_parse W input_file) as [root|]; [|discriminate].
  cbn [bind]; unfold parse_spdx_xml_root; intros H.
  destruct (collect_components _ _ _ _ H) as (cs & -> & Hcs).
  apply text_records_keys; cbn [app].
  apply (Forall2_right _ _ _ _ (xml_component_text _) Hcs).
Qed.

(** X15.  What [parse_sbom] returns can be saved as it is when its texts
    are ASCII: the keys of the records of any of the three extractors
    are the field names, so that [save_to_csv] raises nothing on them,
    and the file reads back as the header followed by one row per
    record, in order. *)
Theorem parsed_records_can_be_saved :
  forall (W : world) (input_file : string) (done : list dict),
    parse_sbom W input_file = Ok done ->
    Forall (fun c => ascii_row W c = true) done ->
    exists text,
      save_to_csv W done = Ok text
      /\ CsvReader.read text
         = Ok (FIELDNAMES
               :: map (fun c =>
                         map (fun key =>
                                field_text W (dict_get c key (VStr "")))
                             FIELDNAMES) done).
Proof.
  intros W input_file done H _.
  exists (CsvStream.text_of_rows (FIELDNAMES :: map (csv_row W) done)).
  split.
  - unfold save_to_csv; rewrite save_rows_within; [reflexivity|].
    exact (Forall_impl _ keys_within (parse_sbom_keys _ _ _ H)).
  - rewrite rows_read; reflexivity.
Qed.

(** X16.  A record with a key that is no field name is refused: the
    records before it being acceptable, [save_to_csv] raises
    [ValueError]. *)
Theorem extra_key_refused :
  forall (W : world) (before after : list dict) (c : dict),
    Forall (fun c => within_fieldnames c = true) before ->
    within_fieldnames c = false ->
    exists msg,
      save_to_csv W (before ++ c :: after) = Raise (ValueError msg).
Proof.
  intros W before after c Hb Hc; unfold save_to_csv.
  rewrite for_each_app, (save_rows_within W before _ Hb).
  cbn [bind for_each]; unfold dict_to_list.
  unfold within_fieldnames in Hc; rewrite Hc.
  eexists; reflexivity.
Qed.

(** ** Further properties of the two helpers *)

Lemma rstrip_idem (s : string) : PyStr.rstrip (PyStr.rstrip s) = PyStr.rstrip s.
Proof.
  induction s as [|c s IH]; [reflexivity|].
  cbn [PyStr.rstrip].
  destruct (PyStr.rstrip s) as [|c' r] eqn:E.
  - destruct (PyStr.isspace c) eqn:Hc; [reflexivity|].
    cbn [PyStr.rstrip]; now rewrite Hc.
  - cbn [PyStr.rstrip] in *; now rewrite IH.
Qed.

Lemma lstrip_head (s : string) :
  PyStr.lstrip s = ""
  \/ exists c r, PyStr.lstrip s = String c r /\ PyStr.isspace c = false.
Proof.
  induction s as [|c s IH]; [now left|].
  cbn [PyStr.lstrip]; destruct (PyStr.isspace c) eqn:Hc; [exact IH|].
  right; eauto.
Qed.

Lemma strip_idem (s : string) : PyStr.strip (PyStr.strip s) = PyStr.strip s.
Proof.
  unfold PyStr.strip.
  destruct (lstrip_head s) as [-> | (c & r & -> & Hc)]; [reflexivity|].
  rewrite (rstrip_cons c r Hc), (lstrip_cons _ _ Hc).
  rewrite <- (rstrip_cons c r Hc); apply rstrip_idem.
Qed.

(** X17.  The supplier text that [clean_supplier] returns has no
    whitespace at either end: trimming it again changes nothing. *)
Theorem cleaned_supplier_is_trimmed :
  forall raw r : string,
    clean_supplier (VStr raw) = Ok (VStr r) -> PyStr.strip r = r.
Proof.
  intros raw r; rewrite clean_supplier_text; intros [= <-].
  unfold normalize_supplier, SENTINEL.
  destruct (String.eqb_spec raw "") as [->|_]; [reflexivity|].
  destruct (String.eqb_spec raw "N/A") as [->|_]; [reflexivity|].
  cbn [orb].
  repeat (match goal with
          | |- context [if ?b then _ else _] => destruct b
          end; [apply strip_idem|]).
  apply strip_idem.
Qed.

Lemma upper_lower_char (c : ascii) :
  PyStr.upper_char (PyStr.lower_char c) = PyStr.upper_char c.
Proof. destruct c as [[] [] [] [] [] [] [] []]; reflexivity. Qed.

Lemma upper_upper_char (c : ascii) :
  PyStr.upper_char (PyStr.upper_char c) = PyStr.upper_char c.
Proof. destruct c as [[] [] [] [] [] [] [] []]; reflexivity. Qed.

Lemma normalize_underscore_char (c : ascii) :
  (let u := PyStr.upper_char (if Ascii.eqb c "-" then "_"%char else c) in
   if Ascii.eqb u "_" then "-"%char else u)
  = (let u := PyStr.upper_char c in if Ascii.eqb u "_" then "-"%char else u).
Proof. destruct c as [[] [] [] [] [] [] [] []]; reflexivity. Qed.

Lemma normalize_hyphen_char (c : ascii) :
  (let u := PyStr.upper_char (if Ascii.eqb c "_" then "-"%char else c) in
   if Ascii.eqb u "_" then "-"%char else u)
  = (let u := PyStr.upper_char c in if Ascii.eqb u "_" then "-"%char else u).
Proof. destruct c as [[] [] [] [] [] [] [] []]; reflexivity. Qed.

Lemma normalize_category_respelled (g : string -> string) (c : string) :
  In g [PyStr.lower; PyStr.upper;
        PyStr.replace_char "-" "_"; PyStr.replace_char "_" "-"] ->
  normalize_category (g c) = normalize_category c.
Proof.
  unfold normalize_category, PyStr.replace_char, PyStr.upper, PyStr.lower.
  intros [<-|[<-|[<-|[<-|[]]]]]; induction c as [|a c IH];
    try reflexivity; cbn [PyStr.map_chars]; rewrite IH; f_equal.
  - now rewrite upper_lower_char.
  - now rewrite upper_upper_char.
  - apply normalize_underscore_char.
  - apply normalize_hyphen_char.
Qed.

Lemma extract_entries (refs : list ExternalRef) :
  extract_package_manager_locator (VList (map VDict (map entry_dict refs)))
  = Ok (VStr (aggregate_locators refs)).
Proof.
  rewrite extract_typed.
  - rewrite map_map.
    replace (map (fun r => read_entry (entry_dict r)) refs) with refs;
      [reflexivity|].
    induction refs as [|[c l] refs IH]; [reflexivity|].
    cbn [map]; now rewrite <- IH.
  - induction refs as [|r refs IH]; constructor; [|exact IH].
    exists (category r), (locator r); split; reflexivity.
Qed.

Lemma filter_respell (g : string -> string) (refs : list ExternalRef) :
  In g [PyStr.lower; PyStr.upper;
        PyStr.replace_char "-" "_"; PyStr.replace_char "_" "-"] ->
  filter is_package_manager (map (respell g) refs)
  = map (respell g) (filter is_package_manager refs).
Proof.
  intros Hg; induction refs as [|r refs IH]; [reflexivity|].
  cbn [map filter].
  replace (is_package_manager (respell g r)) with (is_package_manager r).
  - destruct (is_package_manager r); cbn [map]; now rewrite IH.
  - unfold is_package_manager, respell; cbn [category].
    now rewrite (normalize_category_respelled g _ Hg).
Qed.

Lemma aggregate_respell (g : string -> string) (refs : list ExternalRef) :
  In g [PyStr.lower; PyStr.upper;
        PyStr.replace_char "-" "_"; PyStr.replace_char "_" "-"] ->
  aggregate_locators (map (respell g) refs) = aggregate_locators refs.
Proof.
  intros Hg; unfold aggregate_locators; rewrite (filter_respell g refs Hg).
  destruct (filter is_package_manager refs) as [|r kept]; [reflexivity|].
  change (match map (respell g) (r :: kept) with
          | [] => SENTINEL
          | _ :: _ => PyStr.join "; " (map locator (map (respell g) (r :: kept)))
          end = PyStr.join "; " (map locator (r :: kept))).
  cbn [map]; rewrite map_map; reflexivity.
Qed.

(** X18.  The aggregator does not tell the spellings of an ASCII category
    apart: when the categories of the entries are ASCII, putting them in
    lower or upper case, or swapping hyphens and underscores in them,
    changes nothing in its result. *)
Theorem category_spelling_is_irrelevant :
  forall (g : string -> string) (refs : list ExternalRef),
    In g [PyStr.lower; PyStr.upper;
          PyStr.replace_char "-" "_"; PyStr.replace_char "_" "-"] ->
    Forall (fun r => PyStr.isascii (category r) = true) refs ->
    extract_package_manager_locator
      (VList (map VDict (map entry_dict (map (respell g) refs))))
    = extract_package_manager_locator
        (VList (map VDict (map entry_dict refs))).
Proof.
  intros g refs Hg _; rewrite !extract_entries.
  now rewrite (aggregate_respell g refs Hg).
Qed.

(** ** Further properties of the dispatcher *)

Lemma rfind_from_app (f : ascii -> bool) (a b : string) (i last : Z) :
  rfind_from f (a ++ b) i last
  = rfind_from f b (i + Z.of_nat (String.length a)) (rfind_from f a i last).
Proof.
  revert i last; induction a as [|c a IH]; intros i last.
  - cbn [append rfind_from String.length]; now rewrite Z.add_0_r.
  - cbn [append rfind_from String.length]; rewrite IH.
    f_equal; lia.
Qed.

Lemma rfind_from_none (f : ascii -> bool) (s : string) (i last : Z) :
  none_of f s = true -> rfind_from f s i last = last.
Proof.
  revert i last; induction s as [|c s IH]; intros i last H; [reflexivity|].
  cbn [none_of] in H; apply Bool.andb_true_iff in H; destruct H as [Hc Hs].
  apply Bool.negb_true_iff in Hc.
  cbn [rfind_from]; rewrite Hc; now apply IH.
Qed.

Lemma rfind_from_lt (f : ascii -> bool) (s : string) (i last : Z) :
  (last < i)%Z ->
  (rfind_from f s i last < i + Z.of_nat (String.length s))%Z.
Proof.
  revert i last; induction s as [|c s IH]; intros i last H.
  - cbn [rfind_from String.length]; lia.
  - cbn [rfind_from String.length].
    specialize (IH (i + 1)%Z (if f c then i else last)).
    destruct (f c); lia.
Qed.

Lemma none_of_weaken (f g : ascii -> bool) (s : string) :
  (forall c, g c = true -> f c = true) ->
  none_of f s = true -> none_of g s = true.
Proof.
  intros Hfg; induction s as [|c s IH]; [reflexivity|].
  cbn [none_of]; intros H; apply Bool.andb_true_iff in H.
  destruct H as [Hc Hs]; rewrite (IH Hs), Bool.andb_true_r.
  apply Bool.negb_true_iff in Hc; apply Bool.negb_true_iff.
  destruct (g c) eqn:E; [|reflexivity].
  now rewrite (Hfg c E) in Hc.
Qed.

Lemma splitext_no_dot (sep : ascii -> bool) (pre name : string) :
  pre = "" \/ (exists dir c, pre = (dir ++ String c "")%string /\ sep c = true) ->
  none_of (fun c => Ascii.eqb "." c || sep c) name = true ->
  splitext sep (pre ++ name) = ((pre ++ name)%string, "").
Proof.
  intros Hpre Hname.
  assert (Hdot : none_of (Ascii.eqb ".") name = true).
  { apply (none_of_weaken _ _ _ (fun c H => Bool.orb_true_intro _ _ (or_introl H))
                          Hname). }
  assert (Hsep : none_of sep name = true).
  { apply (none_of_weaken _ _ _ (fun c H => Bool.orb_true_intro _ _ (or_intror H))
                          Hname). }
  unfold splitext, rfind.
  rewrite !rfind_from_app, (rfind_from_none _ name _ _ Hdot),
    (rfind_from_none _ name _ _ Hsep).
  assert (E : (rfind_from sep pre 0 (-1) <? rfind_from (Ascii.eqb ".") pre 0 (-1))%Z
              = false).
  { apply Z.ltb_ge.
    destruct Hpre as [->|(dir & c & -> & Hc)]; [cbn; lia|].
    rewrite !rfind_from_app; cbn [rfind_from]; rewrite Hc.
    pose proof (rfind_from_lt (Ascii.eqb ".") dir 0 (-1) ltac:(lia)).
    destruct (Ascii.eqb "." c); lia. }
  now rewrite E.
Qed.

(** X19.  Only a dot in the last component of the path makes an
    extension: when what follows the last separator (or the whole path,
    when it has none) holds no dot, [parse_sbom] raises the
    unsupported-format [ValueError] with an empty extension, whatever
    dots the directories have, and no file is read. *)
Theorem no_dot_no_format :
  forall (W : world) (pre name : string),
    pre = ""
    \/ (exists dir c, pre = (dir ++ String c "")%string /\ is_sep W c = true) ->
    none_of (fun c => Ascii.eqb "." c || is_sep W c) name = true ->
    parse_sbom W (pre ++ name) = Raise (ValueError "Unsupported format: ").
Proof.
  intros W pre name Hpre Hname; unfold parse_sbom.
  now rewrite (splitext_no_dot (is_sep W) pre name Hpre Hname).
Qed.

(** ** The table, the statistics and the filter *)

Lemma item_present (c : dict) (key : string) (default : value) :
  In key (keys c) -> Gui.item c key = Gui.Done (dict_get c key default).
Proof.
  induction c as [|[k v] c IH]; cbn [keys map fst In Gui.item dict_get];
    [tauto|].
  destruct (String.eqb_spec k key) as [->|Hne]; [reflexivity|].
  intros [H|H]; [contradiction | now apply IH].
Qed.

Lemma values_by_column (c : dict) :
  keys c = FIELDNAMES ->
  Gui.dict_values c = map (fun col => dict_get c col VNone) Gui.COLUMNS.
Proof.
  intros H.
  do 10 (destruct c as [|[? ?] c]; [discriminate|]).
  destruct c; [|discriminate].
  cbn in H; inversion H; subst; reflexivity.
Qed.

Lemma populate_from_keys (components : list dict) (i : nat) :
  Forall (fun c => keys c = FIELDNAMES) components ->
  exists rows,
    Gui.populate_from i components = (rows, None)
    /\ map Gui.values rows
       = map (fun c => map (fun col => dict_get c col VNone) Gui.COLUMNS)
             components.
Proof.
  intros H; revert i; induction H as [|c cs Hc _ IH]; intros i.
  - exists []; split; reflexivity.
  - destruct (IH (S i)) as (rows & E & Hv).
    cbn [Gui.populate_from].
    rewrite (item_present c "Package_Manager_Locator" VNone)
      by (rewrite Hc; simpl; tauto).
    rewrite E; eexists; split; [reflexivity|].
    cbn [map Gui.values]; now rewrite Hv, (values_by_column c Hc).
Qed.

(** X20.  For what [parse_sbom] returns, filling the table raises no
    [KeyError], puts one row per record in order, and each cell of a row
    holds the field of the record that its column is named after: the
    order in which the extractors build their records is the order of
    [COLUMNS]. *)
Theorem table_cells_match_columns :
  forall (W : world) (input_file : string) (done : list dict),
    parse_sbom W input_file = Ok done ->
    exists rows,
      Gui.populate_table done = (rows, None)
      /\ map Gui.values rows
         = map (fun c => map (fun col => dict_get c col VNone) Gui.COLUMNS)
               done.
Proof.
  intros W input_file done H.
  apply populate_from_keys, (parse_sbom_keys _ _ _ H).
Qed.

Lemma count_with_locator_bounds (components : list dict) (n : Z) :
  Gui.count_with_locator components = Gui.Done n ->
  (0 <= n <= Z.of_nat (List.length components))%Z.
Proof.
  revert n; induction components as [|c cs IH]; intros n.
  - intros [= <-]; simpl; lia.
  - cbn [Gui.count_with_locator].
    destruct (Gui.item c "Package_Manager_Locator") as [loc| |];
      try discriminate.
    cbn [Gui.and_then].
    destruct (Gui.count_with_locator cs) as [m| |]; try discriminate.
    cbn [Gui.and_then]; intros [= <-].
    specialize (IH m eq_refl); cbn [List.length].
    destruct (eq_str loc "N/A"); lia.
Qed.

Lemma set_add_length (num_eq : value -> value -> bool) (s : list value)
      (v : value) :
  (List.length (Gui.set_add num_eq s v) <= S (List.length s))%nat.
Proof.
  unfold Gui.set_add; destruct (existsb _ s); [lia|].
  rewrite length_app; simpl; lia.
Qed.

Lemma license_set_length (num_eq : value -> value -> bool)
      (components : list dict) (s0 s : list value) :
  Gui.license_set num_eq components s0 = Gui.Done s ->
  (List.length s <= List.length s0 + List.length components)%nat.
Proof.
  revert s0; induction components as [|c cs IH]; intros s0.
  - intros [= <-]; simpl; lia.
  - cbn [Gui.license_set].
    destruct (Gui.item c "License_Declared") as [v| |]; try discriminate.
    cbn [Gui.and_then].
    destruct (Gui.no_license v).
    + intros H; specialize (IH _ H); cbn [List.length]; lia.
    + destruct (Gui.hashable v); [|discriminate].
      intros H; specialize (IH _ H); cbn [List.length].
      pose proof (set_add_length num_eq s0 v); lia.
Qed.

(** X21.  Whenever the statistics are computed, the four numbers agree:
    the total is the number of records, the records with and without a
    locator add up to it, and none of the numbers, the count of licenses
    included, is negative or above the total. *)
Theorem stats_add_up :
  forall (num_eq : value -> value -> bool) (components : list dict)
         (s : Gui.stats),
    Gui.update_stats num_eq components = Gui.Done s ->
    Gui.total s = Z.of_nat (List.length components)
    /\ (Gui.with_purl s + Gui.no_purl s = Gui.total s)%Z
    /\ (0 <= Gui.with_purl s <= Gui.total s)%Z
    /\ (0 <= Gui.no_purl s <= Gui.total s)%Z
    /\ (0 <= Gui.licenses s <= Gui.total s)%Z.
Proof.
  intros num_eq components s; unfold Gui.update_stats.
  destruct (Gui.count_with_locator components) as [n| |] eqn:En;
    try discriminate.
  cbn [Gui.and_then].
  destruct (Gui.license_set num_eq components []) as [l| |] eqn:El;
    try discriminate.
  cbn [Gui.and_then]; intros [= <-]; cbn.
  pose proof (count_with_locator_bounds _ _ En).
  pose proof (license_set_length _ _ _ _ El); cbn [List.length] in *.
  repeat split; lia.
Qed.

Lemma count_with_locator_keys (components : list dict) :
  Forall (fun c => keys c = FIELDNAMES) components ->
  exists n, Gui.count_with_locator components = Gui.Done n.
Proof.
  intros H; induction H as [|c cs Hc _ [n IH]]; [now exists 0%Z|].
  cbn [Gui.count_with_locator].
  rewrite (item_present c "Package_Manager_Locator" VNone)
    by (rewrite Hc; simpl; tauto).
  cbn [Gui.and_then]; rewrite IH; cbn [Gui.and_then]; eauto.
Qed.

Lemma license_set_keys (num_eq : value -> value -> bool)
      (components : list dict) (s0 : list value) :
  Forall (fun c => keys c = FIELDNAMES) components ->
  (forall key, Gui.license_set num_eq components s0 <> Gui.KeyError key)
  /\ (Forall (fun c => Gui.hashable (dict_get c "License_Declared" VNone) = true)
             components ->
      exists s, Gui.license_set num_eq components s0 = Gui.Done s).
Proof.
  intros H; revert s0; induction H as [|c cs Hc _ IH]; intros s0.
  - split; [discriminate | intros _; now exists s0].
  - cbn [Gui.license_set].
    rewrite (item_present c "License_Declared" VNone)
      by (rewrite Hc; simpl; tauto).
    cbn [Gui.and_then].
    destruct (Gui.no_license (dict_get c "License_Declared" VNone)).
    + split; [apply IH|].
      intros Hh; apply IH; now inversion Hh.
    + destruct (Gui.hashable (dict_get c "License_Declared" VNone)) eqn:E.
      * split; [apply IH|].
        intros Hh; apply IH; now inversion Hh.
      * split; [discriminate|].
        intros Hh; inversion Hh; congruence.
Qed.

(** X22.  On what [parse_sbom] returns the statistics never raise
    [KeyError], and they are computed whenever no record holds a list or
    an object as its declared license (always, then, for tag-value and
    XML documents). *)
Theorem stats_of_parsed_records :
  forall (W : world) (input_file : string) (done : list dict)
         (num_eq : value -> value -> bool),
    parse_sbom W input_file = Ok done ->
    (forall key, Gui.update_stats num_eq done <> Gui.KeyError key)
    /\ (Forall (fun c => Gui.hashable (dict_get c "License_Declared" VNone)
                         = true) done ->
        exists s, Gui.update_stats num_eq done = Gui.Done s).
Proof.
  intros W input_file done num_eq H.
  pose proof (parse_sbom_keys _ _ _ H) as Hk.
  destruct (count_with_locator_keys done Hk) as [n En].
  destruct (license_set_keys num_eq done [] Hk) as [Hno Hyes].
  unfold Gui.update_stats; rewrite En; cbn [Gui.and_then].
  split.
  - intros key.
    destruct (Gui.license_set num_eq done []) as [s|k|e] eqn:E;
      cbn [Gui.and_then]; try discriminate.
    now elim (Hno k).
  - intros Hh; destruct (Hyes Hh) as [s ->]; cbn [Gui.and_then]; eauto.
Qed.

Lemma populate_from_cons (i : nat) (c : dict) (cs : list dict) (loc : value) :
  Gui.item c "Package_Manager_Locator" = Gui.Done loc ->
  Gui.populate_from i (c :: cs)
  = ({| Gui.iid := nat_str i;
        Gui.values := Gui.dict_values c;
        Gui.tags := if eq_str loc "N/A" then [zebra_tag i; "no_purl"]
                    else [zebra_tag i] |}
       :: fst (Gui.populate_from (S i) cs),
     snd (Gui.populate_from (S i) cs)).
Proof.
  intros H; change (Gui.populate_from i (c :: cs))
    with (match Gui.item c "Package_Manager_Locator" with
          | Gui.Done loc =>
              let '(rows, err) := Gui.populate_from (S i) cs in
              ({| Gui.iid := nat_str i;
                  Gui.values := Gui.dict_values c;
                  Gui.tags := if eq_str loc "N/A"
                              then [zebra_tag i; "no_purl"]
                              else [zebra_tag i] |} :: rows, err)
          | _ => ([], Some "Package_Manager_Locator")
          end).
  rewrite H; now destruct (Gui.populate_from (S i) cs).
Qed.

Lemma zebra_tag_plain (i : nat) : String.eqb "no_purl" (zebra_tag i) = false.
Proof.
  unfold zebra_tag; now destruct (Nat.eqb (i mod 2) 0).
Qed.

Lemma no_purl_rows (components : list dict) (i : nat) (rows : list Gui.row)
      (n : Z) :
  Gui.populate_from i components = (rows, None) ->
  Gui.count_with_locator components = Gui.Done n ->
  Z.of_nat (List.length (filter tagged_no_purl rows))
  = (Z.of_nat (List.length components) - n)%Z.
Proof.
  revert i rows n; induction components as [|c cs IH]; intros i rows n.
  - intros [= <-] [= <-]; reflexivity.
  - destruct (Gui.item c "Package_Manager_Locator") as [loc|k|e] eqn:Ei.
    + rewrite (populate_from_cons i c cs loc Ei).
      cbn [Gui.count_with_locator]; rewrite Ei; cbn [Gui.and_then].
      destruct (Gui.populate_from (S i) cs) as [rows' err] eqn:Ep.
      destruct (Gui.count_with_locator cs) as [m| |]; try discriminate.
      cbn [Gui.and_then fst snd]; intros [= <- ->] [= <-].
      specialize (IH _ _ _ Ep eq_refl).
      cbn [filter]; unfold tagged_no_purl at 1; cbn [Gui.tags].
      destruct (eq_str loc "N/A"); cbn [existsb];
        rewrite zebra_tag_plain;
        try change (String.eqb "no_purl" "no_purl") with true;
        cbn [orb List.length]; lia.
    + cbn [Gui.count_with_locator]; rewrite Ei; discriminate.
    + cbn [Gui.count_with_locator]; rewrite Ei; discriminate.
Qed.

(** X23.  The card of the records without locator and the table agree:
    when the table is filled and the statistics are computed from the
    same records, the number of rows tagged [no_purl] is the number the
    card shows. *)
Theorem no_purl_card_counts_tagged_rows :
  forall (num_eq : value -> value -> bool) (components : list dict)
         (rows : list Gui.row) (s : Gui.stats),
    Gui.populate_table components = (rows, None) ->
    Gui.update_stats num_eq components = Gui.Done s ->
    Z.of_nat (List.length (filter tagged_no_purl rows)) = Gui.no_purl s.
Proof.
  intros num_eq components rows s Hp; unfold Gui.update_stats.
  destruct (Gui.count_with_locator components) as [n| |] eqn:En;
    try discriminate.
  cbn [Gui.and_then].
  destruct (Gui.license_set num_eq components []); try discriminate.
  cbn [Gui.and_then]; intros [= <-]; cbn [Gui.no_purl].
  exact (no_purl_rows _ _ _ _ Hp En).
Qed.

Lemma existsb_same_key (num_eq : value -> value -> bool) (v : string)
      (l : list string) :
  existsb (Gui.same_key num_eq (VStr v)) (map VStr l)
  = existsb (String.eqb v) l.
Proof.
  induction l as [|x l IH]; [reflexivity|].
  cbn [map existsb Gui.same_key]; now rewrite IH.
Qed.

Lemma license_set_text (num_eq : value -> value -> bool)
      (components : list dict) (ls l0 : list string) (s : list value) :
  Forall2 (fun c l => Gui.item c "License_Declared" = Gui.Done (VStr l))
          components ls ->
  NoDup l0 ->
  Gui.license_set num_eq components (map VStr l0) = Gui.Done s ->
  exists l,
    s = map VStr l /\ NoDup l
    /\ forall x, In x l <-> In x l0 \/ In x (filter real_license ls).
Proof.
  intros H; revert l0 s; induction H as [|c l cs ls Hc _ IH]; intros l0 s Hnd.
  - intros [= <-]; exists l0; split; [reflexivity|]; split; [assumption|].
    intros x; cbn [filter In]; tauto.
  - cbn [Gui.license_set]; rewrite Hc; cbn [Gui.and_then filter].
    unfold real_license at 1.
    destruct (Gui.no_license (VStr l)); cbn [negb].
    + now apply IH.
    + cbn [Gui.hashable]; unfold Gui.set_add.
      rewrite existsb_same_key.
      destruct (existsb (String.eqb l) l0) eqn:E.
      * intros Hs; destruct (IH _ _ Hnd Hs) as (r & -> & Hr & Hin).
        exists r; split; [reflexivity|]; split; [assumption|].
        intros x; rewrite Hin; cbn [In].
        apply existsb_exists in E; destruct E as (y & Hy & Ey).
        apply String.eqb_eq in Ey; subst y.
        intuition (subst; auto).
      * replace (map VStr l0 ++ [VStr l]) with (map VStr (l0 ++ [l]))
          by (now rewrite map_app).
        intros Hs.
        assert (Hnd' : NoDup (l0 ++ [l])).
        { apply NoDup_app; [assumption | repeat constructor; intros [] |].
          intros x Hx [E'|[]]; subst x.
          assert (existsb (String.eqb l) l0 = true)
            by (apply existsb_exists; exists l; split;
                [assumption | apply String.eqb_refl]).
          congruence. }
        destruct (IH _ _ Hnd' Hs) as (r & -> & Hr & Hin).
        exists r; split; [reflexivity|]; split; [assumption|].
        intros x; rewrite Hin, in_app_iff; cbn [In]; intuition.
Qed.

(** X24.  For records whose declared licenses are text, the licenses card
    shows the number of different license texts among them, not counting
    "N/A", "NOASSERTION" and the empty text. *)
Theorem licenses_card_counts_distinct :
  forall (num_eq : value -> value -> bool) (components : list dict)
         (ls : list string) (s : Gui.stats),
    Forall2 (fun c l => Gui.item c "License_Declared" = Gui.Done (VStr l))
            components ls ->
    Gui.update_stats num_eq components = Gui.Done s ->
    Gui.licenses s
    = Z.of_nat (List.length (nodup String.string_dec
                                   (filter real_license ls))).
Proof.
  intros num_eq components ls s Hl; unfold Gui.update_stats.
  destruct (Gui.count_with_locator components); try discriminate.
  cbn [Gui.and_then].
  destruct (Gui.license_set num_eq components []) as [set| |] eqn:E;
    try discriminate.
  cbn [Gui.and_then]; intros [= <-]; cbn [Gui.licenses]; f_equal.
  destruct (license_set_text num_eq components ls [] set Hl (NoDup_nil _) E)
    as (l & -> & Hnd & Hin).
  rewrite length_map; apply Permutation_length, NoDup_Permutation;
    [assumption | apply NoDup_nodup|].
  intros x; rewrite Hin, nodup_In; cbn [In]; tauto.
Qed.

Lemma filter_loop_from (W : world) (query col : string)
      (components acc : list dict) (f : dict -> bool) :
  Forall (fun c => Gui.filter_match W query col c = Ok (f c)) components ->
  for_each (fun filtered comp =>
              m <- Gui.filter_match W query col comp ;;
              Ok (if m then filtered ++ [comp] else filtered))
           components acc
  = Ok (acc ++ filter f components).
Proof.
  intros H; revert acc; induction H as [|c cs Hc _ IH]; intros acc.
  - simpl; now rewrite app_nil_r.
  - cbn [for_each filter]; rewrite Hc; cbn [bind]; rewrite IH.
    destruct (f c); [now rewrite <- app_assoc | reflexivity].
Qed.

Lemma filter_match_column (W : world) (query col : string) (c : dict) :
  keys c = FIELDNAMES -> In col Gui.COLUMNS ->
  Gui.filter_match W query col c
  = Ok (Gui.contains (PyStr.lower (Gui.str_of W (dict_get c col VNone))) query).
Proof.
  intros H Hcol.
  do 10 (destruct c as [|[? ?] c]; [discriminate|]).
  destruct c; [|discriminate].
  cbn in H; inversion H; subst; clear H.
  unfold Gui.COLUMNS in Hcol; cbn [In] in Hcol.
  repeat (destruct Hcol as [<-|Hcol]; [reflexivity|]).
  contradiction.
Qed.

(** X25.  On what [parse_sbom] returns, a filter on one of the ten
    columns shows exactly the records whose field of that name, as text
    in lower case, contains the query in lower case, in their order, and
    raises nothing. *)
Theorem column_filter_reads_its_field :
  forall (W : world) (input_file text col : string) (done : list dict),
    parse_sbom W input_file = Ok done ->
    done <> [] ->
    In col Gui.COLUMNS ->
    PyStr.strip text <> Gui.FILTER_PLACEHOLDER ->
    PyStr.lower (PyStr.strip text) <> "" ->
    exists status,
      Gui.apply_filter W true done text col
      = Ok (Some (filter (fun c =>
                            Gui.contains
                              (PyStr.lower
                                 (Gui.str_of W (dict_get c col VNone)))
                              (PyStr.lower (PyStr.strip text)))
                         done,
                  status)).
Proof.
  intros W input_file text col done H Hne Hcol Hph Hq.
  unfold Gui.apply_filter; cbn [negb].
  destruct done as [|c cs]; [now elim Hne|].
  apply String.eqb_neq in Hph, Hq; rewrite Hph, Hq.
  unfold Gui.filter_loop.
  rewrite (filter_loop_from W _ col (c :: cs) []
             (fun c => Gui.contains
                         (PyStr.lower (Gui.str_of W (dict_get c col VNone)))
                         (PyStr.lower (PyStr.strip text)))).
  - cbn [bind app]; eexists; reflexivity.
  - pose proof (parse_sbom_keys _ _ _ H) as Hk.
    apply Forall_forall; intros x Hx.
    rewrite Forall_forall in Hk.
    now apply filter_match_column; [apply Hk|].
Qed.

Lemma filter_loop_sound (W : world) (query col : string)
      (components acc shown : list dict) :
  for_each (fun filtered comp =>
              m <- Gui.filter_match W query col comp ;;
              Ok (if m then filtered ++ [comp] else filtered))
           components acc
  = Ok shown ->
  forall c, In c shown ->
            In c acc
            \/ (In c components /\ Gui.filter_match W query col c = Ok true).
Proof.
  revert acc; induction components as [|x xs IH]; intros acc.
  - intros [= <-] c Hc; now left.
  - cbn [for_each].
    destruct (Gui.filter_match W query col x) as [m|] eqn:E; [|discriminate].
    cbn [bind]; intros H c Hc.
    destruct (IH _ H c Hc) as [Hacc | [Hin Hm]].
    + destruct m; [|now left].
      apply in_app_or in Hacc; destruct Hacc as [Hacc | [<-|[]]];
        [now left | right; split; [now left | assumption]].
    + right; split; [now right | assumption].
Qed.

Lemma filter_match_all (W : world) (query col : string) (c : dict) :
  Gui.filter_match W query col c = Ok true ->
  Gui.filter_match W query "All" c = Ok true.
Proof.
  unfold Gui.filter_match.
  destruct (String.eqb col "All"); [now cbn|].
  change (String.eqb "All" "All") with true; cbv iota.
  destruct (nth_error (Gui.dict_values c) _) as [v|] eqn:E; [|discriminate].
  intros [= Hv]; f_equal.
  apply existsb_exists; exists v; split; [|assumption].
  exact (nth_error_In _ _ E).
Qed.

(** X26.  Filtering on all columns never raises, whatever the records
    are.  And it shows at least what filtering on one column shows: every
    record shown for the same query on a column, when that filter
    returns, is shown on "All". *)
Theorem all_columns_filter_shows_more :
  forall (W : world) (query : string) (components : list dict),
    exists shown_all,
      Gui.filter_loop W query "All" components = Ok shown_all
      /\ forall (col : string) (shown : list dict),
           Gui.filter_loop W query col components = Ok shown ->
           incl shown shown_all.
Proof.
  intros W query components.
  eexists; split.
  - unfold Gui.filter_loop.
    rewrite (filter_loop_from W query "All" components []
               (fun c =>
                  existsb (fun v => Gui.contains
                                      (PyStr.lower (Gui.str_of W v)) query)
                          (Gui.dict_values c))); [reflexivity|].
    apply Forall_forall; intros c _; reflexivity.
  - intros col shown H c Hc.
    destruct (filter_loop_sound W query col components [] shown H c Hc)
      as [[] | [Hin Hm]].
    apply filter_In; split; [assumption|].
    pose proof (filter_match_all W query col c Hm) as Hall.
    unfold Gui.filter_match in Hall.
    change (String.eqb "All" "All") with true in Hall; cbv iota in Hall.
    now injection Hall.
Qed.

(** ** The further properties at work on the examples *)

Lemma inert_line_skipped_witness :
  inert "# a comment" = true
  /\ inert "FilesAnalyzed: false" = true
  /\ inert "ExternalRef: SECURITY cpe23Type" = true
  /\ parse_spdx_tv_lines ["PackageName: left-pad"; "# a comment";
                          "PackageVersion: 1.3.0"]
     = parse_spdx_tv_lines ["PackageName: left-pad"; "PackageVersion: 1.3.0"].
Proof.
  repeat (split; [reflexivity|]).
  exact (inert_line_skipped "# a comment" ["PackageName: left-pad"]
           ["PackageVersion: 1.3.0"] eq_refl).
Defined.

Lemma lines_before_first_package_ignored_witness :
  parse_spdx_tv_lines ["SPDXVersion: SPDX-2.3"; "SPDXID: SPDXRef-DOCUMENT";
                       "PackageName: left-pad"]
  = parse_spdx_tv_lines ["PackageName: left-pad"].
Proof.
  apply (lines_before_first_package_ignored
           ["SPDXVersion: SPDX-2.3"; "SPDXID: SPDXRef-DOCUMENT"]
           ["PackageName: left-pad"]).
  apply Forall_cons; [reflexivity|].
  apply Forall_cons; [reflexivity | apply Forall_nil].
Defined.

Lemma one_record_per_package_line_witness :
  parse_spdx_tv_lines (readlines Samples.tv_text) = Ok Samples.tv_records
  /\ List.length Samples.tv_records = 2.
Proof.
  split; [reflexivity|].
  exact (one_record_per_package_line (readlines Samples.tv_text)
           Samples.tv_records eq_refl).
Defined.

Lemma tag_line_sets_its_field_witness :
  tv_line (opened "PackageName: left-pad") " PackageSupplier: Person: Ann "
  = Ok {| components := [];
          current_package :=
            Some (dict_set (new_package "left-pad") "Supplier" (VStr "Ann"));
          current_ext_refs := [] |}.
Proof.
  exact (tag_line_sets_its_field "PackageSupplier:" "Supplier"
           (opened "PackageName: left-pad") (new_package "left-pad")
           " PackageSupplier: Person: Ann " " Person: Ann"
           (or_intror (or_intror (or_introl eq_refl))) eq_refl eq_refl).
Defined.

Lemma ext_ref_line_tokens_witness :
  parse_spdx_tv_lines
    ["PackageName: left-pad";
     "ExternalRef: package_manager purl pkg:npm/left-pad@1.3.0 and more"]
  = Ok [Expected.left_pad_located].
Proof.
  exact (ext_ref_line_tokens "PackageName: left-pad"
           "ExternalRef: package_manager purl pkg:npm/left-pad@1.3.0 and more"
           " package_manager purl pkg:npm/left-pad@1.3.0 and more"
           "package_manager" "purl" "pkg:npm/left-pad@1.3.0" ["and"; "more"]
           eq_refl eq_refl eq_refl).
Defined.

Lemma packages_without_fields_witness :
  parse_spdx_json_data
    (VDict [("packages", VList [VDict []; VDict [("comment", VStr "x")]])])
  = Ok [new_package "N/A"; new_package "N/A"].
Proof.
  refine (packages_without_fields
            [("packages", VList [VDict []; VDict [("comment", VStr "x")]])]
            [[]; [("comment", VStr "x")]] eq_refl _).
  apply Forall_cons; [intros src _ []|].
  apply Forall_cons; [|apply Forall_nil].
  intros src Hsrc [H|[]]; subst src.
  simpl in Hsrc; repeat (destruct Hsrc as [Hsrc|Hsrc]; [discriminate|]).
  contradiction.
Defined.

Lemma failing_package_fails_the_parse_witness :
  parse_spdx_json_data
    (VDict [("packages", VList [VDict [("name", VStr "left-pad")];
                                VStr "is-odd"])])
  = Raise (AttributeError "str" "get").
Proof.
  refine (proj1 failing_package_fails_the_parse
            [("packages", VList [VDict [("name", VStr "left-pad")];
                                 VStr "is-odd"])]
            [VDict [("name", VStr "left-pad")]] [] (VStr "is-odd")
            [new_package "left-pad"] _ eq_refl _ _).
  - apply Forall2_cons; [reflexivity | apply Forall2_nil].
  - refine (proj2 failing_package_fails_the_parse (VStr "is-odd") _).
    intros d; discriminate.
Defined.

Lemma packages_not_iterable_witness :
  parse_spdx_json_data (VDict [("packages", VNone)])
  = Raise (TypeError "'NoneType' object is not iterable").
Proof.
  exact (packages_not_iterable [("packages", VNone)] VNone eq_refl I).
Defined.

Lemma supplier_that_is_no_text_witness :
  dict_get (Expected.with_supplier VNone) "Supplier" (VStr "N/A") = VNone
  /\ json_component (VDict [("supplier", VInt 7)])
     = Raise (AttributeError "int" "startswith").
Proof.
  split.
  - exact (proj1 (supplier_that_is_no_text [("supplier", VNone)] VNone eq_refl)
             eq_refl (Expected.with_supplier VNone) eq_refl).
  - refine (proj2 (supplier_that_is_no_text [("supplier", VInt 7)] (VInt 7)
                     eq_refl) eq_refl _).
    intros s; discriminate.
Defined.

Lemma xml_extractor_only_error_witness :
  parse_spdx_xml_root Examples.empty_category
  = Raise (AttributeError "NoneType" "strip")
  /\ AttributeError "NoneType" "strip" = AttributeError "NoneType" "strip".
Proof.
  split; [reflexivity|].
  exact (xml_extractor_only_error Examples.empty_category _ eq_refl).
Defined.

Lemma namespace_of_root_witness :
  namespace Samples.xml_root = "{urn:spdx}"
  /\ namespace Examples.empty_category = "".
Proof.
  split.
  - exact (proj1 namespace_of_root "urn:spdx" "doc" None [Samples.xml_package]
             eq_refl).
  - exact (proj2 namespace_of_root "doc" None _ eq_refl).
Defined.

Lemma unqualified_children_not_found_witness :
  parse_spdx_xml_root
    (Element "{urn:spdx}doc" None
       [Element "packages" None [Element "name" (Some "left-pad") []]])
  = Ok [].
Proof.
  apply (proj1 unqualified_children_not_found "{urn:spdx}doc" None
           [Element "packages" None [Element "name" (Some "left-pad") []]]
           eq_refl); [discriminate | discriminate |].
  apply Forall_cons; [reflexivity | apply Forall_nil].
Defined.

Lemma xml_records_follow_document_witness :
  exists c,
    parse_spdx_xml_root Samples.xml_root = Ok [c]
    /\ dict_get c "Name" VNone = VStr "left-pad"
    /\ dict_get c "Supplier" VNone = VStr "Acme"
    /\ dict_get c "Version" VNone = VStr "N/A".
Proof.
  eexists; split; [reflexivity|].
  pose proof (xml_records_follow_document Samples.xml_root _ eq_refl) as F.
  inversion F as [|p c ps cs H _]; subst.
  split; [|split].
  - exact (H "Name" "name" (or_intror (or_introl eq_refl))).
  - exact (H "Supplier" "supplier"
             (or_intror (or_intror (or_intror (or_introl eq_refl))))).
  - exact (H "Version" "versionInfo"
             (or_intror (or_intror (or_introl eq_refl)))).
Defined.

Lemma save_reads_back_witness :
  exists text,
    save_to_csv Samples.machine [[("Name", VStr "left-pad")]; Samples.is_odd]
    = Ok text
    /\ CsvReader.read text
       = Ok [FIELDNAMES;
             [""; "left-pad"; ""; ""; ""; ""; ""; ""; ""; ""];
             ["N/A"; "is-odd"; "N/A"; "N/A"; "MIT"; "N/A"; "N/A"; "N/A";
              "N/A"; "N/A"]].
Proof.
  apply (save_reads_back Samples.machine
           [[("Name", VStr "left-pad")]; Samples.is_odd]).
  - apply Forall_cons; [reflexivity|].
    apply Forall_cons; [reflexivity | apply Forall_nil].
  - apply Forall_cons; [reflexivity|].
    apply Forall_cons; [reflexivity | apply Forall_nil].
Defined.

Lemma parsed_records_can_be_saved_witness :
  exists text,
    save_to_csv Samples.machine Samples.tv_records = Ok text
    /\ CsvReader.read text
       = Ok [FIELDNAMES;
             ["N/A"; "left-pad"; "1.3.0"; "N/A"; "MIT"; "N/A"; "N/A"; "N/A";
              "N/A"; "pkg:npm/left-pad@1.3.0"];
             ["N/A"; "is-odd"; "N/A"; "N/A"; "MIT"; "N/A"; "N/A"; "N/A";
              "N/A"; "N/A"]].
Proof.
  apply (parsed_records_can_be_saved Samples.machine "sbom.spdx"
           Samples.tv_records eq_refl).
  apply Forall_cons; [reflexivity|].
  apply Forall_cons; [reflexivity | apply Forall_nil].
Defined.

Lemma extra_key_refused_witness :
  exists msg,
    save_to_csv Samples.machine
                ([Samples.left_pad] ++ Samples.with_extra_key :: [])
    = Raise (ValueError msg).
Proof.
  apply (extra_key_refused Samples.machine [Samples.left_pad] []
           Samples.with_extra_key); [|reflexivity].
  apply Forall_cons; [reflexivity | apply Forall_nil].
Defined.

Lemma cleaned_supplier_is_trimmed_witness : PyStr.strip "Acme" = "Acme".
Proof.
  exact (cleaned_supplier_is_trimmed "Organization:  Acme  " "Acme" eq_refl).
Defined.

Lemma category_spelling_is_irrelevant_witness :
  extract_package_manager_locator
    (VList (map VDict (map entry_dict
                         (map (respell PyStr.lower)
                              Examples.left_pad_entries))))
  = extract_package_manager_locator
      (VList (map VDict (map entry_dict Examples.left_pad_entries))).
Proof.
  apply (category_spelling_is_irrelevant PyStr.lower
           Examples.left_pad_entries (or_introl eq_refl)).
  apply Forall_cons; [reflexivity|].
  apply Forall_cons; [reflexivity | apply Forall_nil].
Defined.

Lemma no_dot_no_format_witness :
  parse_sbom Samples.machine "/srv/v1.json/sbom"
  = Raise (ValueError "Unsupported format: ").
Proof.
  refine (no_dot_no_format Samples.machine "/srv/v1.json/" "sbom" _ eq_refl).
  right; exists "/srv/v1.json", "/"%char; split; reflexivity.
Defined.

Lemma table_cells_match_columns_witness :
  exists rows,
    Gui.populate_table Samples.tv_records = (rows, None)
    /\ map Gui.values rows
       = map (fun c => map (fun col => dict_get c col VNone) Gui.COLUMNS)
             Samples.tv_records.
Proof.
  exact (table_cells_match_columns Samples.machine "sbom.spdx"
           Samples.tv_records eq_refl).
Defined.

Lemma stats_add_up_witness :
  (1 + 1 = 2)%Z
  /\ Gui.update_stats Samples.num_eq Samples.tv_records
     = Gui.Done {| Gui.total := 2; Gui.with_purl := 1;
                   Gui.no_purl := 1; Gui.licenses := 1 |}.
Proof.
  split; [|reflexivity].
  exact (proj1 (proj2 (stats_add_up Samples.num_eq Samples.tv_records
                         {| Gui.total := 2; Gui.with_purl := 1;
                            Gui.no_purl := 1; Gui.licenses := 1 |}
                         eq_refl))).
Defined.

Lemma stats_of_parsed_records_witness :
  exists s, Gui.update_stats Samples.num_eq Samples.tv_records = Gui.Done s.
Proof.
  apply (proj2 (stats_of_parsed_records Samples.machine "sbom.spdx"
                  Samples.tv_records Samples.num_eq eq_refl)).
  apply Forall_cons; [reflexivity|].
  apply Forall_cons; [reflexivity | apply Forall_nil].
Defined.

Lemma no_purl_card_counts_tagged_rows_witness :
  Z.of_nat (List.length
              (filter tagged_no_purl
                      (fst (Gui.populate_table Samples.tv_records))))
  = 1%Z.
Proof.
  exact (no_purl_card_counts_tagged_rows Samples.num_eq Samples.tv_records
           (fst (Gui.populate_table Samples.tv_records))
           {| Gui.total := 2; Gui.with_purl := 1;
              Gui.no_purl := 1; Gui.licenses := 1 |}
           eq_refl eq_refl).
Defined.

Lemma licenses_card_counts_distinct_witness :
  1%Z = Z.of_nat (List.length (nodup String.string_dec
                                     (filter real_license ["MIT"; "MIT"]))).
Proof.
  apply (licenses_card_counts_distinct Samples.num_eq Samples.tv_records
           ["MIT"; "MIT"]
           {| Gui.total := 2; Gui.with_purl := 1;
              Gui.no_purl := 1; Gui.licenses := 1 |}); [|reflexivity].
  apply Forall2_cons; [reflexivity|].
  apply Forall2_cons; [reflexivity | apply Forall2_nil].
Defined.

Lemma column_filter_reads_its_field_witness :
  exists status,
    Gui.apply_filter Samples.machine true Samples.tv_records " PAD " "Name"
    = Ok (Some ([Samples.left_pad], status)).
Proof.
  refine (column_filter_reads_its_field Samples.machine "sbom.spdx" " PAD "
            "Name" Samples.tv_records eq_refl _
            (or_intror (or_introl eq_refl)) _ _); discriminate.
Defined.

Lemma all_columns_filter_shows_more_witness :
  (exists shown_all,
     Gui.filter_loop Samples.machine "mit" "All" Samples.tv_records
     = Ok shown_all
     /\ incl Samples.tv_records shown_all)
  /\ Gui.filter_loop Samples.machine "mit" "Name" [[]] = Raise IndexError
  /\ exists shown_all,
       Gui.filter_loop Samples.machine "mit" "All" [[]] = Ok shown_all.
Proof.
  split; [|split; [reflexivity|]].
  - destruct (all_columns_filter_shows_more Samples.machine "mit"
                Samples.tv_records) as (shown_all & Hall & Hincl).
    exists shown_all; split; [exact Hall|].
    exact (Hincl "License_Declared" Samples.tv_records eq_refl).
  - destruct (all_columns_filter_shows_more Samples.machine "mit" [[]])
      as (shown_all & Hall & _).
    exists shown_all; exact Hall.
Defined.
